(** * Skill half-life dashboard: the feature-derivation and filtering pipeline

    A shallow embedding of [src/app.py], lines 93-153: the cached loader
    [load_and_process_data] with its three derived columns, and the
    sidebar script that computes [df_filtered] from [df]; and of the two
    indicators of lines 228-256 that are computed from counts.

    pandas, numpy and Streamlit are outside the repository.  What the
    script relies on is modelled as follows.
    - [pd.read_csv] gives every column one type.  A column of whole
      numbers without a gap is an [int64] column: its cells are [CInt z]
      with [-2^63 <= z < 2^63], and integer arithmetic on it wraps around
      modulo [2^64] without raising.  Any other column of numbers is a
      [float64] column, in which a missing field is NaN ([pd.isna]); its
      arithmetic is IEEE-754 binary64, taken from the standard library's
      executable [SpecFloat] ([prec = 53], [emax = 1024]).  A column
      holding text is an [object] column: Python strings and, for
      missing fields, NaN.  Columns of other types ([bool], [uint64],
      dates) are not modelled.
    - An operation between two columns works cell by cell.  Between two
      numeric columns it is numpy's; as soon as an [object] column takes
      part it is Python's, and where Python raises [TypeError] pandas
      computes the cells without a missing value only and leaves NaN in
      the others ([_masked_arith_op]).
    - A DataFrame is its row labels and its columns in header order;
      DataFrame objects live in a store and the script holds references
      to them, so that [df[mask]] and [df.copy()] create objects and
      [df['c'] = s] updates one.
    - A raised Python exception is a [Raise] result; [st.stop()] raises
      Streamlit's [StopException]; an exception nobody catches ends the
      run and is rendered on the page.
    - [@st.cache_data] keeps the loader's return value across runs. *)

From Stdlib Require Import ZArith Bool String Ascii List Lia Floats.SpecFloat.
Import ListNotations.
Open Scope string_scope.

(* ================================================================== *)
(** ** binary64 *)

Module F64.

Definition prec : Z := 53.
Definition emax : Z := 1024.

Definition float64 := spec_float.

Definition nan : float64 := S754_nan.
Definition inf : float64 := S754_infinity false.
Definition zero : float64 := S754_zero false.

Definition mul : float64 -> float64 -> float64 := SFmul prec emax.
Definition div : float64 -> float64 -> float64 := SFdiv prec emax.
Definition ltb : float64 -> float64 -> bool := SFltb.
Definition leb : float64 -> float64 -> bool := SFleb.
Definition eqb : float64 -> float64 -> bool := SFeqb.

(** [m * 2^e] rounded to binary64: how a decimal literal or a Python
    [int] becomes a [float64]. *)
Definition of_dyadic (m e : Z) : float64 := binary_normalize prec emax m e false.
Definition of_Z (z : Z) : float64 := of_dyadic z 0.

Definition is_nan (x : float64) : bool :=
  match x with S754_nan => true | _ => false end.

Definition is_zero (x : float64) : bool :=
  match x with S754_zero _ => true | _ => false end.

Definition is_inf (x : float64) : bool :=
  match x with S754_infinity _ => true | _ => false end.

(** An ordinary number: neither NaN nor an infinity. *)
Definition is_finite (x : float64) : bool :=
  match x with S754_zero _ | S754_finite _ _ _ => true | _ => false end.

(** The sign bit is set and the value is not a zero. *)
Definition is_negative (x : float64) : bool :=
  match x with
  | S754_infinity s | S754_finite s _ _ => s
  | _ => false
  end.

End F64.

Import F64.

(* ================================================================== *)
(** ** Python values, exceptions and results *)

(** The exceptions the script can meet.  [PermissionError] and
    [ParserError] stand for the ways [pd.read_csv] fails on a source that
    exists but is unreadable. *)
Inductive exn : Type :=
| FileNotFoundError
| PermissionError
| ParserError
| KeyError
| TypeError
| StopException.

Definition exn_eqb (a b : exn) : bool :=
  match a, b with
  | FileNotFoundError, FileNotFoundError
  | PermissionError, PermissionError
  | ParserError, ParserError
  | KeyError, KeyError
  | TypeError, TypeError
  | StopException, StopException => true
  | _, _ => false
  end.

Inductive result (A : Type) : Type :=
| Ok (a : A)
| Raise (e : exn).
Arguments Ok {A} a.
Arguments Raise {A} e.

Definition rbind {A B} (r : result A) (k : A -> result B) : result B :=
  match r with
  | Ok a => k a
  | Raise e => Raise e
  end.

Definition rmap {A B} (f : A -> B) (r : result A) : result B :=
  rbind r (fun a => Ok (f a)).

Definition is_ok {A} (r : result A) : bool :=
  match r with Ok _ => true | Raise _ => false end.

Declare Scope result_scope.
Delimit Scope result_scope with res.
Notation "x <- c ;; k" := (rbind c (fun x => k))
  (at level 61, c at next level, right associativity) : result_scope.

(** One cell of a DataFrame: a float (NaN when the field is missing), an
    integer of an [int64] column, or a Python string. *)
Inductive cell : Type :=
| CFloat (f : float64)
| CInt (z : Z)
| CStr (s : string).

Definition NaN : cell := CFloat nan.

(** [pd.isna] on a scalar. *)
Definition isna (c : cell) : bool :=
  match c with
  | CFloat f => is_nan f
  | CInt _ | CStr _ => false
  end.

Definition is_str (c : cell) : bool :=
  match c with CStr _ => true | CFloat _ | CInt _ => false end.

(** A Python number: a float or an integer. *)
Definition is_num (c : cell) : bool :=
  match c with CFloat _ | CInt _ => true | CStr _ => false end.

(** The range of [int64]. *)
Definition int64 (z : Z) : bool := (- 2 ^ 63 <=? z)%Z && (z <? 2 ^ 63)%Z.

(** The result of an [int64] operation whose exact value is [z]: numpy
    keeps the low 64 bits, in two's complement, and raises nothing. *)
Definition wrap64 (z : Z) : Z := ((z + 2 ^ 63) mod 2 ^ 64 - 2 ^ 63)%Z.

(** A cell of a numeric column as [pd.read_csv] builds it: a float, or an
    integer within [int64]. *)
Definition numeric (c : cell) : bool :=
  match c with
  | CFloat _ => true
  | CInt z => int64 z
  | CStr _ => false
  end.

(** A number as a float: what numpy does to an [int64] operand that
    meets a float, and Python to an [int]. *)
Definition to_float (c : cell) : option float64 :=
  match c with
  | CFloat x => Some x
  | CInt z => Some (of_Z z)
  | CStr _ => None
  end.

(** [==] between a cell of a column and a scalar, or between two
    scalars: IEEE equality on floats (NaN equals nothing), exact
    comparison on integers and on strings, [False] between a number and
    a string.  An integer that meets a float is compared as a float;
    the select boxes never produce that case, their options being
    values of the column. *)
Definition cell_eq (a b : cell) : bool :=
  match a, b with
  | CFloat x, CFloat y => F64.eqb x y
  | CInt m, CInt n => Z.eqb m n
  | CInt m, CFloat y => F64.eqb (of_Z m) y
  | CFloat x, CInt n => F64.eqb x (of_Z n)
  | CStr s, CStr t => String.eqb s t
  | _, _ => false
  end.

(** Python [!=]. *)
Definition cell_ne (a b : cell) : bool := negb (cell_eq a b).

Fixpoint str_repeat (s : string) (n : nat) : string :=
  match n with
  | O => ""
  | S n' => s ++ str_repeat s n'
  end.

(** [a * b] on the cells of one row.  Two floats give the binary64
    product, two integers the [int64] product, an integer next to a
    float is converted first.  A string times an integer is the string
    repeated (no repetition for a count below one; for a count so large
    that the result does not fit in memory Python raises [MemoryError]
    instead, which is not modelled).  A string times a float or a string
    is a [TypeError], unless the other cell is missing: then the cell is
    left out of the computation and the result is NaN. *)
Definition cell_mul (a b : cell) : result cell :=
  match a, b with
  | CFloat x, CFloat y => Ok (CFloat (F64.mul x y))
  | CInt m, CInt n => Ok (CInt (wrap64 (m * n)))
  | CInt m, CFloat y => Ok (CFloat (F64.mul (of_Z m) y))
  | CFloat x, CInt n => Ok (CFloat (F64.mul x (of_Z n)))
  | CInt n, CStr s | CStr s, CInt n => Ok (CStr (str_repeat s (Z.to_nat n)))
  | CFloat x, CStr _ | CStr _, CFloat x =>
      if is_nan x then Ok NaN else Raise TypeError
  | CStr _, CStr _ => Raise TypeError
  end.

(** [a * 12] with the integer literal: a float is scaled, an integer is
    multiplied within [int64], a string is repeated. *)
Definition cell_mul_int (a : cell) (n : nat) : cell :=
  match a with
  | CFloat x => CFloat (F64.mul x (of_Z (Z.of_nat n)))
  | CInt z => CInt (wrap64 (z * Z.of_nat n))
  | CStr s => CStr (str_repeat s n)
  end.

(** [a / b] is true division: both numbers are taken as floats, and a
    division by zero gives an infinity or NaN under numpy's rules
    without raising.  A string operand is a [TypeError], unless the
    other cell is missing: then the result is NaN. *)
Definition cell_div (a b : cell) : result cell :=
  match to_float a, to_float b with
  | Some x, Some y => Ok (CFloat (F64.div x y))
  | _, _ => if isna a || isna b then Ok NaN else Raise TypeError
  end.

(* ================================================================== *)
(** ** Series and DataFrames *)

Definition Series := list cell.

Fixpoint mapM {A B} (f : A -> result B) (l : list A) : result (list B) :=
  match l with
  | [] => Ok []
  | a :: l' => (b <- f a ;; bs <- mapM f l' ;; Ok (b :: bs))%res
  end.

(** Element-wise binary operation on two columns of one frame (they share
    the index, so alignment is positional). *)
Fixpoint zipM (f : cell -> cell -> result cell) (a b : Series) : result Series :=
  match a, b with
  | x :: a', y :: b' => (z <- f x y ;; zs <- zipM f a' b' ;; Ok (z :: zs))%res
  | _, _ => Ok []
  end.

Definition series_mul : Series -> Series -> result Series := zipM cell_mul.
Definition series_div : Series -> Series -> result Series := zipM cell_div.
Definition series_mul_int (a : Series) (n : nat) : Series :=
  map (fun c => cell_mul_int c n) a.

(** [series == scalar]: the boolean mask. *)
Definition series_eq (a : Series) (v : cell) : list bool :=
  map (fun c => cell_eq c v) a.

(** A DataFrame: the row labels and the columns in header order. *)
Record DataFrame : Type := mkDF {
  index : list nat;
  data : list (string * Series)
}.

Definition columns (df : DataFrame) : list string := map fst (data df).

(** ['c' in df.columns] *)
Definition has_col (c : string) (df : DataFrame) : bool :=
  existsb (String.eqb c) (columns df).

Fixpoint lookup (c : string) (d : list (string * Series)) : option Series :=
  match d with
  | [] => None
  | (k, s) :: d' => if String.eqb c k then Some s else lookup c d'
  end.

(** [df['c']] *)
Definition getitem (df : DataFrame) (c : string) : result Series :=
  match lookup c (data df) with
  | Some s => Ok s
  | None => Raise KeyError
  end.

Fixpoint assign (c : string) (s : Series) (d : list (string * Series))
  : list (string * Series) :=
  match d with
  | [] => [(c, s)]
  | (k, t) :: d' => if String.eqb c k then (k, s) :: d' else (k, t) :: assign c s d'
  end.

(** [df['c'] = s]: overwrite the column in place or append a new one. *)
Definition setitem (df : DataFrame) (c : string) (s : Series) : DataFrame :=
  mkDF (index df) (assign c s (data df)).

(** [len(df)] *)
Definition len (df : DataFrame) : nat := length (index df).

(** Positional selection by a boolean mask; the kept elements stay in
    their order. *)
Fixpoint select {A} (m : list bool) (l : list A) : list A :=
  match m, l with
  | b :: m', x :: l' => if b then x :: select m' l' else select m' l'
  | _, _ => []
  end.

(** [df[mask]]: a new frame with the rows whose mask entry is [True]. *)
Definition bool_index (df : DataFrame) (m : list bool) : DataFrame :=
  mkDF (select m (index df)) (map (fun kc => (fst kc, select m (snd kc))) (data df)).

(** Every column is as long as the index, as in any frame [pd.read_csv]
    returns. *)
Definition well_formed (df : DataFrame) : Prop :=
  Forall (fun kc => length (snd kc) = len df) (data df).

(* ================================================================== *)
(** ** [pd.cut] with the script's bins and labels *)

(** The order numpy sorts and searches floats by: NaN comes last. *)
Definition np_lt (a b : float64) : bool :=
  F64.ltb a b || (is_nan b && negb (is_nan a)).

(** [a.searchsorted(x, side='left')] on a sorted array: the number of
    leading elements strictly below [x]. *)
Fixpoint searchsorted_left (a : list float64) (x : float64) : nat :=
  match a with
  | [] => 0
  | b :: a' => if np_lt b x then S (searchsorted_left a' x) else 0
  end.

(** One value through [pd.cut(..., bins, labels)] with the defaults
    [right=True], [include_lowest=False]: the bin number comes from
    [searchsorted], and a missing value or a value outside every bin
    gives NaN.  The edges are floats, so an integer is searched for as a
    float; a string cannot be compared with the edges. *)
Definition cut_cell (bins : list float64) (labels : list string) (c : cell)
  : result cell :=
  match to_float c with
  | None => Raise TypeError
  | Some x =>
      let ids := searchsorted_left bins x in
      if is_nan x || Nat.eqb ids (List.length bins) || Nat.eqb ids 0 then Ok NaN
      else match nth_error labels (ids - 1) with
           | Some l => Ok (CStr l)
           | None => Ok NaN
           end
  end.

Definition pd_cut (s : Series) (bins : list float64) (labels : list string)
  : result Series :=
  mapM (cut_cell bins labels) s.

(** [bins=[0, 2, 5, 10, np.inf]] *)
Definition urgency_bins : list float64 :=
  [of_Z 0; of_Z 2; of_Z 5; of_Z 10; inf].

(** [labels=['Critical (<2y)', 'High (2-5y)', 'Moderate (5-10y)', 'Low (>10y)']] *)
Definition Critical : string := "Critical (<2y)".
Definition High : string := "High (2-5y)".
Definition Moderate : string := "Moderate (5-10y)".
Definition Low : string := "Low (>10y)".
Definition urgency_labels : list string := [Critical; High; Moderate; Low].

(** The [Urgency_Category] of one [Years_to_50_Percent_Obsolescence]. *)
Definition urgency (c : cell) : result cell :=
  cut_cell urgency_bins urgency_labels c.

(** The [Reskilling_Viability_Ratio] of one row:
    [(years * 12) / months]. *)
Definition viability (years months : cell) : result cell :=
  cell_div (cell_mul_int years 12) months.

(* ================================================================== *)
(** ** Feature engineering (lines 102-116) *)

Definition AI_Adoption_Rate := "AI_Adoption_Rate".
Definition Skill_Depreciation_Rate := "Skill_Depreciation_Rate".
Definition Years := "Years_to_50_Percent_Obsolescence".
Definition Months := "Reskilling_Time_Months".
Definition Acceleration_Index := "Acceleration_Index".
Definition Urgency_Category := "Urgency_Category".
Definition Reskilling_Viability_Ratio := "Reskilling_Viability_Ratio".

Definition add_acceleration_index (df : DataFrame) : result DataFrame :=
  if has_col AI_Adoption_Rate df && has_col Skill_Depreciation_Rate df then
    (a <- getitem df AI_Adoption_Rate ;;
     b <- getitem df Skill_Depreciation_Rate ;;
     p <- series_mul a b ;;
     Ok (setitem df Acceleration_Index p))%res
  else Ok df.

Definition add_urgency_category (df : DataFrame) : result DataFrame :=
  if has_col Years df then
    (y <- getitem df Years ;;
     u <- pd_cut y urgency_bins urgency_labels ;;
     Ok (setitem df Urgency_Category u))%res
  else Ok df.

Definition add_viability_ratio (df : DataFrame) : result DataFrame :=
  if has_col Months df && has_col Years df then
    (y <- getitem df Years ;;
     m <- getitem df Months ;;
     r <- series_div (series_mul_int y 12) m ;;
     Ok (setitem df Reskilling_Viability_Ratio r))%res
  else Ok df.

(** The three assignments in program order, on the frame just read. *)
Definition feature_engineering (df : DataFrame) : result DataFrame :=
  (df <- add_acceleration_index df ;;
   df <- add_urgency_category df ;;
   df <- add_viability_ratio df ;;
   Ok df)%res.

(* ================================================================== *)
(** ** The script monad: object store, cache, screen, exceptions *)

(** What lines 93-153 of the script put on the page. *)
Inductive element : Type :=
| ErrorBox (msg : string)                 (* st.error(msg) *)
| SidebarTitle (text : string)            (* st.sidebar.title(text) *)
| SidebarMarkdown (text : string)         (* st.sidebar.markdown(text) *)
| SidebarSelectBox (label : string) (options : list cell)
                                          (* st.sidebar.selectbox(label, options) *)
| SidebarInfo (matched total : nat)       (* st.sidebar.info(f"... {n} of {m} records") *)
| ExceptionBox (e : exn).                 (* Streamlit's rendering of an uncaught exception *)

(** A Python reference to a DataFrame object. *)
Definition ref := nat.

Record State : Type := mkState {
  heap : list DataFrame;        (* the DataFrame objects, by address *)
  cache : option DataFrame;     (* the entry [st.cache_data] keeps for the loader *)
  screen : list element         (* elements rendered so far in this run *)
}.

(** What a run reads from outside: the outcome of
    [pd.read_csv('skill_half_life_ai.csv')] and the values the two select
    boxes return. *)
Record Inputs : Type := mkInputs {
  csv : result DataFrame;
  selected_sector : cell;
  selected_category : cell
}.

Definition M (A : Type) : Type := Inputs -> State -> result A * State.

Definition ret {A} (a : A) : M A := fun _ s => (Ok a, s).

Definition bind {A B} (c : M A) (k : A -> M B) : M B :=
  fun i s =>
    match c i s with
    | (Ok a, s') => k a i s'
    | (Raise e, s') => (Raise e, s')
    end.

Definition raise {A} (e : exn) : M A := fun _ s => (Raise e, s).

Definition lift {A} (r : result A) : M A := fun _ s => (r, s).

Declare Scope script_scope.
Delimit Scope script_scope with script.
Notation "x <- c ;; k" := (bind c (fun x => k))
  (at level 61, c at next level, right associativity) : script_scope.
Notation "c ;; k" := (bind c (fun _ => k))
  (at level 61, right associativity) : script_scope.

(** [try: body except e: handler] *)
Definition try_except {A} (body : M A) (e : exn) (handler : M A) : M A :=
  fun i s =>
    match body i s with
    | (Ok a, s') => (Ok a, s')
    | (Raise e', s') => if exn_eqb e e' then handler i s' else (Raise e', s')
    end.

Definition empty_frame : DataFrame := mkDF [] [].

(** A new object: a frame built by pandas, or a copy. *)
Definition alloc (d : DataFrame) : M ref :=
  fun _ s => (Ok (List.length (heap s)),
              mkState (heap s ++ [d])%list (cache s) (screen s)).

(** The object a reference points to. *)
Definition deref (r : ref) : M DataFrame :=
  fun _ s => (Ok (nth r (heap s) empty_frame), s).

Fixpoint set_nth {A} (n : nat) (a : A) (l : list A) : list A :=
  match n, l with
  | O, _ :: l' => a :: l'
  | S n', x :: l' => x :: set_nth n' a l'
  | _, [] => []
  end.

(** In-place update of the object behind a reference. *)
Definition store (r : ref) (d : DataFrame) : M unit :=
  fun _ s => (Ok tt, mkState (set_nth r d (heap s)) (cache s) (screen s)).

Definition render (e : element) : M unit :=
  fun _ s => (Ok tt, mkState (heap s) (cache s) (screen s ++ [e])%list).

Definition st_error (msg : string) : M unit := render (ErrorBox msg).

(** [st.stop()] *)
Definition st_stop {A} : M A := raise StopException.

(** [pd.read_csv('skill_half_life_ai.csv')] *)
Definition read_csv : M ref :=
  fun i s =>
    match csv i with
    | Ok d => alloc d i s
    | Raise e => (Raise e, s)
    end.

(** [@st.cache_data] on a function without arguments: a hit hands out a
    fresh copy of the stored value; a miss runs the body and stores its
    return value; a raised exception stores nothing. *)
Definition cache_data (body : M ref) : M ref :=
  fun i s =>
    match cache s with
    | Some d => alloc d i s
    | None =>
        match body i s with
        | (Ok r, s') =>
            (Ok r, mkState (heap s') (Some (nth r (heap s') empty_frame)) (screen s'))
        | (Raise e, s') => (Raise e, s')
        end
    end.

(* ================================================================== *)
(** ** [load_and_process_data] (lines 93-121) *)

Definition not_found_message : string :=
  "Dataset 'skill_half_life_ai.csv' not found. Please ensure the file is in the same directory.".

Definition load_body : M ref :=
  try_except
    (df <- read_csv ;;
     d <- deref df ;;
     d' <- lift (feature_engineering d) ;;
     store df d' ;;
     ret df)%script
    FileNotFoundError
    (st_error not_found_message ;; st_stop)%script.

Definition load_and_process_data : M ref := cache_data load_body.

(* ================================================================== *)
(** ** Sidebar controls (lines 126-153) *)

(** An integer against a float, by their exact values, as Python
    compares an [int] with a [float]; [None] against NaN. *)
Definition Z_compare_float (z : Z) (x : float64) : option comparison :=
  match x with
  | S754_nan => None
  | S754_infinity s => Some (if s then Gt else Lt)
  | S754_zero _ => Some (z ?= 0)%Z
  | S754_finite s m e =>
      let v := if s then Zneg m else Zpos m in
      Some (if (0 <=? e)%Z then (z ?= v * 2 ^ e)%Z else (z * 2 ^ (- e) ?= v)%Z)
  end.

(** [pd.unique]: first occurrences, in order; NaN counts as one value.
    (The values of one column are of one number type; an integer next to
    a float is settled as Python does.) *)
Definition cell_same (a b : cell) : bool :=
  match a, b with
  | CFloat x, CFloat y => F64.eqb x y || (is_nan x && is_nan y)
  | CInt m, CInt n => Z.eqb m n
  | CInt m, CFloat y =>
      match Z_compare_float m y with Some Eq => true | _ => false end
  | CFloat x, CInt n =>
      match Z_compare_float n x with Some Eq => true | _ => false end
  | CStr s, CStr t => String.eqb s t
  | _, _ => false
  end.

Fixpoint unique (l : Series) : Series :=
  match l with
  | [] => []
  | c :: r => c :: filter (fun d => negb (cell_same c d)) (unique r)
  end.

(** Python [<] between two list elements: defined between numbers and
    between strings, a [TypeError] between a number and a string. *)
Definition cell_lt (a b : cell) : result bool :=
  match a, b with
  | CFloat x, CFloat y => Ok (F64.ltb x y)
  | CInt m, CInt n => Ok (Z.ltb m n)
  | CInt m, CFloat y =>
      Ok match Z_compare_float m y with Some Lt => true | _ => false end
  | CFloat x, CInt n =>
      Ok match Z_compare_float n x with Some Gt => true | _ => false end
  | CStr s, CStr t => Ok (String.ltb s t)
  | _, _ => Raise TypeError
  end.

Fixpoint insert_sorted (x : cell) (l : list cell) : result (list cell) :=
  match l with
  | [] => Ok [x]
  | y :: l' =>
      (lt <- cell_lt x y ;;
       if lt then Ok (x :: y :: l')
       else (r <- insert_sorted x l' ;; Ok (y :: r)))%res
  end.

(** [sorted(l)]: a comparison sort; it raises as soon as it compares a
    string with a number.  (On a list with NaN, which compares [False]
    with everything, the order Python returns depends on its algorithm
    and may differ from the one below; which values are in the list does
    not.) *)
Fixpoint py_sorted (l : list cell) : result (list cell) :=
  match l with
  | [] => Ok []
  | x :: l' => (r <- py_sorted l' ;; insert_sorted x r)%res
  end.

Definition All : cell := CStr "All".

Inductive widget : Type := SectorBox | CategoryBox.

(** [st.sidebar.selectbox(label, options)]: the box is put in the sidebar
    and the option the user picked is returned.  Any value is allowed
    for here, which covers every possible pick. *)
Definition selectbox (w : widget) (label : string) (options : list cell) : M cell :=
  fun i s =>
    (Ok match w with
        | SectorBox => selected_sector i
        | CategoryBox => selected_category i
        end,
     mkState (heap s) (cache s) (screen s ++ [SidebarSelectBox label options])%list).

Definition controls_title : string := "Dashboard Controls".
Definition rule : string := "---".
Definition sector_label : string := "Filter by Sector".
Definition category_label : string := "Filter by Skill Category".

Definition Sector := "Sector".
Definition Industry := "Industry".
Definition Skill_Category := "Skill_Category".

(** Line 133: ['Sector' if 'Sector' in df.columns else 'Industry'] *)
Definition sector_col (d : DataFrame) : string :=
  if has_col Sector d then Sector else Industry.

(** Lines 131-142: the sector filter. *)
Definition sector_filter (df : ref) : M ref :=
  (d <- deref df ;;
   if has_col Sector d || has_col Industry d then
     let sector_col := sector_col d in
     col <- lift (getitem d sector_col) ;;
     sorted_values <- lift (py_sorted (unique col)) ;;
     let sectors := All :: sorted_values in
     selected <- selectbox SectorBox sector_label sectors ;;
     if cell_ne selected All then
       d <- deref df ;;
       col <- lift (getitem d sector_col) ;;
       alloc (bool_index d (series_eq col selected))
     else
       d <- deref df ;;
       alloc d
   else
     d <- deref df ;;
     alloc d)%script.

(** Lines 144-150: the skill-category filter, applied to [df_filtered]. *)
Definition category_filter (df df_filtered : ref) : M ref :=
  (d <- deref df ;;
   if has_col Skill_Category d then
     col <- lift (getitem d Skill_Category) ;;
     sorted_values <- lift (py_sorted (unique col)) ;;
     let categories := All :: sorted_values in
     selected <- selectbox CategoryBox category_label categories ;;
     if cell_ne selected All then
       f <- deref df_filtered ;;
       col <- lift (getitem f Skill_Category) ;;
       alloc (bool_index f (series_eq col selected))
     else ret df_filtered
   else ret df_filtered)%script.

(** Lines 126-153: the title, both filters, then the record count. *)
Definition sidebar (df : ref) : M ref :=
  (render (SidebarTitle controls_title) ;;
   render (SidebarMarkdown rule) ;;
   df_filtered <- sector_filter df ;;
   df_filtered <- category_filter df df_filtered ;;
   render (SidebarMarkdown rule) ;;
   f <- deref df_filtered ;;
   d <- deref df ;;
   render (SidebarInfo (len f) (len d)) ;;
   ret df_filtered)%script.

(** Lines 123-153 of the script. *)
Definition app : M (ref * ref) :=
  (df <- load_and_process_data ;;
   df_filtered <- sidebar df ;;
   ret (df, df_filtered))%script.

(** One run of the script under Streamlit: the page starts empty, the
    object store and the cache are kept; [st.stop()] ends the run
    silently, any other uncaught exception is rendered on the page. *)
Definition streamlit_run {A} (script : M A) (i : Inputs) (s : State)
  : result A * State :=
  match script i (mkState (heap s) (cache s) []) with
  | (Raise StopException, s') => (Raise StopException, s')
  | (Raise e, s') =>
      (Raise e, mkState (heap s') (cache s') (screen s' ++ [ExceptionBox e])%list)
  | (Ok a, s') => (Ok a, s')
  end.

(* ================================================================== *)
(** ** Reading a frame row by row *)

(** The cell of column [c] in the row at position [i], if both exist. *)
Definition cell_at (df : DataFrame) (c : string) (i : nat) : option cell :=
  match lookup c (data df) with
  | Some s => nth_error s i
  | None => None
  end.

(** A value is present in a row when the column exists and the cell is
    not NaN. *)
Definition present (df : DataFrame) (c : string) (i : nat) : bool :=
  match cell_at df c i with
  | Some v => negb (isna v)
  | None => false
  end.

(** The column holds numbers only (floats, NaN for missing fields, or
    [int64] integers), or is not in the frame. *)
Definition numeric_column (df : DataFrame) (c : string) : bool :=
  match lookup c (data df) with
  | Some s => forallb numeric s
  | None => true
  end.

Definition numeric_inputs (df : DataFrame) : bool :=
  forallb (numeric_column df) [AI_Adoption_Rate; Skill_Depreciation_Rate; Years; Months].

(** The names the loader assigns to. *)
Definition derived (c : string) : bool :=
  String.eqb Acceleration_Index c || String.eqb Urgency_Category c
  || String.eqb Reskilling_Viability_Ratio c.

(* ================================================================== *)
(** ** Sample frames *)

Definition f64 (z : Z) : cell := CFloat (of_Z z).

(** Half-lives 1.5, 7, 15, 0, -3 and a missing one. *)
Definition sample_years : DataFrame :=
  mkDF [0; 1; 2; 3; 4; 5]
       [(Years, [CFloat (of_dyadic 3 (-1)); f64 7; f64 15; f64 0; f64 (-3); NaN])].

(** Half-lives on the three bin edges, reskilling times 12, 0 and
    missing. *)
Definition sample_edges : DataFrame :=
  mkDF [0; 1; 2]
       [(Years, [f64 2; f64 5; f64 10]);
        (Months, [f64 12; f64 0; NaN])].

(** Rates 0.5 and 0.25; an unbounded adoption rate next to a zero
    depreciation rate; two rates of 94906267. *)
Definition sample_rates : DataFrame :=
  mkDF [0; 1; 2]
       [(AI_Adoption_Rate, [CFloat (of_dyadic 1 (-1)); CFloat inf; f64 94906267]);
        (Skill_Depreciation_Rate, [CFloat (of_dyadic 1 (-2)); f64 0; f64 94906267])].

(** Columns of whole numbers, which [pd.read_csv] types [int64]. *)
Definition sample_whole : DataFrame :=
  mkDF [0; 1; 2]
       [(AI_Adoption_Rate, [CInt 3; CInt 4000000000; CInt 0]);
        (Skill_Depreciation_Rate, [CInt 7; CInt 4000000000; CInt 5]);
        (Years, [CInt 2; CInt 1000000000000000000; CInt 10]);
        (Months, [CInt 12; CInt 12; CInt 0])].

(* ================================================================== *)
(** ** The frames the sidebar computes, without the store

    [sector_view], [category_view] and [filtered_view] give the value of
    the frame each stage binds to [df_filtered]; the lemmas [*_run] below
    relate them to the script. *)

Definition sector_view (d : DataFrame) (selected : cell) : result DataFrame :=
  if has_col Sector d || has_col Industry d then
    (col <- getitem d (sector_col d) ;;
     _ <- py_sorted (unique col) ;;
     if cell_ne selected All then
       col <- getitem d (sector_col d) ;;
       Ok (bool_index d (series_eq col selected))
     else Ok d)%res
  else Ok d.

Definition category_view (d f : DataFrame) (selected : cell) : result DataFrame :=
  if has_col Skill_Category d then
    (col <- getitem d Skill_Category ;;
     _ <- py_sorted (unique col) ;;
     if cell_ne selected All then
       col <- getitem f Skill_Category ;;
       Ok (bool_index f (series_eq col selected))
     else Ok f)%res
  else Ok f.

Definition filtered_view (d : DataFrame) (i : Inputs) : result DataFrame :=
  (f <- sector_view d (selected_sector i) ;;
   category_view d f (selected_category i))%res.

(** What a call leaves to its caller: the frame behind the returned
    reference, or the exception. *)
Definition outcome (run : result ref * State) : result DataFrame :=
  rmap (fun r => nth r (heap (snd run)) empty_frame) (fst run).

(* ================================================================== *)
(** ** The filter as the specification words it *)

(** The two selections of a run: the sector dimension and the skill
    category, each with the value picked. *)
Definition selections (d : DataFrame) (i : Inputs) : list (string * cell) :=
  [(sector_col d, selected_sector i); (Skill_Category, selected_category i)].

(** A selection is active unless it is the wildcard. *)
Definition active (v : cell) : bool := cell_ne v All.

(** The row at position [k] satisfies one selection: the selection is a
    wildcard, or names a column the frame does not have, or the row's
    value in that column equals the selected value. *)
Definition satisfies (d : DataFrame) (k : nat) (sel : string * cell) : bool :=
  if active (snd sel) then
    match cell_at d (fst sel) k with
    | Some x => cell_eq x (snd sel)
    | None => true
    end
  else true.

(** The row satisfies every selection. *)
Definition row_matches (d : DataFrame) (sels : list (string * cell)) (k : nat) : bool :=
  forallb (satisfies d k) sels.

(** One entry per row of [d], in row order. *)
Definition keep_mask (d : DataFrame) (sels : list (string * cell)) : list bool :=
  map (row_matches d sels) (seq 0 (len d)).

(** Entry-wise conjunction of two masks. *)
Fixpoint mask_and (m1 m2 : list bool) : list bool :=
  match m1, m2 with
  | a :: m1', b :: m2' => (a && b) :: mask_and m1' m2'
  | _, _ => []
  end.

(** The mask of one selection, column-wise. *)
Definition selection_mask (d : DataFrame) (sel : string * cell) : list bool :=
  if active (snd sel) then
    match lookup (fst sel) (data d) with
    | Some col => series_eq col (snd sel)
    | None => repeat true (len d)
    end
  else repeat true (len d).

(** A later state of the store: objects were only added, and the cache
    entry is the same. *)
Definition extends (s s' : State) : Prop :=
  (exists ext, heap s' = (heap s ++ ext)%list) /\ cache s' = cache s.

(** A column [sorted] can order: it does not hold strings next to
    numbers (in a text column: no missing value next to a label). *)
Definition sortable (col : Series) : bool :=
  negb (existsb is_str col && existsb is_num col).

Definition sortable_column (d : DataFrame) (c : string) : bool :=
  match lookup c (data d) with
  | Some col => sortable col
  | None => true
  end.

(** What the body of the loader leaves to its caller, without the store:
    the derived frame, [StopException] after the "not found" message, or
    the exception that was not handled. *)
Definition handled (e : exn) : exn :=
  if exn_eqb FileNotFoundError e then StopException else e.

Definition loaded_frame (i : Inputs) : result DataFrame :=
  match csv i with
  | Ok d =>
      match feature_engineering d with
      | Ok d' => Ok d'
      | Raise e => Raise (handled e)
      end
  | Raise e => Raise (handled e)
  end.

(** An error is on the page. *)
Definition is_error_element (e : element) : bool :=
  match e with
  | ErrorBox _ | ExceptionBox _ => true
  | SidebarTitle _ | SidebarMarkdown _ | SidebarSelectBox _ _ | SidebarInfo _ _ => false
  end.

(** Two frames that agree on the row labels and on every column but
    [Industry]. *)
Definition same_but_industry (f f' : DataFrame) : Prop :=
  index f = index f' /\
  forall c, String.eqb Industry c = false -> lookup c (data f) = lookup c (data f').

(** Two results that fail alike or succeed with related values. *)
Definition rrel {A} (R : A -> A -> Prop) (r r' : result A) : Prop :=
  match r, r' with
  | Ok a, Ok b => R a b
  | Raise e, Raise e' => e = e'
  | _, _ => False
  end.

(** Five skills with their sector, industry and category. *)
Definition sample_jobs : DataFrame :=
  mkDF [0; 1; 2; 3; 4]
       [(Sector, [CStr "Tech"; CStr "Health"; CStr "Tech"; CStr "Finance"; CStr "Tech"]);
        (Industry, [CStr "Software"; CStr "Hospitals"; CStr "Hardware";
                    CStr "Banking"; CStr "Software"]);
        (Skill_Category, [CStr "Engineering"; CStr "Clinical"; CStr "Design";
                          CStr "Engineering"; CStr "Engineering"])].

(** The same skills under other industry labels. *)
Definition sample_jobs_relabelled : DataFrame :=
  setitem sample_jobs Industry
          [CStr "Banking"; CStr "Banking"; CStr "Software"; CStr "Software"; NaN].

(** A sector column with one field left empty in the file. *)
Definition sample_gap : DataFrame :=
  mkDF [0; 1; 2]
       [(Sector, [CStr "Tech"; NaN; CStr "Tech"]);
        (Skill_Category, [CStr "Engineering"; CStr "Design"; CStr "Design"])].

Definition just_started : State := mkState [] None [].

(** A store that holds one frame at address 0. *)
Definition holding (d : DataFrame) : State := mkState [d] None [].

(** A cache filled by an earlier run. *)
Definition warmed_up : State := mkState [] (Some sample_jobs) [].

Definition pick (d : result DataFrame) (sector category : cell) : Inputs :=
  mkInputs d sector category.

(* ================================================================== *)
(** ** Select box options (lines 134 and 146) *)

(** [['All'] + sorted(col.unique().tolist())] *)
Definition select_options (col : Series) : result (list cell) :=
  (sorted_values <- py_sorted (unique col) ;; Ok (All :: sorted_values))%res.

(** The select box of a filter column: none when the frame lacks the
    column, and none when its values cannot be sorted, the script failing
    before the box is made. *)
Definition option_box (label : string) (col : option Series) : list element :=
  match col with
  | Some c =>
      match select_options c with
      | Ok options => [SidebarSelectBox label options]
      | Raise _ => []
      end
  | None => []
  end.

Definition sector_box (d : DataFrame) : list element :=
  option_box sector_label (lookup (sector_col d) (data d)).

Definition category_box (d : DataFrame) : list element :=
  option_box category_label (lookup Skill_Category (data d)).

(** What the sidebar shows above the record count. *)
Definition controls (d : DataFrame) : list element :=
  ([SidebarTitle controls_title; SidebarMarkdown rule]
     ++ sector_box d ++ category_box d ++ [SidebarMarkdown rule])%list.

(** An element without the options of its select box.  The order in
    which [sorted] leaves the options is the one thing on the page that
    the model does not fix (see [py_sorted]); statements about the page
    are made on outlines. *)
Definition outline (e : element) : element :=
  match e with
  | SidebarSelectBox label _ => SidebarSelectBox label []
  | _ => e
  end.

(* ================================================================== *)
(** ** Key indicators computed from counts (lines 228-256)

    The median and the mean of lines 219-246 depend on the order in which
    pandas adds floats and are left out. *)

(** [mask.sum()] on a boolean Series *)
Definition mask_sum (m : list bool) : nat := count_occ bool_dec m true.

(** [c >= v] between a cell and an integer literal: NaN compares
    [False], a string cannot be compared with a number. *)
Definition cell_ge (c : cell) (v : Z) : result bool :=
  match c with
  | CFloat x => Ok (F64.leb (of_Z v) x)
  | CInt z => Ok (v <=? z)%Z
  | CStr _ => Raise TypeError
  end.

(** [series >= v] *)
Definition series_ge (a : Series) (v : Z) : result (list bool) :=
  mapM (fun c => cell_ge c v) a.

(** [count / n * 100] with [count] a numpy integer: a float64
    computation, in which a division by zero gives NaN or an infinity and
    raises nothing. *)
Definition percentage (count n : nat) : float64 :=
  F64.mul (F64.div (of_Z (Z.of_nat count)) (of_Z (Z.of_nat n))) (of_Z 100).

(** Lines 228-236, the value of "Critical Skills"; [None] when the metric
    is not shown. *)
Definition critical_pct (df_filtered : DataFrame) : result (option float64) :=
  if has_col Urgency_Category df_filtered then
    (u <- getitem df_filtered Urgency_Category ;;
     Ok (Some (percentage (mask_sum (series_eq u (CStr Critical))) (len df_filtered))))%res
  else Ok None.

(** Lines 248-256, the value of "Reskilling Viable". *)
Definition viable_pct (df_filtered : DataFrame) : result (option float64) :=
  if has_col Reskilling_Viability_Ratio df_filtered then
    (r <- getitem df_filtered Reskilling_Viability_Ratio ;;
     m <- series_ge r 1 ;;
     Ok (Some (percentage (mask_sum m) (len df_filtered))))%res
  else Ok None.

(* ================================================================== *)
(** ** Vocabulary for the further properties *)

(** The column holds a text value. *)
Definition has_text (d : DataFrame) (c : string) : bool :=
  match lookup c (data d) with
  | Some s => existsb is_str s
  | None => false
  end.

(** A half-life in the first bin. *)
Definition short_half_life (c : cell) : bool :=
  match to_float c with
  | Some x => F64.ltb (of_Z 0) x && F64.leb x (of_Z 2)
  | None => false
  end.

(** Reskilling takes no longer than the half-life lasts:
    [(years * 12) / months >= 1], with [years * 12] computed in the type
    of the half-life column and the division in binary64. *)
Definition reskilling_in_time (years months : cell) : bool :=
  match to_float (cell_mul_int years 12), to_float months with
  | Some y12, Some m => F64.leb (of_Z 1) (F64.div y12 m)
  | _, _ => false
  end.

Fixpoint zip_with {A B C} (f : A -> B -> C) (a : list A) (b : list B) : list C :=
  match a, b with
  | x :: a', y :: b' => f x y :: zip_with f a' b'
  | _, _ => []
  end.

(** A second sample: reskilling times next to half-lives, with a label
    column to filter on. *)
Definition sample_skills : DataFrame :=
  mkDF [0; 1; 2; 3]
       [(Sector, [CStr "Tech"; CStr "Health"; CStr "Tech"; CStr "Tech"]);
        (Skill_Category, [CStr "Engineering"; CStr "Clinical"; CStr "Design";
                          CStr "Engineering"]);
        (Years, [CFloat (of_dyadic 3 (-1)); f64 7; f64 2; f64 1]);
        (Months, [f64 6; f64 0; f64 36; NaN])].

(** A half-life column with a text entry, which makes [pd.read_csv]
    keep every field of the column as a string. *)
Definition sample_typo : DataFrame :=
  mkDF [0; 1] [(Years, [CStr "3"; CStr "unknown"])].

(** Reskilling times entered as text next to numeric half-lives. *)
Definition sample_months_text : DataFrame :=
  mkDF [0; 1] [(Years, [CInt 3; CInt 8]); (Months, [CStr "six"; CStr "a year"])].

(** Sector codes, one of them missing. *)
Definition sample_codes : DataFrame :=
  mkDF [0; 1; 2] [(Sector, [f64 51; NaN; f64 62])].

(** [sample_years] as the loader returns it. *)
Definition sample_years_loaded : DataFrame :=
  setitem sample_years Urgency_Category
          [CStr Critical; CStr Moderate; CStr Low; NaN; NaN; NaN].

(** [sample_skills] as the loader returns it. *)
Definition sample_skills_loaded : DataFrame :=
  setitem
    (setitem sample_skills Urgency_Category
             [CStr Critical; CStr Moderate; CStr Critical; CStr Critical])
    Reskilling_Viability_Ratio
    [f64 3; CFloat inf; CFloat (F64.div (of_Z 24) (of_Z 36)); NaN].

(** The place of a category in the order of the labels, from most to
    least urgent; 4 for a cell without category. *)
Definition urgency_rank (c : cell) : nat :=
  match c with
  | CStr s =>
      if String.eqb s Critical then 0
      else if String.eqb s High then 1
      else if String.eqb s Moderate then 2
      else if String.eqb s Low then 3
      else 4
  | CFloat _ | CInt _ => 4
  end.

(* ================================================================== *)
(** ** Proof automation *)

(** Settles one case of a bin table: a conjunction of equivalences
    between closed equations. *)
Ltac bin_case :=
  repeat match goal with
         | |- _ /\ _ => split
         | |- _ <-> _ => split; intros
         | H : _ /\ _ |- _ => destruct H
         | H : _ \/ _ |- _ => destruct H
         end;
  try discriminate; auto.

(* ================================================================== *)
(** * Properties *)

(** ** binary64: when a product or a quotient is NaN *)


Lemma shr_1_nonneg mrs : (0 <= shr_m mrs)%Z -> (0 <= shr_m (shr_1 mrs))%Z.
Proof.
  destruct mrs as [m r s]; simpl.
  destruct m as [|p|p]; simpl; try lia.
  - destruct p; simpl; lia.
Qed.

Lemma iter_pos_invariant {A} (P : A -> Prop) (f : A -> A) :
  (forall a, P a -> P (f a)) -> forall p a, P a -> P (iter_pos f p a).
Proof.
  intros Hf p; induction p as [p IH|p IH|]; intros a Ha; simpl; auto.
Qed.

Lemma shr_fexp_nonneg m e l :
  (0 <= m)%Z -> (0 <= shr_m (fst (shr_fexp prec emax m e l)))%Z.
Proof.
  intros Hm. unfold shr_fexp, shr.
  assert (H0 : (0 <= shr_m (shr_record_of_loc m l))%Z).
  { destruct l as [|[]]; simpl; exact Hm. }
  destruct (fexp prec emax (Zdigits2 m + e) - e)%Z; simpl; auto.
  apply (iter_pos_invariant (fun r => (0 <= shr_m r)%Z)); auto using shr_1_nonneg.
Qed.

Lemma round_nearest_even_nonneg m l :
  (0 <= m)%Z -> (0 <= round_nearest_even m l)%Z.
Proof.
  intros Hm. destruct l as [|[]]; simpl; try lia.
  destruct (Z.even m); lia.
Qed.

Lemma binary_round_aux_not_nan sx mx ex lx :
  (0 <= mx)%Z -> is_nan (binary_round_aux prec emax sx mx ex lx) = false.
Proof.
  intros Hm. unfold binary_round_aux.
  pose proof (shr_fexp_nonneg mx ex lx Hm) as H1.
  destruct (shr_fexp prec emax mx ex lx) as [mrs' e'] eqn:E1. simpl in H1.
  pose proof (round_nearest_even_nonneg (shr_m mrs') (loc_of_shr_record mrs') H1) as H2.
  pose proof (shr_fexp_nonneg _ e' loc_Exact H2) as H3.
  destruct (shr_fexp prec emax _ e' loc_Exact) as [mrs'' e''] eqn:E2. simpl in H3.
  destruct (shr_m mrs'') as [|p|p]; simpl.
  - reflexivity.
  - destruct (e'' <=? 971)%Z; reflexivity.
  - lia.
Qed.

Lemma mul_is_nan x y :
  is_nan (F64.mul x y) =
  is_nan x || is_nan y || (is_inf x && is_zero y) || (is_zero x && is_inf y).
Proof.
  destruct x as [sx|sx| |sx mx ex], y as [sy|sy| |sy my ey]; try reflexivity.
  unfold F64.mul, SFmul. rewrite binary_round_aux_not_nan by lia. reflexivity.
Qed.

Lemma div_core_nonneg mx ex my ey :
  (0 <= fst (fst (SFdiv_core_binary prec emax (Zpos mx) ex (Zpos my) ey)))%Z.
Proof.
  unfold SFdiv_core_binary.
  set (s := (ex - ey - _)%Z).
  set (m' := match s with Zpos _ => Z.shiftl (Zpos mx) s | Z0 => Zpos mx | Zneg _ => 0%Z end).
  assert (Hm' : (0 <= m')%Z).
  { subst m'. destruct s; try lia. apply Z.shiftl_nonneg. lia. }
  pose proof (Z.div_eucl_eq m' (Zpos my) ltac:(lia)) as Heq.
  pose proof (Z.mod_pos_bound m' (Zpos my) ltac:(lia)) as Hr.
  pose proof (Z.div_pos m' (Zpos my) Hm' ltac:(lia)) as Hq.
  unfold Z.div in Hq.
  destruct (Z.div_eucl m' (Zpos my)) as [q r]. simpl in *. exact Hq.
Qed.

Lemma div_is_nan x y :
  is_nan (F64.div x y) =
  is_nan x || is_nan y || (is_zero x && is_zero y) || (is_inf x && is_inf y).
Proof.
  destruct x as [sx|sx| |sx mx ex], y as [sy|sy| |sy my ey]; try reflexivity.
  unfold F64.div, SFdiv.
  pose proof (div_core_nonneg mx ex my ey) as H.
  destruct (SFdiv_core_binary prec emax (Zpos mx) ex (Zpos my) ey) as [[mz ez] lz].
  simpl in H. rewrite binary_round_aux_not_nan by exact H. reflexivity.
Qed.

Lemma SFcompare_antisym x y :
  SFcompare y x = option_map CompOpp (SFcompare x y).
Proof.
  destruct x as [sx|sx| |sx mx ex], y as [sy|sy| |sy my ey]; simpl;
    try destruct sx; try destruct sy; try reflexivity;
    rewrite (Z.compare_antisym ey ex); destruct (ey ?= ex)%Z; simpl; try reflexivity;
    rewrite !Pos.compare_cont_spec, (Pos.compare_antisym my mx);
    destruct (my ?= mx)%positive; reflexivity.
Qed.

Lemma leb_ltb x y :
  is_nan x = false -> is_nan y = false -> F64.leb x y = negb (F64.ltb y x).
Proof.
  intros Hx Hy. unfold F64.leb, F64.ltb, SFleb, SFltb.
  rewrite (SFcompare_antisym x y).
  destruct x, y; try discriminate; simpl;
    repeat match goal with |- context [match ?c with _ => _ end] => destruct c; simpl end;
    reflexivity.
Qed.

Lemma ltb_trans x y z :
  F64.ltb x y = true -> F64.ltb y z = true -> F64.ltb x z = true.
Proof.
  unfold F64.ltb, SFltb.
  destruct x as [sx|sx| |sx mx ex], y as [sy|sy| |sy my ey], z as [sz|sz| |sz mz ez];
    simpl; try discriminate;
    try destruct sx; try destruct sy; try destruct sz; simpl;
    try discriminate; try reflexivity.
  all: destruct (Z.compare_spec ex ey), (Z.compare_spec ey ez), (Z.compare_spec ex ez);
    subst; try lia; try discriminate; try reflexivity;
    rewrite ?Pos.compare_cont_spec; simpl;
    destruct (Pos.compare_spec mx my), (Pos.compare_spec my mz), (Pos.compare_spec mx mz);
    simpl; try discriminate; try reflexivity; lia.
Qed.
Lemma ltb_inf_l x : F64.ltb inf x = false.
Proof. destruct x as [s|[]| |s m e]; reflexivity. Qed.

(** The bin table [pd.cut] applies, read off the edges. *)
Lemma urgency_float x :
  urgency (CFloat x) =
  Ok (if is_nan x then NaN
      else if F64.ltb (of_Z 10) x then CStr Low
      else if F64.ltb (of_Z 5) x then CStr Moderate
      else if F64.ltb (of_Z 2) x then CStr High
      else if F64.ltb (of_Z 0) x then CStr Critical
      else NaN).
Proof.
  destruct (is_nan x) eqn:N.
  { destruct x; try discriminate; reflexivity. }
  pose proof (ltb_trans (of_Z 0) (of_Z 2) x eq_refl) as H02.
  pose proof (ltb_trans (of_Z 2) (of_Z 5) x eq_refl) as H25.
  pose proof (ltb_trans (of_Z 5) (of_Z 10) x eq_refl) as H510.
  unfold urgency, cut_cell, urgency_bins. cbn [to_float]. rewrite N.
  cbn [searchsorted_left]. unfold np_lt. rewrite N, ltb_inf_l.
  cbn [andb orb].
  destruct (F64.ltb (of_Z 10) x).
  { rewrite H510, H25, H02 by auto. reflexivity. }
  destruct (F64.ltb (of_Z 5) x).
  { rewrite H25, H02 by auto. reflexivity. }
  destruct (F64.ltb (of_Z 2) x).
  { rewrite H02 by auto. reflexivity. }
  destruct (F64.ltb (of_Z 0) x); reflexivity.
Qed.

(** An integer is binned as the float it converts to. *)
Lemma urgency_to_float c x : to_float c = Some x -> urgency c = urgency (CFloat x).
Proof. destruct c; simpl; intros [= <-]; reflexivity. Qed.

(** ** Integers as floats, and [int64] *)

Lemma of_Z_not_nan z : is_nan (of_Z z) = false.
Proof.
  destruct z as [|p|p]; [reflexivity| |];
    unfold of_Z, of_dyadic, binary_normalize, binary_round;
    destruct (shl_align _ _ _) as [mz ez];
    apply binary_round_aux_not_nan; lia.
Qed.

Lemma to_float_not_nan c x : to_float c = Some x -> is_nan x = isna c.
Proof.
  destruct c; simpl; intros [= <-]; auto using of_Z_not_nan.
Qed.

Lemma wrap64_small z : int64 z = true -> wrap64 z = z.
Proof.
  unfold int64, wrap64. intros H. apply andb_true_iff in H as [L U].
  apply Z.leb_le in L. apply Z.ltb_lt in U.
  rewrite Z.mod_small; lia.
Qed.

Lemma numeric_to_float c : numeric c = true -> exists x, to_float c = Some x.
Proof. destruct c; simpl; try discriminate; eauto. Qed.
(** ** Columns: lookup, assignment, element-wise maps *)

Lemma Ok_inj {A} (a b : A) : Ok a = Ok b -> a = b.
Proof. now intros [= ->]. Qed.

Lemma Some_inj {A} (a b : A) : Some a = Some b -> a = b.
Proof. now intros [= ->]. Qed.

Lemma has_col_lookup c df :
  has_col c df = match lookup c (data df) with Some _ => true | None => false end.
Proof.
  unfold has_col, columns. induction (data df) as [|[k s] d IH]; simpl.
  - reflexivity.
  - destruct (String.eqb c k); simpl; auto.
Qed.

Lemma lookup_assign_same c s d : lookup c (assign c s d) = Some s.
Proof.
  induction d as [|[k t] d IH]; simpl.
  - now rewrite String.eqb_refl.
  - destruct (String.eqb c k) eqn:E; simpl; now rewrite E.
Qed.

Lemma lookup_assign_other c c' s d :
  String.eqb c c' = false -> lookup c' (assign c s d) = lookup c' d.
Proof.
  intros Hne. induction d as [|[k t] d IH]; simpl.
  - rewrite String.eqb_sym, Hne. reflexivity.
  - destruct (String.eqb c k) eqn:E; simpl.
    + apply String.eqb_eq in E; subst k.
      rewrite String.eqb_sym, Hne. reflexivity.
    + destruct (String.eqb c' k); auto.
Qed.

Lemma mapM_nth {A B} (f : A -> result B) l l' :
  mapM f l = Ok l' ->
  forall i a, nth_error l i = Some a ->
  exists b, f a = Ok b /\ nth_error l' i = Some b.
Proof.
  revert l'. induction l as [|x l IH]; intros l' H i a Hi.
  - destruct i; discriminate.
  - simpl in H. destruct (f x) as [b|] eqn:Fx; try discriminate.
    simpl in H. destruct (mapM f l) as [bs|] eqn:Fl; try discriminate.
    simpl in H. injection H as <-.
    destruct i as [|i]; simpl in *.
    + injection Hi as <-. eauto.
    + eapply IH; eauto.
Qed.

Lemma mapM_total {A B} (f : A -> result B) l :
  Forall (fun a => is_ok (f a) = true) l -> exists l', mapM f l = Ok l'.
Proof.
  induction 1 as [|x l Hx _ [l' IH]]; simpl.
  - eauto.
  - destruct (f x); try discriminate. rewrite IH. simpl. eauto.
Qed.

Lemma zipM_nth f a b p :
  zipM f a b = Ok p ->
  forall i x y, nth_error a i = Some x -> nth_error b i = Some y ->
  exists z, f x y = Ok z /\ nth_error p i = Some z.
Proof.
  revert b p. induction a as [|x0 a IH]; intros b p H i x y Hx Hy.
  - destruct i; discriminate.
  - destruct b as [|y0 b]. { destruct i; discriminate. }
    simpl in H. destruct (f x0 y0) as [z0|] eqn:F0; try discriminate.
    simpl in H. destruct (zipM f a b) as [zs|] eqn:Fz; try discriminate.
    simpl in H. injection H as <-.
    destruct i as [|i]; simpl in *.
    + injection Hx as <-. injection Hy as <-. eauto.
    + eapply IH; eauto.
Qed.

Lemma zipM_total f a b :
  (forall x y, In x a -> In y b -> is_ok (f x y) = true) ->
  exists p, zipM f a b = Ok p.
Proof.
  revert b. induction a as [|x a IH]; intros b H.
  - simpl. eauto.
  - destruct b as [|y b]; simpl. { eauto. }
    specialize (H x y (or_introl eq_refl) (or_introl eq_refl)) as Hxy.
    destruct (f x y); try discriminate. simpl.
    destruct (IH b) as [p Hp]. { intros; apply H; now right. }
    rewrite Hp. simpl. eauto.
Qed.

Lemma series_mul_int_nth a n i x :
  nth_error a i = Some x ->
  nth_error (series_mul_int a n) i = Some (cell_mul_int x n).
Proof.
  intros H. unfold series_mul_int.
  exact (map_nth_error (fun c => cell_mul_int c n) i a H).
Qed.
(** ** What each assignment of the loader does to the frame *)

Lemma add_acceleration_index_spec df d1 :
  add_acceleration_index df = Ok d1 ->
  index d1 = index df /\
  (forall c, String.eqb Acceleration_Index c = false ->
             lookup c (data d1) = lookup c (data df)) /\
  match lookup AI_Adoption_Rate (data df), lookup Skill_Depreciation_Rate (data df) with
  | Some a, Some b =>
      exists p, series_mul a b = Ok p /\ lookup Acceleration_Index (data d1) = Some p
  | _, _ => d1 = df
  end.
Proof.
  unfold add_acceleration_index, getitem. rewrite !has_col_lookup.
  destruct (lookup AI_Adoption_Rate (data df)) as [a|];
    destruct (lookup Skill_Depreciation_Rate (data df)) as [b|]; simpl;
    try (intros [= <-]; auto).
  destruct (series_mul a b) as [p|] eqn:P; simpl; try discriminate.
  intros [= <-]. simpl. repeat split.
  - intros c Hc. now apply lookup_assign_other.
  - exists p. split; auto. apply lookup_assign_same.
Qed.

Lemma add_urgency_category_spec df d1 :
  add_urgency_category df = Ok d1 ->
  index d1 = index df /\
  (forall c, String.eqb Urgency_Category c = false ->
             lookup c (data d1) = lookup c (data df)) /\
  match lookup Years (data df) with
  | Some y =>
      exists u, pd_cut y urgency_bins urgency_labels = Ok u /\
                lookup Urgency_Category (data d1) = Some u
  | None => d1 = df
  end.
Proof.
  unfold add_urgency_category, getitem. rewrite !has_col_lookup.
  destruct (lookup Years (data df)) as [y|]; simpl; try (intros [= <-]; auto).
  destruct (pd_cut y urgency_bins urgency_labels) as [u|] eqn:U; simpl; try discriminate.
  intros [= <-]. simpl. repeat split.
  - intros c Hc. now apply lookup_assign_other.
  - exists u. split; auto. apply lookup_assign_same.
Qed.

Lemma add_viability_ratio_spec df d1 :
  add_viability_ratio df = Ok d1 ->
  index d1 = index df /\
  (forall c, String.eqb Reskilling_Viability_Ratio c = false ->
             lookup c (data d1) = lookup c (data df)) /\
  match lookup Years (data df), lookup Months (data df) with
  | Some y, Some m =>
      exists r, series_div (series_mul_int y 12) m = Ok r /\
                lookup Reskilling_Viability_Ratio (data d1) = Some r
  | _, _ => d1 = df
  end.
Proof.
  unfold add_viability_ratio, getitem. rewrite !has_col_lookup.
  destruct (lookup Years (data df)) as [y|];
    destruct (lookup Months (data df)) as [m|]; simpl;
    try (intros [= <-]; auto).
  destruct (series_div (series_mul_int y 12) m) as [r|] eqn:R; simpl; try discriminate.
  intros [= <-]. simpl. repeat split.
  - intros c Hc. now apply lookup_assign_other.
  - exists r. split; auto. apply lookup_assign_same.
Qed.

(** The loader's frame: same rows, source columns untouched, and each
    derived column computed from the columns as read. *)
Lemma feature_engineering_spec df df' :
  feature_engineering df = Ok df' ->
  index df' = index df /\
  (forall c, derived c = false -> lookup c (data df') = lookup c (data df)) /\
  match lookup AI_Adoption_Rate (data df), lookup Skill_Depreciation_Rate (data df) with
  | Some a, Some b =>
      exists p, series_mul a b = Ok p /\ lookup Acceleration_Index (data df') = Some p
  | _, _ => lookup Acceleration_Index (data df') = lookup Acceleration_Index (data df)
  end /\
  match lookup Years (data df) with
  | Some y =>
      exists u, pd_cut y urgency_bins urgency_labels = Ok u /\
                lookup Urgency_Category (data df') = Some u
  | None => lookup Urgency_Category (data df') = lookup Urgency_Category (data df)
  end /\
  match lookup Years (data df), lookup Months (data df) with
  | Some y, Some m =>
      exists r, series_div (series_mul_int y 12) m = Ok r /\
                lookup Reskilling_Viability_Ratio (data df') = Some r
  | _, _ => lookup Reskilling_Viability_Ratio (data df')
            = lookup Reskilling_Viability_Ratio (data df)
  end.
Proof.
  unfold feature_engineering. intros H.
  destruct (add_acceleration_index df) as [d1|] eqn:E1; simpl in H; try discriminate.
  destruct (add_urgency_category d1) as [d2|] eqn:E2; simpl in H; try discriminate.
  destruct (add_viability_ratio d2) as [d3|] eqn:E3; simpl in H; try discriminate.
  injection H as <-.
  apply add_acceleration_index_spec in E1 as (I1 & O1 & A1).
  apply add_urgency_category_spec in E2 as (I2 & O2 & A2).
  apply add_viability_ratio_spec in E3 as (I3 & O3 & A3).
  split; [congruence|]. split; [|split; [|split]].
  - intros c Hc. unfold derived in Hc.
    apply orb_false_elim in Hc as [Hc H3]. apply orb_false_elim in Hc as [H1 H2].
    now rewrite O3, O2, O1.
  - rewrite (O3 Acceleration_Index), (O2 Acceleration_Index) by reflexivity.
    destruct (lookup AI_Adoption_Rate (data df)), (lookup Skill_Depreciation_Rate (data df));
      auto; now subst d1.
  - rewrite (O3 Urgency_Category) by reflexivity.
    rewrite (O1 Years) in A2 by reflexivity.
    destruct (lookup Years (data df)); auto.
    subst d2. now apply O1.
  - rewrite (O2 Years), (O1 Years) in A3 by reflexivity.
    rewrite (O2 Months), (O1 Months) in A3 by reflexivity.
    destruct (lookup Years (data df)), (lookup Months (data df)); auto;
      subst d3; rewrite (O2 Reskilling_Viability_Ratio) by reflexivity;
      now apply O1.
Qed.
(** ** The loader returns a frame on numeric inputs *)

Lemma forallb_numeric_In s x : forallb numeric s = true -> In x s -> numeric x = true.
Proof. intros H Hin. rewrite forallb_forall in H. auto. Qed.

Lemma series_mul_total a b :
  forallb numeric a = true -> forallb numeric b = true ->
  exists p, series_mul a b = Ok p.
Proof.
  intros Ha Hb. apply zipM_total. intros x y Hx Hy.
  apply (forallb_numeric_In _ _ Ha) in Hx. apply (forallb_numeric_In _ _ Hb) in Hy.
  destruct x, y; try discriminate; reflexivity.
Qed.

Lemma series_div_scaled_total y m :
  forallb numeric y = true -> forallb numeric m = true ->
  exists r, series_div (series_mul_int y 12) m = Ok r.
Proof.
  intros Hy Hm. apply zipM_total. intros a b Ha Hb.
  unfold series_mul_int in Ha. apply in_map_iff in Ha as (c & <- & Hc).
  apply (forallb_numeric_In _ _ Hy) in Hc. apply (forallb_numeric_In _ _ Hm) in Hb.
  destruct c, b; try discriminate; reflexivity.
Qed.

Lemma pd_cut_total y bins labels :
  forallb numeric y = true -> exists u, pd_cut y bins labels = Ok u.
Proof.
  intros Hy. apply mapM_total. apply Forall_forall. intros c Hc.
  apply (forallb_numeric_In _ _ Hy) in Hc.
  destruct (numeric_to_float c Hc) as [x Hx]. unfold cut_cell. rewrite Hx.
  destruct (_ || _); [reflexivity|]. destruct (nth_error _ _); reflexivity.
Qed.

Lemma numeric_inputs_columns df :
  numeric_inputs df = true ->
  numeric_column df AI_Adoption_Rate = true /\
  numeric_column df Skill_Depreciation_Rate = true /\
  numeric_column df Years = true /\
  numeric_column df Months = true.
Proof.
  unfold numeric_inputs. simpl. rewrite !andb_true_iff. tauto.
Qed.

Lemma feature_engineering_total df :
  numeric_inputs df = true -> exists df', feature_engineering df = Ok df'.
Proof.
  intros H. apply numeric_inputs_columns in H as (Ha & Hb & Hy & Hm).
  unfold numeric_column in *.
  assert (E1 : exists d1, add_acceleration_index df = Ok d1).
  { unfold add_acceleration_index, getitem. rewrite !has_col_lookup.
    destruct (lookup AI_Adoption_Rate (data df)) as [a|]; simpl; eauto.
    destruct (lookup Skill_Depreciation_Rate (data df)) as [b|]; simpl; eauto.
    destruct (series_mul_total a b Ha Hb) as [p ->]. simpl. eauto. }
  destruct E1 as [d1 E1].
  pose proof (add_acceleration_index_spec _ _ E1) as (_ & O1 & _).
  assert (E2 : exists d2, add_urgency_category d1 = Ok d2).
  { unfold add_urgency_category, getitem. rewrite !has_col_lookup.
    rewrite (O1 Years) by reflexivity.
    destruct (lookup Years (data df)) as [y|]; simpl; eauto.
    destruct (pd_cut_total y urgency_bins urgency_labels Hy) as [u ->]. simpl. eauto. }
  destruct E2 as [d2 E2].
  pose proof (add_urgency_category_spec _ _ E2) as (_ & O2 & _).
  assert (E3 : exists d3, add_viability_ratio d2 = Ok d3).
  { unfold add_viability_ratio, getitem. rewrite !has_col_lookup.
    rewrite (O2 Years), (O1 Years), (O2 Months), (O1 Months) by reflexivity.
    destruct (lookup Months (data df)) as [m|]; simpl; eauto.
    destruct (lookup Years (data df)) as [y|]; simpl; eauto.
    destruct (series_div_scaled_total y m Hy Hm) as [r ->]. simpl. eauto. }
  destruct E3 as [d3 E3].
  exists d3. unfold feature_engineering. rewrite E1. simpl. rewrite E2. simpl.
  rewrite E3. reflexivity.
Qed.

(** ** Row by row *)

Lemma urgency_row df df' i c :
  feature_engineering df = Ok df' ->
  cell_at df Years i = Some c ->
  exists u, urgency c = Ok u /\ cell_at df' Urgency_Category i = Some u.
Proof.
  intros H Hc. apply feature_engineering_spec in H as (_ & _ & _ & U & _).
  unfold cell_at in *.
  destruct (lookup Years (data df)) as [y|]; try discriminate.
  destruct U as (u & Hu & ->).
  exact (mapM_nth _ _ _ Hu _ _ Hc).
Qed.

Lemma acceleration_row df df' i x y :
  feature_engineering df = Ok df' ->
  cell_at df AI_Adoption_Rate i = Some x ->
  cell_at df Skill_Depreciation_Rate i = Some y ->
  exists z, cell_mul x y = Ok z /\ cell_at df' Acceleration_Index i = Some z.
Proof.
  intros H Hx Hy. apply feature_engineering_spec in H as (_ & _ & A & _).
  unfold cell_at in *.
  destruct (lookup AI_Adoption_Rate (data df)) as [a|]; try discriminate.
  destruct (lookup Skill_Depreciation_Rate (data df)) as [b|]; try discriminate.
  destruct A as (p & Hp & ->).
  exact (zipM_nth _ _ _ _ Hp _ _ _ Hx Hy).
Qed.

Lemma viability_row df df' i y m :
  feature_engineering df = Ok df' ->
  cell_at df Years i = Some y ->
  cell_at df Months i = Some m ->
  exists r, viability y m = Ok r /\ cell_at df' Reskilling_Viability_Ratio i = Some r.
Proof.
  intros H Hy Hm. apply feature_engineering_spec in H as (_ & _ & _ & _ & R).
  unfold cell_at in *.
  destruct (lookup Years (data df)) as [ys|]; try discriminate.
  destruct (lookup Months (data df)) as [ms|]; try discriminate.
  destruct R as (r & Hr & ->).
  apply (series_mul_int_nth _ 12) in Hy.
  exact (zipM_nth _ _ _ _ Hr _ _ _ Hy Hm).
Qed.
(* ================================================================== *)
(** ** Derived columns *)

Lemma numeric_cell_at df col i c :
  numeric_column df col = true -> cell_at df col i = Some c -> numeric c = true.
Proof.
  unfold numeric_column, cell_at. destruct (lookup col (data df)) as [s|]; [|discriminate].
  intros H Hc. apply nth_error_In in Hc. eapply forallb_numeric_In; eauto.
Qed.

(** C4, as the code has it: in every row where both rates are numbers,
    [Acceleration_Index] is their product in the arithmetic of the two
    columns: the [int64] product, which wraps around beyond [int64], when
    both are integers, and the binary64 product otherwise.  It is present
    exactly when both rates are present and they are not an infinity
    paired with a zero (whose product is NaN). *)
Theorem acceleration_index_rows (df : DataFrame) (i : nat) (a b : cell) :
  numeric_inputs df = true ->
  cell_at df AI_Adoption_Rate i = Some a ->
  cell_at df Skill_Depreciation_Rate i = Some b ->
  exists df' p,
    feature_engineering df = Ok df' /\
    cell_at df' Acceleration_Index i = Some p /\
    match a, b with
    | CInt m, CInt n =>
        p = CInt (wrap64 (m * n)) /\
        (int64 (m * n) = true -> p = CInt (m * n)) /\
        present df' Acceleration_Index i = true
    | _, _ =>
        exists x y,
          to_float a = Some x /\ to_float b = Some y /\
          p = CFloat (F64.mul x y) /\
          present df' Acceleration_Index i =
            present df AI_Adoption_Rate i && present df Skill_Depreciation_Rate i
            && negb ((is_inf x && is_zero y) || (is_zero x && is_inf y))
    end /\
    (isna a = true \/ isna b = true -> present df' Acceleration_Index i = false).
Proof.
  intros Hn Ha Hb.
  destruct (feature_engineering_total df Hn) as [df' H].
  apply numeric_inputs_columns in Hn as (Na & Nb & _).
  pose proof (numeric_cell_at _ _ _ _ Na Ha) as Ka.
  pose proof (numeric_cell_at _ _ _ _ Nb Hb) as Kb.
  destruct (acceleration_row _ _ _ _ _ H Ha Hb) as (p & Hp & Hc).
  exists df', p. split; [exact H|]. split; [exact Hc|].
  assert (F : forall x y, to_float a = Some x -> to_float b = Some y ->
                          p = CFloat (F64.mul x y) ->
                          present df' Acceleration_Index i =
                            present df AI_Adoption_Rate i
                            && present df Skill_Depreciation_Rate i
                            && negb ((is_inf x && is_zero y) || (is_zero x && is_inf y))).
  { intros x y Hx Hy ->. unfold present. rewrite Hc, Ha, Hb. cbn [isna].
    rewrite mul_is_nan, (to_float_not_nan a x Hx), (to_float_not_nan b y Hy).
    destruct (isna a), (isna b), (is_inf x && is_zero y), (is_zero x && is_inf y);
      reflexivity. }
  assert (N : forall x y, to_float a = Some x -> to_float b = Some y ->
                          p = CFloat (F64.mul x y) ->
                          isna a = true \/ isna b = true ->
                          present df' Acceleration_Index i = false).
  { intros x y Hx Hy -> E. unfold present. rewrite Hc. cbn [isna].
    rewrite mul_is_nan, (to_float_not_nan a x Hx), (to_float_not_nan b y Hy).
    destruct E as [-> | ->]; cbn [orb negb]; rewrite ?orb_true_r; reflexivity. }
  destruct a as [x|m|s], b as [y|n|t]; try discriminate Ka; try discriminate Kb;
    cbn [cell_mul] in Hp; apply Ok_inj in Hp.
  - split; [|now apply (N x y)]. exists x, y. repeat split; auto.
  - split; [|now apply (N x (of_Z n))]. exists x, (of_Z n). repeat split; auto.
  - split; [|now apply (N (of_Z m) y)]. exists (of_Z m), y. repeat split; auto.
  - split; [|intros [E|E]; discriminate E].
    split; [auto|]. split.
    + intros R. now rewrite <- (wrap64_small _ R).
    + unfold present. now rewrite Hc, <- Hp.
Qed.

Lemma acceleration_index_rows_witness :
  (exists df' p,
     feature_engineering sample_rates = Ok df' /\
     cell_at df' Acceleration_Index 0 = Some p /\
     p = CFloat (of_dyadic 1 (-3))) /\
  (exists df' p,
     feature_engineering sample_whole = Ok df' /\
     cell_at df' Acceleration_Index 0 = Some p /\
     p = CInt 21).
Proof.
  split.
  - destruct (acceleration_index_rows sample_rates 0 _ _ eq_refl eq_refl eq_refl)
      as (df' & p & H & Hc & (x & y & Hx & Hy & Hp & _) & _).
    exists df', p. split; [exact H|]. split; [exact Hc|].
    injection Hx as <-. injection Hy as <-. exact Hp.
  - destruct (acceleration_index_rows sample_whole 0 _ _ eq_refl eq_refl eq_refl)
      as (df' & p & H & Hc & (Hp & _) & _).
    exists df', p. split; [exact H|]. split; [exact Hc|exact Hp].
Defined.

(** Against C4 as stated.  Two whole-number rates of 4000000000 are both
    present, and the index of their row is not their product
    16000000000000000000 but that number less [2^64].  Two float rates
    of 94906267 have the index 9007199515875288, one less than their
    product.  And a row holds both rates, infinity and zero, yet its
    index is absent. *)
Lemma acceleration_index_not_the_exact_product :
  (cell_at sample_whole AI_Adoption_Rate 1 = Some (CInt 4000000000) /\
   cell_at sample_whole Skill_Depreciation_Rate 1 = Some (CInt 4000000000) /\
   rmap (fun df' => cell_at df' Acceleration_Index 1) (feature_engineering sample_whole)
   = Ok (Some (CInt (-2446744073709551616))) /\
   (4000000000 * 4000000000 = 16000000000000000000)%Z) /\
  (cell_at sample_rates AI_Adoption_Rate 2 = Some (f64 94906267) /\
   cell_at sample_rates Skill_Depreciation_Rate 2 = Some (f64 94906267) /\
   rmap (fun df' => cell_at df' Acceleration_Index 2) (feature_engineering sample_rates)
   = Ok (Some (CFloat (S754_finite false 4503599757937644 1))) /\
   (4503599757937644 * 2 ^ 1 = 9007199515875288)%Z /\
   (94906267 * 94906267 = 9007199515875289)%Z) /\
  (present sample_rates AI_Adoption_Rate 1 = true /\
   present sample_rates Skill_Depreciation_Rate 1 = true /\
   rmap (fun df' => present df' Acceleration_Index 1) (feature_engineering sample_rates)
   = Ok false).
Proof. repeat split. Qed.

(** C1, as the code has it: in every row where both inputs are numbers,
    [Reskilling_Viability_Ratio] is [(years * 12) / months] and no fault
    is raised, where [years * 12] is computed in the type of the
    half-life column (binary64, or [int64] with its wrap-around) and the
    division in binary64.  The ratio is absent when either input is
    absent; when [months] is exactly zero it is never an ordinary
    number: absent if [years * 12] is zero or absent, an infinity (a
    present value) otherwise. *)
Theorem viability_ratio_rows (df : DataFrame) (i : nat) (y m : cell) :
  numeric_inputs df = true ->
  cell_at df Years i = Some y ->
  cell_at df Months i = Some m ->
  exists df' y12 mf,
    feature_engineering df = Ok df' /\
    to_float (cell_mul_int y 12) = Some y12 /\
    to_float m = Some mf /\
    cell_at df' Reskilling_Viability_Ratio i = Some (CFloat (F64.div y12 mf)) /\
    (forall x, y = CFloat x -> y12 = F64.mul x (of_Z 12)) /\
    (forall z, y = CInt z ->
       y12 = of_Z (wrap64 (z * 12)) /\
       (int64 (z * 12) = true -> y12 = of_Z (z * 12))) /\
    (isna y = true \/ isna m = true ->
       present df' Reskilling_Viability_Ratio i = false) /\
    (is_zero mf = true ->
       is_finite (F64.div y12 mf) = false /\
       present df' Reskilling_Viability_Ratio i = negb (is_nan y12 || is_zero y12)).
Proof.
  intros Hn Hy Hm.
  destruct (feature_engineering_total df Hn) as [df' H].
  apply numeric_inputs_columns in Hn as (_ & _ & Ny & Nm).
  pose proof (numeric_cell_at _ _ _ _ Ny Hy) as Ky.
  pose proof (numeric_cell_at _ _ _ _ Nm Hm) as Km.
  destruct (viability_row _ _ _ _ _ H Hy Hm) as (r & Hr & Hc).
  destruct (numeric_to_float m Km) as [mf Hmf].
  assert (Hy12 : exists y12, to_float (cell_mul_int y 12) = Some y12).
  { destruct y; try discriminate Ky; simpl; eauto. }
  destruct Hy12 as [y12 Hy12].
  unfold viability, cell_div in Hr. rewrite Hy12, Hmf in Hr.
  apply Ok_inj in Hr. subst r.
  exists df', y12, mf.
  split; [exact H|]. split; [exact Hy12|]. split; [exact Hmf|]. split; [exact Hc|].
  split; [|split; [|split]].
  - intros x ->. cbn [cell_mul_int to_float] in Hy12. now apply Some_inj in Hy12.
  - intros z ->. cbn [cell_mul_int to_float] in Hy12. apply Some_inj in Hy12. subst y12.
    split; [reflexivity|]. intros R.
    change (Z.of_nat 12) with 12%Z. now rewrite (wrap64_small _ R).
  - unfold present. rewrite Hc. cbn [isna].
    rewrite div_is_nan, <- (to_float_not_nan m mf Hmf).
    intros [N|N].
    + destruct y as [x|z|s]; try discriminate N. cbn [isna] in N.
      cbn [cell_mul_int to_float] in Hy12. apply Some_inj in Hy12. subst y12.
      now rewrite mul_is_nan, N.
    + rewrite N, orb_true_r. reflexivity.
  - intros Z. unfold present. rewrite Hc. cbn [isna].
    destruct mf as [sm|sm| |sm mm em]; try discriminate.
    destruct y12 as [s|s| |s mx ex]; split; reflexivity.
Qed.

Lemma viability_ratio_rows_witness :
  (exists df',
     feature_engineering sample_edges = Ok df' /\
     cell_at df' Reskilling_Viability_Ratio 0 = Some (f64 2)) /\
  (exists df',
     feature_engineering sample_whole = Ok df' /\
     cell_at df' Reskilling_Viability_Ratio 0 = Some (f64 2)).
Proof.
  split.
  - destruct (viability_ratio_rows sample_edges 0 _ _ eq_refl eq_refl eq_refl)
      as (df' & y12 & mf & H & Hy & Hm & Hc & _).
    exists df'. split; [exact H|].
    injection Hy as <-. injection Hm as <-. exact Hc.
  - destruct (viability_ratio_rows sample_whole 0 _ _ eq_refl eq_refl eq_refl)
      as (df' & y12 & mf & H & Hy & Hm & Hc & _).
    exists df'. split; [exact H|].
    injection Hy as <-. injection Hm as <-. exact Hc.
Defined.

(** Against C1 as stated.  With [years = 5] and [months = 0] the ratio is
    plus infinity, a present value, not an absent one.  And in a column
    of whole numbers, [years = 1000000000000000000] with [months = 12] is
    a row in which both inputs are present and positive, yet the ratio
    is negative: [years * 12] has wrapped around to
    -6446744073709551616. *)
Lemma viability_ratio_zero_months_or_wrapped :
  (cell_at sample_edges Months 1 = Some (f64 0) /\
   rmap (fun df' => cell_at df' Reskilling_Viability_Ratio 1)
        (feature_engineering sample_edges) = Ok (Some (CFloat inf)) /\
   rmap (fun df' => present df' Reskilling_Viability_Ratio 1)
        (feature_engineering sample_edges) = Ok true) /\
  (cell_at sample_whole Years 1 = Some (CInt 1000000000000000000) /\
   cell_at sample_whole Months 1 = Some (CInt 12) /\
   rmap (fun df' => cell_at df' Reskilling_Viability_Ratio 1)
        (feature_engineering sample_whole)
   = Ok (Some (CFloat (F64.div (of_Z (-6446744073709551616)) (of_Z 12)))) /\
   is_negative (F64.div (of_Z (-6446744073709551616)) (of_Z 12)) = true /\
   (1000000000000000000 * 12 = 12000000000000000000)%Z).
Proof. repeat split. Qed.

(** ** The urgency bins *)

Lemma eqb_finite_eq x s m e :
  F64.eqb x (S754_finite s m e) = true -> x = S754_finite s m e.
Proof.
  unfold F64.eqb, SFeqb.
  destruct x as [sx|sx| |sx mx ex]; simpl; try discriminate;
    try (destruct sx; discriminate); try (destruct s; discriminate).
  destruct sx; destruct s; simpl; try discriminate.
  all: destruct (Z.compare_spec ex e); simpl; try discriminate; subst.
  all: destruct (PosDef.Pos.compare_cont Eq mx m) eqn:C; simpl; intros K;
    try discriminate K.
  all: apply Pos.compare_eq in C; subst; reflexivity.
Qed.

(** The four bins are (0,2], (2,5], (5,10] and everything above 10, and
    a half-life outside them gets no category. *)
Lemma urgency_bins_of x u :
  urgency (CFloat x) = Ok u ->
  (u = CStr Critical <-> F64.ltb (of_Z 0) x = true /\ F64.leb x (of_Z 2) = true) /\
  (u = CStr High <-> F64.ltb (of_Z 2) x = true /\ F64.leb x (of_Z 5) = true) /\
  (u = CStr Moderate <-> F64.ltb (of_Z 5) x = true /\ F64.leb x (of_Z 10) = true) /\
  (u = CStr Low <-> F64.ltb (of_Z 10) x = true) /\
  (isna u = true <-> is_nan x = true \/ F64.leb x (of_Z 0) = true).
Proof.
  rewrite urgency_float. intros E. apply Ok_inj in E. subst u.
  destruct (is_nan x) eqn:N.
  { destruct x; try discriminate. bin_case. }
  rewrite !(leb_ltb x) by (exact N || reflexivity).
  pose proof (ltb_trans (of_Z 0) (of_Z 2) x eq_refl) as H02.
  pose proof (ltb_trans (of_Z 2) (of_Z 5) x eq_refl) as H25.
  pose proof (ltb_trans (of_Z 5) (of_Z 10) x eq_refl) as H510.
  destruct (F64.ltb (of_Z 10) x) eqn:L10.
  { rewrite H510, H25, H02 by auto. simpl. bin_case. }
  destruct (F64.ltb (of_Z 5) x) eqn:L5.
  { rewrite H25, H02 by auto. simpl. bin_case. }
  destruct (F64.ltb (of_Z 2) x) eqn:L2.
  { rewrite H02 by auto. simpl. bin_case. }
  destruct (F64.ltb (of_Z 0) x) eqn:L0; simpl; bin_case.
Qed.

Lemma urgency_outside_bins x :
  is_zero x = true \/ is_negative x = true \/ is_nan x = true ->
  urgency (CFloat x) = Ok NaN.
Proof.
  intros H. rewrite urgency_float.
  destruct x as [s|s| |s m e]; simpl in H; try reflexivity.
  - destruct s; [reflexivity|]. destruct H as [H|[H|H]]; discriminate.
  - destruct s; [reflexivity|]. destruct H as [H|[H|H]]; discriminate.
Qed.

(** The loader's category of a row, with the number it was cut from. *)
Lemma urgency_cell df i c :
  numeric_inputs df = true ->
  cell_at df Years i = Some c ->
  exists df' x u,
    feature_engineering df = Ok df' /\
    to_float c = Some x /\
    urgency (CFloat x) = Ok u /\
    cell_at df' Urgency_Category i = Some u.
Proof.
  intros Hn Hc.
  destruct (feature_engineering_total df Hn) as [df' H].
  apply numeric_inputs_columns in Hn as (_ & _ & Ny & _).
  destruct (numeric_to_float c (numeric_cell_at _ _ _ _ Ny Hc)) as [x Hx].
  destruct (urgency_row _ _ _ _ H Hc) as (u & Hu & Hcu).
  rewrite (urgency_to_float c x Hx) in Hu.
  exists df', x, u. auto.
Qed.

(** C9: [pd.cut] closes every bin on the right.  In the loader's frame a
    half-life of exactly 2 is Critical, of exactly 5 High, of exactly 10
    Moderate, and the four bins are (0,2], (2,5], (5,10] and everything
    above 10. *)
Theorem urgency_bins_right_closed (df : DataFrame) (i : nat) (c : cell) :
  numeric_inputs df = true ->
  cell_at df Years i = Some c ->
  exists df' x u,
    feature_engineering df = Ok df' /\
    to_float c = Some x /\
    cell_at df' Urgency_Category i = Some u /\
    (F64.eqb x (of_Z 2) = true -> u = CStr Critical) /\
    (F64.eqb x (of_Z 5) = true -> u = CStr High) /\
    (F64.eqb x (of_Z 10) = true -> u = CStr Moderate) /\
    (u = CStr Critical <-> F64.ltb (of_Z 0) x = true /\ F64.leb x (of_Z 2) = true) /\
    (u = CStr High <-> F64.ltb (of_Z 2) x = true /\ F64.leb x (of_Z 5) = true) /\
    (u = CStr Moderate <-> F64.ltb (of_Z 5) x = true /\ F64.leb x (of_Z 10) = true) /\
    (u = CStr Low <-> F64.ltb (of_Z 10) x = true).
Proof.
  intros Hn Hc.
  destruct (urgency_cell df i c Hn Hc) as (df' & x & u & H & Hx & Hu & Hcu).
  exists df', x, u.
  split; [exact H|]. split; [exact Hx|]. split; [exact Hcu|].
  destruct (urgency_bins_of x u Hu) as (B1 & B2 & B3 & B4 & _).
  split; [|split; [|split]].
  - intros E. apply eqb_finite_eq in E. subst x. apply B1. split; reflexivity.
  - intros E. apply eqb_finite_eq in E. subst x. apply B2. split; reflexivity.
  - intros E. apply eqb_finite_eq in E. subst x. apply B3. split; reflexivity.
  - auto.
Qed.

Lemma urgency_bins_right_closed_witness :
  exists df',
    feature_engineering sample_edges = Ok df' /\
    cell_at df' Urgency_Category 0 = Some (CStr Critical) /\
    cell_at df' Urgency_Category 1 = Some (CStr High) /\
    cell_at df' Urgency_Category 2 = Some (CStr Moderate).
Proof.
  destruct (urgency_bins_right_closed sample_edges 0 _ eq_refl eq_refl)
    as (df0 & x0 & u0 & H0 & X0 & C0 & E0 & _).
  destruct (urgency_bins_right_closed sample_edges 1 _ eq_refl eq_refl)
    as (df1 & x1 & u1 & H1 & X1 & C1 & _ & E1 & _).
  destruct (urgency_bins_right_closed sample_edges 2 _ eq_refl eq_refl)
    as (df2 & x2 & u2 & H2 & X2 & C2 & _ & _ & E2 & _).
  injection X0 as <-. injection X1 as <-. injection X2 as <-.
  exists df0. split; [exact H0|].
  rewrite H0 in H1, H2. apply Ok_inj in H1. apply Ok_inj in H2. subst df1 df2.
  rewrite <- (E0 eq_refl), <- (E1 eq_refl), <- (E2 eq_refl). auto.
Defined.

(** C5: in every row of the loader's frame the category follows the
    four-bin table on the half-life: Critical on (0,2], High on (2,5],
    Moderate on (5,10], Low above 10, so that 1.5 is Critical, 7 is
    Moderate and 15 is Low; the category is absent exactly when the
    half-life is missing, zero or negative. *)
Theorem urgency_category_table (df : DataFrame) (i : nat) (c : cell) :
  numeric_inputs df = true ->
  cell_at df Years i = Some c ->
  exists df' x u,
    feature_engineering df = Ok df' /\
    to_float c = Some x /\
    cell_at df' Urgency_Category i = Some u /\
    (u = CStr Critical <-> F64.ltb (of_Z 0) x = true /\ F64.leb x (of_Z 2) = true) /\
    (u = CStr High <-> F64.ltb (of_Z 2) x = true /\ F64.leb x (of_Z 5) = true) /\
    (u = CStr Moderate <-> F64.ltb (of_Z 5) x = true /\ F64.leb x (of_Z 10) = true) /\
    (u = CStr Low <-> F64.ltb (of_Z 10) x = true) /\
    (present df' Urgency_Category i = false
       <-> is_nan x = true \/ F64.leb x (of_Z 0) = true) /\
    (x = of_dyadic 3 (-1) -> u = CStr Critical) /\
    (x = of_Z 7 -> u = CStr Moderate) /\
    (x = of_Z 15 -> u = CStr Low) /\
    (is_zero x = true \/ is_negative x = true \/ is_nan x = true ->
       u = NaN /\ present df' Urgency_Category i = false).
Proof.
  intros Hn Hc.
  destruct (urgency_cell df i c Hn Hc) as (df' & x & u & H & Hx & Hu & Hcu).
  exists df', x, u.
  split; [exact H|]. split; [exact Hx|]. split; [exact Hcu|].
  destruct (urgency_bins_of x u Hu) as (B1 & B2 & B3 & B4 & B5).
  split; [exact B1|]. split; [exact B2|]. split; [exact B3|]. split; [exact B4|].
  unfold present. rewrite Hcu.
  split; [|split; [|split; [|split]]].
  - rewrite <- B5. destruct (isna u); simpl; split; congruence.
  - intros ->. apply B1. split; reflexivity.
  - intros ->. apply B3. split; reflexivity.
  - intros ->. apply B4. reflexivity.
  - intros E. rewrite (urgency_outside_bins x E) in Hu. apply Ok_inj in Hu. subst u.
    split; reflexivity.
Qed.

Lemma urgency_category_table_witness :
  exists df',
    feature_engineering sample_years = Ok df' /\
    cell_at df' Urgency_Category 0 = Some (CStr Critical).
Proof.
  destruct (urgency_category_table sample_years 0 _ eq_refl eq_refl)
    as (df' & x & u & H & Hx & Hc & _ & _ & _ & _ & _ & E & _).
  injection Hx as <-.
  exists df'. split; [exact H|]. rewrite <- (E eq_refl). exact Hc.
Defined.

(** C2, as the code has it: in every row whose half-life is exactly 2
    (the float 2.0, or the integer 2 of a whole-number column) the
    category is "Critical (<2y)": the edge between the first two bins
    belongs to the lower one. *)
Theorem urgency_at_two_is_critical (df : DataFrame) (i : nat) (c : cell) :
  numeric_inputs df = true ->
  cell_at df Years i = Some c ->
  c = f64 2 \/ c = CInt 2 ->
  exists df',
    feature_engineering df = Ok df' /\
    cell_at df' Urgency_Category i = Some (CStr Critical).
Proof.
  intros Hn Hx Hc.
  destruct (feature_engineering_total df Hn) as [df' H].
  exists df'. split; [exact H|].
  destruct (urgency_row _ _ _ _ H Hx) as (u & Hu & Hcu).
  destruct Hc as [-> | ->]; vm_compute in Hu; injection Hu as <-; exact Hcu.
Qed.

Lemma urgency_at_two_is_critical_witness :
  (exists df',
     feature_engineering sample_edges = Ok df' /\
     cell_at df' Urgency_Category 0 = Some (CStr Critical)) /\
  (exists df',
     feature_engineering sample_whole = Ok df' /\
     cell_at df' Urgency_Category 0 = Some (CStr Critical)).
Proof.
  split.
  - exact (urgency_at_two_is_critical sample_edges 0 _ eq_refl eq_refl
             (or_introl eq_refl)).
  - exact (urgency_at_two_is_critical sample_whole 0 _ eq_refl eq_refl
             (or_intror eq_refl)).
Defined.

(** Against C2 as stated: the row with half-life 2.0 is not given
    "High (2-5y)". *)
Lemma urgency_at_two_is_not_high :
  cell_at sample_edges Years 0 = Some (f64 2) /\
  rmap (fun df' => cell_at df' Urgency_Category 0) (feature_engineering sample_edges)
  <> Ok (Some (CStr High)).
Proof. split; [reflexivity|]. vm_compute. discriminate. Qed.
(* ================================================================== *)
(** ** The sidebar script and the frames it computes *)

Lemma getitem_lookup d c : getitem d c = match lookup c (data d) with
                                         | Some s => Ok s
                                         | None => Raise KeyError
                                         end.
Proof. reflexivity. Qed.

Lemma sector_col_lookup d :
  has_col Sector d || has_col Industry d = false -> lookup (sector_col d) (data d) = None.
Proof.
  unfold sector_col. rewrite !has_col_lookup.
  destruct (lookup Sector (data d)); simpl; [discriminate|].
  destruct (lookup Industry (data d)); simpl; [discriminate|auto].
Qed.

Lemma sector_col_present d :
  has_col Sector d || has_col Industry d = true ->
  exists col, lookup (sector_col d) (data d) = Some col.
Proof.
  unfold sector_col. rewrite !has_col_lookup.
  destruct (lookup Sector (data d)) eqn:S; simpl; eauto.
  destruct (lookup Industry (data d)) eqn:I; simpl; eauto. discriminate.
Qed.

Lemma state_eta s : mkState (heap s) (cache s) (screen s) = s.
Proof. now destruct s. Qed.

Lemma sector_filter_run df i s :
  sector_filter df i s =
  match sector_view (nth df (heap s) empty_frame) (selected_sector i) with
  | Ok f => (Ok (List.length (heap s)),
             mkState (heap s ++ [f])%list (cache s)
                     (screen s ++ sector_box (nth df (heap s) empty_frame))%list)
  | Raise e => (Raise e, s)
  end.
Proof.
  unfold sector_filter, sector_view, sector_box, option_box, select_options,
    bind, deref, lift, selectbox, alloc, ret.
  set (d := nth df (heap s) empty_frame).
  destruct (has_col Sector d || has_col Industry d) eqn:C.
  - rewrite !getitem_lookup. destruct (sector_col_present d C) as [col E].
    rewrite E. cbn [rbind].
    destruct (py_sorted (unique col)) as [sorted_values|]; cbn [rbind]; [|reflexivity].
    destruct (cell_ne (selected_sector i) All); cbn [heap cache screen]; fold d;
      rewrite ?getitem_lookup, ?E; reflexivity.
  - rewrite (sector_col_lookup d C), app_nil_r. reflexivity.
Qed.

Lemma category_filter_run df r i s :
  category_filter df r i s =
  match category_view (nth df (heap s) empty_frame) (nth r (heap s) empty_frame)
                      (selected_category i) with
  | Ok f =>
      if has_col Skill_Category (nth df (heap s) empty_frame)
         && cell_ne (selected_category i) All
      then (Ok (List.length (heap s)),
            mkState (heap s ++ [f])%list (cache s)
                    (screen s ++ category_box (nth df (heap s) empty_frame))%list)
      else (Ok r,
            mkState (heap s) (cache s)
                    (screen s ++ category_box (nth df (heap s) empty_frame))%list)
  | Raise e =>
      (Raise e,
       mkState (heap s) (cache s)
               (screen s ++ category_box (nth df (heap s) empty_frame))%list)
  end.
Proof.
  unfold category_filter, category_view, category_box, option_box, select_options,
    bind, deref, lift, selectbox, alloc, ret.
  set (d := nth df (heap s) empty_frame).
  rewrite has_col_lookup, !getitem_lookup.
  destruct (lookup Skill_Category (data d)) as [col|] eqn:E; cbn [rbind andb].
  - destruct (py_sorted (unique col)) as [sorted_values|]; cbn [rbind].
    + destruct (cell_ne (selected_category i) All); cbn [heap cache screen]; [|reflexivity].
      unfold getitem.
      destruct (lookup Skill_Category (data (nth r (heap s) empty_frame))); reflexivity.
    + now rewrite app_nil_r, state_eta.
  - now rewrite app_nil_r, state_eta.
Qed.

Lemma nth_app_old {A} (l ext : list A) k dflt :
  k < List.length l -> nth k (l ++ ext)%list dflt = nth k l dflt.
Proof. intros H. now rewrite app_nth1. Qed.

Lemma nth_app_new {A} (l : list A) a dflt :
  nth (List.length l) (l ++ [a])%list dflt = a.
Proof. rewrite app_nth2 by lia. now rewrite Nat.sub_diag. Qed.

Lemma category_view_inactive d f sel f' :
  has_col Skill_Category d && cell_ne sel All = false ->
  category_view d f sel = Ok f' -> f' = f.
Proof.
  unfold category_view. destruct (has_col Skill_Category d); simpl.
  - intros ->. destruct (getitem d Skill_Category); simpl; try discriminate.
    destruct (py_sorted _); simpl; try discriminate. congruence.
  - congruence.
Qed.

(** One call of the sidebar, by the frame it computes: what it returns
    and what it has put in the sidebar by then (the options of the
    select boxes in the order [py_sorted] leaves them). *)
Lemma sidebar_run df i s :
  df < List.length (heap s) ->
  match filtered_view (nth df (heap s) empty_frame) i with
  | Ok f =>
      exists r s',
        sidebar df i s = (Ok r, s') /\
        nth r (heap s') empty_frame = f /\
        List.length (heap s) <= r /\
        extends s s' /\
        screen s' = (screen s ++ controls (nth df (heap s) empty_frame)
                     ++ [SidebarInfo (len f) (len (nth df (heap s) empty_frame))])%list
  | Raise e =>
      exists s',
        sidebar df i s = (Raise e, s') /\ extends s s' /\
        screen s' = (screen s ++ [SidebarTitle controls_title; SidebarMarkdown rule]
                     ++ if is_ok (sector_view (nth df (heap s) empty_frame)
                                              (selected_sector i))
                        then sector_box (nth df (heap s) empty_frame)
                               ++ category_box (nth df (heap s) empty_frame)
                        else [])%list
  end.
Proof.
  intros Hdf. unfold sidebar, filtered_view, bind, render, controls.
  rewrite sector_filter_run. cbn [heap cache screen].
  set (d := nth df (heap s) empty_frame).
  destruct (sector_view d (selected_sector i)) as [f1|e]; cbn [rbind is_ok].
  2:{ eexists. split; [reflexivity|]. cbn [heap cache screen]. split.
      - split; [exists []; now rewrite app_nil_r|reflexivity].
      - now rewrite <- !app_assoc. }
  rewrite category_filter_run. cbn [heap cache screen].
  rewrite nth_app_old by exact Hdf. rewrite nth_app_new. fold d.
  destruct (category_view d f1 (selected_category i)) as [f2|e] eqn:CV.
  2:{ eexists. split; [reflexivity|]. cbn [heap cache screen]. split.
      - split; [now exists [f1]|reflexivity].
      - now rewrite <- !app_assoc. }
  assert (Hd2 : forall f2, nth df ((heap s ++ [f1]) ++ [f2])%list empty_frame = d).
  { intros f2'. rewrite !nth_app_old; auto. rewrite length_app. simpl. lia. }
  assert (Hd1 : nth df (heap s ++ [f1])%list empty_frame = d).
  { now rewrite nth_app_old. }
  destruct (has_col Skill_Category d && cell_ne (selected_category i) All) eqn:C.
  - unfold deref, ret. cbn [heap cache screen].
    eexists _, _. split; [reflexivity|]. cbn [heap cache screen].
    rewrite !nth_app_new, Hd2. split; [reflexivity|]. split; [rewrite length_app; lia|].
    split.
    + split; [|reflexivity]. exists [f1; f2]. now rewrite <- app_assoc.
    + now rewrite <- !app_assoc.
  - unfold deref, ret. cbn [heap cache screen].
    eexists _, _. split; [reflexivity|]. cbn [heap cache screen].
    rewrite !nth_app_new, Hd1.
    apply (category_view_inactive _ _ _ _ C) in CV. subst f2.
    split; [reflexivity|]. split; [lia|]. split.
    + split; [now exists [f1]|reflexivity].
    + now rewrite <- !app_assoc.
Qed.
(** ** Masks and selection *)

Lemma select_nil_r {A} m : @select A m [] = [].
Proof. destruct m; reflexivity. Qed.

Lemma select_all {A} (l : list A) : select (repeat true (List.length l)) l = l.
Proof. induction l; simpl; congruence. Qed.

(** Selection keeps the order of the list: it is a filter. *)
Lemma select_filter {A} m (l : list A) :
  select m l = map snd (filter fst (combine m l)).
Proof.
  revert l. induction m as [|b m IH]; intros [|x l]; simpl; auto.
  destruct b; simpl; now rewrite IH.
Qed.

Lemma select_map {A B} (f : A -> B) m l :
  select m (map f l) = map f (select m l).
Proof.
  revert l. induction m as [|b m IH]; intros [|x l]; simpl; auto.
  destruct b; simpl; now rewrite IH.
Qed.

Lemma select_select {A} m1 m2 (l : list A) :
  List.length m1 = List.length m2 ->
  select (select m1 m2) (select m1 l) = select (mask_and m1 m2) l.
Proof.
  revert m2 l. induction m1 as [|a m1 IH]; intros [|b m2] l H; try discriminate.
  - reflexivity.
  - injection H as H. destruct l as [|x l].
    + simpl. destruct a; simpl; now rewrite ?select_nil_r.
    + simpl. destruct a; simpl; [destruct b|]; now rewrite IH.
Qed.

Lemma mask_and_true_r m : mask_and m (repeat true (List.length m)) = m.
Proof. induction m as [|a m IH]; simpl; [|rewrite andb_true_r]; congruence. Qed.

Lemma mask_and_map {A} (f g : A -> bool) l :
  mask_and (map f l) (map g l) = map (fun a => f a && g a) l.
Proof. induction l; simpl; congruence. Qed.

Lemma length_select_le {A} m (l : list A) : List.length (select m l) <= List.length l.
Proof.
  revert l. induction m as [|b m IH]; intros [|x l]; simpl; try lia.
  destruct b; simpl; specialize (IH l); lia.
Qed.

Lemma length_select {A} m (l : list A) :
  List.length m = List.length l ->
  List.length (select m l) = count_occ bool_dec m true.
Proof.
  revert l. induction m as [|b m IH]; intros [|x l] H; try discriminate; auto.
  injection H as H. simpl. destruct b; simpl; auto.
Qed.

Lemma map_nth_error_seq {A B} (g : option A -> B) (l : list A) :
  map (fun k => g (nth_error l k)) (seq 0 (List.length l)) = map (fun x => g (Some x)) l.
Proof.
  induction l as [|x l IH]; simpl; auto.
  f_equal. rewrite <- seq_shift, map_map. exact IH.
Qed.

(** ** Frames under a mask *)

Lemma lookup_bool_index c d m :
  lookup c (data (bool_index d m)) = option_map (select m) (lookup c (data d)).
Proof.
  unfold bool_index; simpl. induction (data d) as [|[k s] l IH]; simpl; auto.
  destruct (String.eqb c k); auto.
Qed.

Lemma columns_bool_index d m : columns (bool_index d m) = columns d.
Proof. unfold columns, bool_index; simpl. rewrite map_map. reflexivity. Qed.

Lemma bool_index_all d :
  well_formed d -> bool_index d (repeat true (len d)) = d.
Proof.
  destruct d as [idx dat]. unfold well_formed, bool_index, len; simpl.
  intros H. f_equal.
  - apply select_all.
  - induction H as [|[k s] l Hs _ IH]; simpl; auto.
    simpl in Hs. rewrite <- Hs at 1. rewrite select_all. now rewrite IH.
Qed.

Lemma bool_index_twice d m1 m2 :
  List.length m1 = List.length m2 ->
  bool_index (bool_index d m1) (select m1 m2) = bool_index d (mask_and m1 m2).
Proof.
  intros H. unfold bool_index; simpl. f_equal.
  - now apply select_select.
  - rewrite map_map. apply map_ext. intros [k s]; simpl.
    now rewrite select_select.
Qed.

Lemma well_formed_lookup d c col :
  well_formed d -> lookup c (data d) = Some col -> List.length col = len d.
Proof.
  unfold well_formed. intros H. induction H as [|[k s] l Hs _ IH]; simpl.
  - discriminate.
  - destruct (String.eqb c k); auto. now intros [= <-].
Qed.

Lemma length_selection_mask d sel :
  well_formed d -> List.length (selection_mask d sel) = len d.
Proof.
  intros H. unfold selection_mask.
  destruct (active (snd sel)); [|apply repeat_length].
  destruct (lookup (fst sel) (data d)) as [col|] eqn:E; [|apply repeat_length].
  unfold series_eq. rewrite length_map. eapply well_formed_lookup; eauto.
Qed.

(** Row by row and column by column, a selection gives the same mask. *)
Lemma satisfies_selection_mask d sel :
  well_formed d ->
  map (fun k => satisfies d k sel) (seq 0 (len d)) = selection_mask d sel.
Proof.
  intros H. unfold satisfies, selection_mask, cell_at.
  assert (T : forall n, map (fun _ : nat => true) (seq 0 n) = repeat true n).
  { intros n. rewrite <- (length_seq n 0) at 2.
    induction (seq 0 n); simpl; congruence. }
  destruct (active (snd sel)); [|apply T].
  destruct (lookup (fst sel) (data d)) as [col|] eqn:E; [|apply T].
  rewrite <- (well_formed_lookup _ _ _ H E).
  exact (map_nth_error_seq
           (fun o => match o with Some x => cell_eq x (snd sel) | None => true end) col).
Qed.

Lemma keep_mask_two d s1 s2 :
  well_formed d ->
  keep_mask d [s1; s2] = mask_and (selection_mask d s1) (selection_mask d s2).
Proof.
  intros H. rewrite <- (satisfies_selection_mask _ s1 H), <- (satisfies_selection_mask _ s2 H), mask_and_map.
  unfold keep_mask, row_matches. apply map_ext. intros k. simpl.
  now rewrite andb_true_r.
Qed.
(** ** [sorted] and [unique] *)

Section SortedOneKind.
(** [P] is one of the two kinds of cell: strings, numbers. *)
Variable P : cell -> bool.
Hypothesis lt_same : forall a b, P a = true -> P b = true -> is_ok (cell_lt a b) = true.
Hypothesis lt_kind : forall a b, P b = true -> is_ok (cell_lt a b) = true -> P a = true.

Lemma insert_sorted_same x l :
  P x = true -> forallb P l = true ->
  exists r, insert_sorted x l = Ok r /\ forallb P r = true.
Proof.
  intros Hx. induction l as [|y l IH]; simpl; intros Hl.
  - exists [x]. simpl. now rewrite Hx.
  - apply andb_true_iff in Hl as [Hy Hl].
    pose proof (lt_same x y Hx Hy) as Hlt.
    destruct (cell_lt x y) as [[]|]; try discriminate; simpl.
    + eexists; split; eauto. simpl. now rewrite Hx, Hy, Hl.
    + destruct (IH Hl) as (r & -> & Hr). simpl.
      eexists; split; eauto. simpl. now rewrite Hy, Hr.
Qed.

Lemma py_sorted_same l :
  forallb P l = true -> exists r, py_sorted l = Ok r /\ forallb P r = true.
Proof.
  induction l as [|x l IH]; simpl; intros Hl.
  - eauto.
  - apply andb_true_iff in Hl as [Hx Hl].
    destruct (IH Hl) as (r & -> & Hr). simpl.
    now apply insert_sorted_same.
Qed.

Lemma insert_sorted_kind x l :
  l <> [] -> forallb P l = true -> is_ok (insert_sorted x l) = true -> P x = true.
Proof.
  destruct l as [|y l]; [congruence|]. simpl. intros _ Hl H.
  apply andb_true_iff in Hl as [Hy _].
  apply (lt_kind x y Hy). destruct (cell_lt x y); auto.
Qed.
End SortedOneKind.

Lemma py_sorted_length l r : py_sorted l = Ok r -> List.length r = List.length l.
Proof.
  assert (I : forall x l r, insert_sorted x l = Ok r -> List.length r = S (List.length l)).
  { intros x l0. induction l0 as [|y l0 IH]; simpl; intros r0 H.
    - now injection H as <-.
    - destruct (cell_lt x y) as [[]|]; simpl in H; try discriminate.
      + now injection H as <-.
      + destruct (insert_sorted x l0) as [r1|]; simpl in H; try discriminate.
        injection H as <-. simpl. now rewrite (IH r1). }
  revert r. induction l as [|x l IH]; simpl; intros r H.
  - now injection H as <-.
  - destruct (py_sorted l) as [r'|]; simpl in H; try discriminate.
    rewrite (I _ _ _ H). now rewrite (IH r').
Qed.

Lemma str_lt_same a b : is_str a = true -> is_str b = true -> is_ok (cell_lt a b) = true.
Proof. destruct a, b; try discriminate; reflexivity. Qed.

Lemma str_lt_kind a b : is_str b = true -> is_ok (cell_lt a b) = true -> is_str a = true.
Proof. destruct a, b; try discriminate; reflexivity. Qed.

Lemma num_lt_same a b : is_num a = true -> is_num b = true -> is_ok (cell_lt a b) = true.
Proof. destruct a, b; try discriminate; reflexivity. Qed.

Lemma num_lt_kind a b : is_num b = true -> is_ok (cell_lt a b) = true -> is_num a = true.
Proof. destruct a, b; try discriminate; reflexivity. Qed.

Lemma forallb_is_str l : forallb is_str l = negb (existsb is_num l).
Proof. induction l as [|[] l IH]; simpl; auto. Qed.

Lemma forallb_is_num l : forallb is_num l = negb (existsb is_str l).
Proof. induction l as [|[] l IH]; simpl; auto. Qed.

Lemma sortable_one_kind l :
  sortable l = forallb is_str l || forallb is_num l.
Proof.
  unfold sortable. rewrite forallb_is_str, forallb_is_num.
  destruct (existsb is_str l), (existsb is_num l); reflexivity.
Qed.

(** [sorted] raises exactly on the lists that mix the two kinds, and then
    with [TypeError]. *)
Lemma py_sorted_ok l : is_ok (py_sorted l) = sortable l.
Proof.
  rewrite sortable_one_kind.
  destruct (forallb is_str l) eqn:S.
  { destruct (py_sorted_same is_str str_lt_same l S) as (r & -> & _). reflexivity. }
  destruct (forallb is_num l) eqn:F.
  { destruct (py_sorted_same is_num num_lt_same l F) as (r & -> & _). reflexivity. }
  simpl. induction l as [|x l IH]; [discriminate|].
  simpl in *. destruct (py_sorted l) as [r|] eqn:R; simpl; auto.
  destruct (forallb is_str l) eqn:Sl.
  - rewrite andb_true_r in S.
    destruct l as [|y l']; [destruct x; discriminate|].
    destruct (py_sorted_same is_str str_lt_same _ Sl) as (r' & R' & Hr').
    rewrite R in R'. injection R' as <-.
    destruct (insert_sorted x r) eqn:I; auto.
    assert (Hne : r <> []).
    { intros ->. apply py_sorted_length in R. discriminate. }
    rewrite (insert_sorted_kind is_str str_lt_kind x r Hne Hr') in S; [discriminate|].
    now rewrite I.
  - destruct (forallb is_num l) eqn:Fl.
    + rewrite andb_true_r in F.
      destruct l as [|y l']; [destruct x; discriminate|].
      destruct (py_sorted_same is_num num_lt_same _ Fl) as (r' & R' & Hr').
      rewrite R in R'. injection R' as <-.
      destruct (insert_sorted x r) eqn:I; auto.
      assert (Hne : r <> []).
      { intros ->. apply py_sorted_length in R. discriminate. }
      rewrite (insert_sorted_kind is_num num_lt_kind x r Hne Hr') in F; [discriminate|].
      now rewrite I.
    + specialize (IH eq_refl eq_refl). discriminate.
Qed.

Lemma py_sorted_raises l e : py_sorted l = Raise e -> e = TypeError.
Proof.
  assert (I : forall x l e, insert_sorted x l = Raise e -> e = TypeError).
  { intros x l0. induction l0 as [|y l0 IH]; simpl; intros e0 H; [discriminate|].
    destruct (cell_lt x y) as [[]|e1] eqn:L; simpl in H; try discriminate.
    - destruct (insert_sorted x l0) eqn:E; simpl in H; try discriminate.
      injection H as <-. eauto.
    - injection H as <-. destruct x, y; simpl in L; congruence. }
  revert e. induction l as [|x l IH]; simpl; intros e H; [discriminate|].
  destruct (py_sorted l) as [r|e'] eqn:R; simpl in H; eauto.
Qed.

Lemma existsb_unique (P : cell -> bool) l :
  (forall a b, cell_same a b = true -> P a = P b) ->
  existsb P (unique l) = existsb P l.
Proof.
  intros HP.
  assert (Hf : forall c l, P c || existsb P (filter (fun d => negb (cell_same c d)) l)
                           = P c || existsb P l).
  { intros c l0. induction l0 as [|d l0 IH]; simpl; auto.
    destruct (cell_same c d) eqn:E; simpl.
    - rewrite IH. rewrite (HP c d E). now destruct (P d).
    - rewrite !orb_assoc, (orb_comm (P c) (P d)), <- !orb_assoc. now rewrite IH. }
  induction l as [|c l IH]; simpl; auto.
  now rewrite Hf, IH.
Qed.

Lemma sortable_unique l : sortable (unique l) = sortable l.
Proof.
  unfold sortable. rewrite !existsb_unique; auto.
  - intros [] []; simpl; try discriminate; reflexivity.
  - intros [] []; simpl; try discriminate; reflexivity.
Qed.
(** ** The filtered frame *)

(** The sector stage keeps the rows the sector selection allows. *)
Lemma sector_view_mask d sel f :
  well_formed d ->
  sector_view d sel = Ok f ->
  f = bool_index d (selection_mask d (sector_col d, sel)).
Proof.
  intros W. unfold sector_view, selection_mask, active. simpl fst; simpl snd.
  destruct (has_col Sector d || has_col Industry d) eqn:C.
  - destruct (sector_col_present d C) as [col E]. rewrite getitem_lookup, E. simpl.
    destruct (py_sorted (unique col)); simpl; try discriminate.
    destruct (cell_ne sel All); simpl; intros [= <-]; auto.
    now rewrite bool_index_all.
  - rewrite (sector_col_lookup d C). intros [= <-].
    destruct (cell_ne sel All); now rewrite bool_index_all.
Qed.

(** The category stage keeps, among those, the rows the category
    selection allows. *)
Lemma category_view_mask d m1 sel f :
  well_formed d -> List.length m1 = len d ->
  category_view d (bool_index d m1) sel = Ok f ->
  f = bool_index d (mask_and m1 (selection_mask d (Skill_Category, sel))).
Proof.
  intros W L. unfold category_view, selection_mask, active. simpl fst; simpl snd.
  rewrite has_col_lookup, !getitem_lookup, lookup_bool_index.
  destruct (lookup Skill_Category (data d)) as [col|] eqn:E; simpl.
  - destruct (py_sorted (unique col)); simpl; try discriminate.
    destruct (cell_ne sel All); simpl; intros [= <-].
    + unfold series_eq. rewrite <- select_map. apply bool_index_twice.
      rewrite length_map, L. symmetry. eapply well_formed_lookup; eauto.
    + now rewrite <- L, mask_and_true_r.
  - intros [= <-]. destruct (cell_ne sel All); now rewrite <- L, mask_and_true_r.
Qed.

(** Both stages together keep exactly the rows that satisfy every
    selection. *)
Lemma filtered_view_mask d i f :
  well_formed d ->
  filtered_view d i = Ok f ->
  f = bool_index d (keep_mask d (selections d i)).
Proof.
  intros W. unfold filtered_view, selections.
  destruct (sector_view d (selected_sector i)) as [f1|] eqn:S; simpl; try discriminate.
  apply (sector_view_mask _ _ _ W) in S. subst f1. intros C.
  apply category_view_mask in C; auto using length_selection_mask.
  now rewrite keep_mask_two.
Qed.

Lemma sector_view_ok d sel :
  is_ok (sector_view d sel) = sortable_column d (sector_col d).
Proof.
  unfold sector_view, sortable_column.
  destruct (has_col Sector d || has_col Industry d) eqn:C.
  - destruct (sector_col_present d C) as [col E]. rewrite getitem_lookup, E. simpl.
    rewrite <- sortable_unique, <- py_sorted_ok.
    destruct (py_sorted (unique col)); simpl; auto.
    destruct (cell_ne sel All); reflexivity.
  - now rewrite (sector_col_lookup d C).
Qed.

Lemma sector_view_shape d sel f :
  sector_view d sel = Ok f -> f = d \/ exists m, f = bool_index d m.
Proof.
  unfold sector_view.
  destruct (has_col Sector d || has_col Industry d); [|intros [= <-]; auto].
  destruct (getitem d (sector_col d)) as [col|]; simpl; try discriminate.
  destruct (py_sorted (unique col)); simpl; try discriminate.
  destruct (cell_ne sel All); simpl; intros [= <-]; eauto.
Qed.

Lemma sector_view_keeps_column d sel f c col :
  sector_view d sel = Ok f -> lookup c (data d) = Some col ->
  exists col', lookup c (data f) = Some col'.
Proof.
  intros S E. destruct (sector_view_shape _ _ _ S) as [->|[m ->]]; eauto.
  rewrite lookup_bool_index, E. simpl. eauto.
Qed.

(** The sidebar fails exactly when a filter column cannot be sorted. *)
Lemma filtered_view_ok d i :
  is_ok (filtered_view d i)
  = sortable_column d (sector_col d) && sortable_column d Skill_Category.
Proof.
  rewrite <- (sector_view_ok d (selected_sector i)).
  unfold filtered_view, sortable_column.
  destruct (sector_view d (selected_sector i)) as [f|] eqn:S; simpl; auto.
  unfold category_view. rewrite has_col_lookup, !getitem_lookup.
  destruct (lookup Skill_Category (data d)) as [col|] eqn:E; simpl; auto.
  rewrite <- sortable_unique, <- py_sorted_ok.
  destruct (py_sorted (unique col)); simpl; auto.
  destruct (cell_ne (selected_category i) All); auto.
  destruct (sector_view_keeps_column _ _ _ _ _ S E) as [col' ->]. reflexivity.
Qed.

Lemma filtered_view_raises d i e : filtered_view d i = Raise e -> e = TypeError.
Proof.
  unfold filtered_view.
  destruct (sector_view d (selected_sector i)) as [f|e1] eqn:S; simpl.
  - unfold category_view. rewrite has_col_lookup, !getitem_lookup.
    destruct (lookup Skill_Category (data d)) as [col|] eqn:E; simpl; try discriminate.
    destruct (py_sorted (unique col)) eqn:P; simpl.
    + destruct (cell_ne (selected_category i) All); try discriminate.
      destruct (sector_view_keeps_column _ _ _ _ _ S E) as [col' ->]. discriminate.
    + intros [= <-]. eapply py_sorted_raises; eauto.
  - intros [= <-]. unfold sector_view in S.
    destruct (has_col Sector d || has_col Industry d) eqn:C; try discriminate.
    destruct (sector_col_present d C) as [col E]. rewrite getitem_lookup, E in S.
    simpl in S. destruct (py_sorted (unique col)) eqn:P; simpl in S.
    + destruct (cell_ne (selected_sector i) All); discriminate.
    + injection S as <-. eapply py_sorted_raises; eauto.
Qed.
(* ================================================================== *)
(** ** The loader *)

Lemma set_nth_last {A} (l : list A) a b :
  set_nth (List.length l) b (l ++ [a])%list = (l ++ [b])%list.
Proof. induction l; simpl; congruence. Qed.

Lemma load_body_run i s :
  load_body i s =
  match csv i with
  | Ok d =>
      match feature_engineering d with
      | Ok d' =>
          (Ok (List.length (heap s)),
           mkState (heap s ++ [d'])%list (cache s) (screen s))
      | Raise e =>
          if exn_eqb FileNotFoundError e then
            (Raise StopException,
             mkState (heap s ++ [d])%list (cache s)
                     (screen s ++ [ErrorBox not_found_message])%list)
          else (Raise e, mkState (heap s ++ [d])%list (cache s) (screen s))
      end
  | Raise e =>
      if exn_eqb FileNotFoundError e then
        (Raise StopException,
         mkState (heap s) (cache s) (screen s ++ [ErrorBox not_found_message])%list)
      else (Raise e, s)
  end.
Proof.
  unfold load_body, try_except, bind, read_csv, deref, lift, store, ret, alloc,
    st_error, st_stop, render, raise.
  destruct (csv i) as [d|e]; simpl.
  - rewrite nth_app_new.
    destruct (feature_engineering d) as [d'|e]; simpl.
    + now rewrite set_nth_last.
    + destruct e; reflexivity.
  - destruct e; reflexivity.
Qed.

Lemma load_body_outcome i s : outcome (load_body i s) = loaded_frame i.
Proof.
  rewrite load_body_run. unfold loaded_frame, handled, outcome.
  destruct (csv i) as [d|e].
  - destruct (feature_engineering d) as [d'|e]; simpl.
    + unfold rmap; simpl. now rewrite nth_app_new.
    + destruct e; reflexivity.
  - destruct e; reflexivity.
Qed.

Lemma load_body_cache i s : cache (snd (load_body i s)) = cache s.
Proof.
  rewrite load_body_run.
  destruct (csv i) as [d|e].
  - destruct (feature_engineering d) as [d'|e]; simpl; auto.
    destruct e; reflexivity.
  - destruct e; reflexivity.
Qed.

(** C8: two calls of the loader on an unchanged source return the same
    frame (or fail the same way), whatever the cache held before. *)
Theorem load_twice_identical (i : Inputs) (s : State) :
  let first := load_and_process_data i s in
  let second := load_and_process_data i (snd first) in
  outcome second = outcome first.
Proof.
  unfold load_and_process_data, cache_data.
  destruct (cache s) as [d|] eqn:C.
  - unfold alloc, outcome, rmap; simpl. rewrite C. simpl.
    rewrite !nth_app_new. reflexivity.
  - pose proof (load_body_outcome i s) as O1.
    pose proof (load_body_cache i s) as C1.
    destruct (load_body i s) as [[r|e] s1] eqn:B; simpl in *.
    + unfold alloc, outcome, rmap; simpl. now rewrite nth_app_new.
    + rewrite C1, C.
      pose proof (load_body_outcome i s1) as O2.
      destruct (load_body i s1) as [[r2|e2] s2]; simpl.
      * unfold outcome, rmap in *; simpl in *. congruence.
      * unfold outcome, rmap in *; simpl in *. congruence.
Qed.
(* ================================================================== *)
(** ** The sidebar *)

Lemma sidebar_outcome df i s :
  df < List.length (heap s) ->
  outcome (sidebar df i s) = filtered_view (nth df (heap s) empty_frame) i.
Proof.
  intros Hdf. pose proof (sidebar_run df i s Hdf) as H.
  destruct (filtered_view (nth df (heap s) empty_frame) i) as [f|e].
  - destruct H as (r & s' & -> & <- & _). reflexivity.
  - destruct H as (s' & -> & _). reflexivity.
Qed.

Lemma sidebar_extends df i s :
  df < List.length (heap s) -> extends s (snd (sidebar df i s)).
Proof.
  intros Hdf. pose proof (sidebar_run df i s Hdf) as H.
  destruct (filtered_view (nth df (heap s) empty_frame) i) as [f|e].
  - destruct H as (r & s' & -> & _ & _ & E & _). exact E.
  - destruct H as (s' & -> & E & _). exact E.
Qed.

(** Where the sidebar returns, [df_filtered] holds exactly the rows of
    [df] that satisfy every active selection, in their order, and the
    sidebar reports its length and the length of [df]. *)
Lemma sidebar_filters_rows df i s r s' :
  df < List.length (heap s) ->
  well_formed (nth df (heap s) empty_frame) ->
  sidebar df i s = (Ok r, s') ->
  let d := nth df (heap s) empty_frame in
  let out := nth r (heap s') empty_frame in
  let m := keep_mask d (selections d i) in
  out = bool_index d m /\
  index out = select m (index d) /\
  columns out = columns d /\
  (forall c col, lookup c (data d) = Some col ->
                 lookup c (data out) = Some (select m col)) /\
  (forall k, k < len d -> nth_error m k = Some (row_matches d (selections d i) k)) /\
  len out = count_occ bool_dec m true /\
  map outline (screen s')
  = (map outline (screen s) ++ map outline (controls d)
       ++ [SidebarInfo (len out) (len d)])%list.
Proof.
  intros Hdf W Hrun d out m.
  pose proof (sidebar_run df i s Hdf) as H. fold d in H.
  destruct (filtered_view d i) as [f|e] eqn:V.
  2:{ destruct H as (s0 & H & _). congruence. }
  destruct H as (r0 & s0 & H & Hf & _ & _ & Hs).
  rewrite Hrun in H. injection H as <- <-.
  apply (filtered_view_mask _ _ _ W) in V. fold m in V.
  assert (Hout : out = bool_index d m).
  { unfold out. rewrite Hf. exact V. }
  split; [exact Hout|]. rewrite Hout.
  split; [reflexivity|]. split; [apply columns_bool_index|].
  split; [|split; [|split]].
  - intros c col E. now rewrite lookup_bool_index, E.
  - intros k Hk. unfold m, keep_mask.
    rewrite nth_error_map, nth_error_seq.
    apply Nat.ltb_lt in Hk. rewrite Hk. reflexivity.
  - unfold len at 1. simpl. apply length_select.
    unfold m, keep_mask. now rewrite length_map, length_seq.
  - rewrite Hs, V, !map_app. reflexivity.
Qed.

(** The sidebar returns whenever each filter column can be sorted. *)
Lemma sidebar_returns df i s :
  df < List.length (heap s) ->
  sortable_column (nth df (heap s) empty_frame)
                  (sector_col (nth df (heap s) empty_frame)) = true ->
  sortable_column (nth df (heap s) empty_frame) Skill_Category = true ->
  exists r s', sidebar df i s = (Ok r, s').
Proof.
  intros Hdf S1 S2. pose proof (sidebar_run df i s Hdf) as H.
  pose proof (filtered_view_ok (nth df (heap s) empty_frame) i) as Hok.
  rewrite S1, S2 in Hok.
  destruct (filtered_view (nth df (heap s) empty_frame) i); [|discriminate].
  destruct H as (r & s' & H & _). eauto.
Qed.

(** C3 at a source whose [Sector] column has an empty field: sorting the
    sector values raises [TypeError], so the run ends with the title of
    the sidebar and the exception on the page, before any row is
    filtered and before any count is reported, although rows 0 and 2
    carry the selected sector. *)
Theorem sidebar_raises_on_missing_sector :
  well_formed sample_gap /\
  row_matches sample_gap (selections sample_gap (pick (Ok sample_gap) (CStr "Tech") All)) 0
  = true /\
  streamlit_run app (pick (Ok sample_gap) (CStr "Tech") All) just_started
  = (Raise TypeError,
     mkState [sample_gap] (Some sample_gap)
             [SidebarTitle controls_title; SidebarMarkdown rule; ExceptionBox TypeError]).
Proof.
  split; [repeat constructor|]. split; reflexivity.
Qed.
Lemma filtered_view_selections d i i' :
  selected_sector i' = selected_sector i ->
  selected_category i' = selected_category i ->
  filtered_view d i' = filtered_view d i.
Proof. unfold filtered_view. now intros -> ->. Qed.

(** C7: a call of the sidebar changes no object that existed before it,
    the loaded frame included, and hands back a new object; what it hands
    back is decided by the loaded frame and the two selections alone, so
    a call gives the same result after any number of earlier calls. *)
Theorem sidebar_leaves_dataset_unchanged (df : ref) (i : Inputs) (s : State) :
  df < List.length (heap s) ->
  let run := sidebar df i s in
  (forall r, r < List.length (heap s) ->
             nth r (heap (snd run)) empty_frame = nth r (heap s) empty_frame) /\
  cache (snd run) = cache s /\
  (forall r, fst run = Ok r -> List.length (heap s) <= r) /\
  (forall df2 i2 s2,
      df2 < List.length (heap s2) ->
      nth df2 (heap s2) empty_frame = nth df (heap s) empty_frame ->
      selected_sector i2 = selected_sector i ->
      selected_category i2 = selected_category i ->
      outcome (sidebar df2 i2 s2) = outcome run) /\
  (forall i2, outcome (sidebar df i2 (snd run)) = outcome (sidebar df i2 s)).
Proof.
  intros Hdf run.
  pose proof (sidebar_extends df i s Hdf) as [[ext Hext] Hc]. fold run in Hext, Hc.
  assert (Hold : forall r, r < List.length (heap s) ->
             nth r (heap (snd run)) empty_frame = nth r (heap s) empty_frame).
  { intros r Hr. rewrite Hext. now apply nth_app_old. }
  split; [exact Hold|]. split; [exact Hc|]. split; [|split].
  - intros r Hr. pose proof (sidebar_run df i s Hdf) as H.
    destruct (filtered_view (nth df (heap s) empty_frame) i).
    + destruct H as (r0 & s0 & H & _ & Hle & _). unfold run in Hr.
      rewrite H in Hr. simpl in Hr. now injection Hr as <-.
    + destruct H as (s0 & H & _). unfold run in Hr. rewrite H in Hr. discriminate.
  - intros df2 i2 s2 H2 Hd Hs Hcat. unfold run.
    rewrite !sidebar_outcome by assumption. rewrite Hd.
    now apply filtered_view_selections.
  - intros i2.
    assert (Hdf' : df < List.length (heap (snd run))).
    { rewrite Hext, length_app. lia. }
    rewrite !sidebar_outcome by assumption. now rewrite Hold.
Qed.

Lemma sidebar_leaves_dataset_unchanged_witness :
  nth 0 (heap (snd (sidebar 0 (pick (Ok sample_jobs) (CStr "Tech") (CStr "Engineering"))
                            (holding sample_jobs))))
      empty_frame
  = sample_jobs.
Proof.
  destruct (sidebar_leaves_dataset_unchanged
              0 (pick (Ok sample_jobs) (CStr "Tech") (CStr "Engineering"))
              (holding sample_jobs) (Nat.lt_0_succ 0)) as (H & _).
  exact (H 0 (Nat.lt_0_succ 0)).
Defined.
(** ** Sector before Industry *)

Lemma same_but_industry_bool_index f f' m :
  same_but_industry f f' -> same_but_industry (bool_index f m) (bool_index f' m).
Proof.
  intros [Hi Hc]. split.
  - simpl. now rewrite Hi.
  - intros c Hne. now rewrite !lookup_bool_index, (Hc c Hne).
Qed.

Lemma same_but_industry_setitem d vals : same_but_industry d (setitem d Industry vals).
Proof.
  split; [reflexivity|]. intros c Hne. simpl.
  symmetry. now apply lookup_assign_other.
Qed.

Lemma sector_view_same_but_industry d d' sel :
  same_but_industry d d' -> has_col Sector d = true ->
  rrel same_but_industry (sector_view d sel) (sector_view d' sel).
Proof.
  intros R HS. pose proof R as [Hi Hc].
  assert (HS' : has_col Sector d' = true).
  { rewrite has_col_lookup in *. now rewrite <- (Hc Sector) by reflexivity. }
  unfold sector_view, sector_col. rewrite HS, HS'. simpl.
  rewrite !getitem_lookup, <- (Hc Sector) by reflexivity.
  destruct (lookup Sector (data d)) as [col|]; simpl; auto.
  destruct (py_sorted (unique col)); simpl; auto.
  destruct (cell_ne sel All); simpl; auto.
  now apply same_but_industry_bool_index.
Qed.

Lemma category_view_same_but_industry d d' f f' sel :
  same_but_industry d d' -> same_but_industry f f' ->
  rrel same_but_industry (category_view d f sel) (category_view d' f' sel).
Proof.
  intros [_ Hc] R. pose proof R as [_ Hf].
  unfold category_view. rewrite !has_col_lookup, !getitem_lookup.
  rewrite <- (Hc Skill_Category), <- (Hf Skill_Category) by reflexivity.
  destruct (lookup Skill_Category (data d)) as [col|]; simpl; auto.
  destruct (py_sorted (unique col)); simpl; auto.
  destruct (cell_ne sel All); simpl; auto.
  destruct (lookup Skill_Category (data f)) as [colf|]; simpl; auto.
  now apply same_but_industry_bool_index.
Qed.

Lemma filtered_view_same_but_industry d d' i :
  same_but_industry d d' -> has_col Sector d = true ->
  rrel same_but_industry (filtered_view d i) (filtered_view d' i).
Proof.
  intros R HS. unfold filtered_view.
  pose proof (sector_view_same_but_industry d d' (selected_sector i) R HS) as H.
  destruct (sector_view d (selected_sector i)) as [f|e],
           (sector_view d' (selected_sector i)) as [f'|e']; simpl in *;
    try contradiction; auto.
  now apply category_view_same_but_industry.
Qed.

(** What the sidebar returns is the frame of the rows that satisfy the
    two selections. *)
Lemma sidebar_outcome_mask df i s r s' :
  df < List.length (heap s) ->
  well_formed (nth df (heap s) empty_frame) ->
  sidebar df i s = (Ok r, s') ->
  nth r (heap s') empty_frame
  = bool_index (nth df (heap s) empty_frame)
               (keep_mask (nth df (heap s) empty_frame)
                          (selections (nth df (heap s) empty_frame) i)).
Proof.
  intros Hdf W Hrun. pose proof (sidebar_run df i s Hdf) as H.
  destruct (filtered_view (nth df (heap s) empty_frame) i) as [f|e] eqn:V.
  - destruct H as (r0 & s0 & H & Hf & _). rewrite Hrun in H. injection H as <- <-.
    rewrite Hf. now apply filtered_view_mask.
  - destruct H as (s0 & H & _). congruence.
Qed.

(** C10: with a [Sector] column the sector filter runs on [Sector]: the
    rows kept are those whose [Sector] value equals the selected one
    (and whose category equals the selected category); whatever the
    [Industry] column holds, the run fails or returns alike, keeps the
    same rows and gives every other column the same values.  [Industry]
    is the filter dimension only in a frame without [Sector], and there
    the rows are kept by their [Industry] value. *)
Theorem sector_column_takes_precedence
        (df df' : ref) (i : Inputs) (s : State) (vals : Series) :
  df < List.length (heap s) ->
  df' < List.length (heap s) ->
  has_col Sector (nth df (heap s) empty_frame) = true ->
  nth df' (heap s) empty_frame = setitem (nth df (heap s) empty_frame) Industry vals ->
  sector_col (nth df (heap s) empty_frame) = Sector /\
  sector_col (nth df' (heap s) empty_frame) = Sector /\
  (well_formed (nth df (heap s) empty_frame) ->
   forall r s1,
     sidebar df i s = (Ok r, s1) ->
     nth r (heap s1) empty_frame
     = bool_index (nth df (heap s) empty_frame)
                  (keep_mask (nth df (heap s) empty_frame)
                             [(Sector, selected_sector i);
                              (Skill_Category, selected_category i)])) /\
  rrel same_but_industry (outcome (sidebar df i s)) (outcome (sidebar df' i s)) /\
  (forall d, sector_col d = Industry -> has_col Sector d = false) /\
  (forall df2 i2 s2 r s3,
     df2 < List.length (heap s2) ->
     has_col Sector (nth df2 (heap s2) empty_frame) = false ->
     well_formed (nth df2 (heap s2) empty_frame) ->
     sidebar df2 i2 s2 = (Ok r, s3) ->
     nth r (heap s3) empty_frame
     = bool_index (nth df2 (heap s2) empty_frame)
                  (keep_mask (nth df2 (heap s2) empty_frame)
                             [(Industry, selected_sector i2);
                              (Skill_Category, selected_category i2)])).
Proof.
  intros Hdf Hdf' HS Hd'.
  pose proof (same_but_industry_setitem (nth df (heap s) empty_frame) vals) as R.
  rewrite <- Hd' in R.
  assert (SC : sector_col (nth df (heap s) empty_frame) = Sector).
  { unfold sector_col. now rewrite HS. }
  split; [exact SC|].
  split.
  { unfold sector_col. destruct R as [_ Hc]. rewrite has_col_lookup in *.
    rewrite <- (Hc Sector) by reflexivity.
    destruct (lookup Sector (data (nth df (heap s) empty_frame))); [reflexivity|discriminate]. }
  split; [|split; [|split]].
  - intros W r s1 Hrun.
    rewrite (sidebar_outcome_mask df i s r s1 Hdf W Hrun).
    unfold selections. now rewrite SC.
  - rewrite !sidebar_outcome by assumption.
    now apply filtered_view_same_but_industry.
  - intros d. unfold sector_col. destruct (has_col Sector d); [discriminate|reflexivity].
  - intros df2 i2 s2 r s3 Hdf2 HS2 W2 Hrun.
    rewrite (sidebar_outcome_mask df2 i2 s2 r s3 Hdf2 W2 Hrun).
    unfold selections, sector_col. now rewrite HS2.
Qed.

Lemma sector_column_takes_precedence_witness :
  nth 2 (heap (snd (sidebar 0 (pick (Ok sample_jobs) (CStr "Tech") All)
                            (mkState [sample_jobs; sample_jobs_relabelled] None []))))
      empty_frame
  = bool_index sample_jobs [true; false; true; false; true] /\
  rrel same_but_industry
       (outcome (sidebar 0 (pick (Ok sample_jobs) (CStr "Tech") All)
                         (mkState [sample_jobs; sample_jobs_relabelled] None [])))
       (outcome (sidebar 1 (pick (Ok sample_jobs) (CStr "Tech") All)
                         (mkState [sample_jobs; sample_jobs_relabelled] None []))).
Proof.
  assert (W : well_formed sample_jobs) by (repeat constructor).
  destruct (sector_column_takes_precedence
              0 1 (pick (Ok sample_jobs) (CStr "Tech") All)
              (mkState [sample_jobs; sample_jobs_relabelled] None [])
              [CStr "Banking"; CStr "Banking"; CStr "Software"; CStr "Software"; NaN]
              (Nat.lt_0_succ 1) (Nat.lt_succ_diag_r 1) eq_refl eq_refl)
    as (_ & _ & K & H & _).
  split; [|exact H].
  exact (K W 2 _ eq_refl).
Defined.
(* ================================================================== *)
(** ** A source that cannot be read *)

(** C6, as the code has it: when the loader runs (its cache holds no
    frame from an earlier run) and the source is missing or unreadable,
    the run ends with an exception, exactly one error element is on the
    page (the "not found" message for a missing file, the exception
    itself otherwise), nothing after the loader is executed, and no
    frame is created or cached. *)
Theorem load_missing_source_halts (i : Inputs) (s : State) (e : exn) :
  csv i = Raise e ->
  e <> StopException ->
  cache s = None ->
  let run := streamlit_run app i s in
  fst run = Raise (handled e) /\
  heap (snd run) = heap s /\
  cache (snd run) = None /\
  screen (snd run)
  = [if exn_eqb FileNotFoundError e then ErrorBox not_found_message else ExceptionBox e] /\
  forallb is_error_element (screen (snd run)) = true.
Proof.
  intros Hcsv Hstop Hcache run. subst run.
  unfold streamlit_run, app, bind, load_and_process_data, cache_data.
  cbn [cache heap screen]. rewrite Hcache, load_body_run, Hcsv.
  destruct e; try congruence; cbn; rewrite ?Hcache; repeat split; reflexivity.
Qed.

Lemma load_missing_source_halts_witness :
  fst (streamlit_run app (pick (Raise FileNotFoundError) All All) just_started)
  = Raise StopException /\
  screen (snd (streamlit_run app (pick (Raise FileNotFoundError) All All) just_started))
  = [ErrorBox not_found_message].
Proof.
  assert (Hne : FileNotFoundError <> StopException) by discriminate.
  destruct (load_missing_source_halts
              (pick (Raise FileNotFoundError) All All) just_started
              FileNotFoundError eq_refl Hne eq_refl) as (H1 & _ & _ & H2 & _).
  split; [exact H1|exact H2].
Defined.

(** Against C6 as stated: the file is gone, but the cache holds a frame
    from an earlier run; the loader returns it, the sidebar runs to its
    record count, and no error is shown. *)
Lemma load_missing_source_served_from_cache :
  csv (pick (Raise FileNotFoundError) All All) = Raise FileNotFoundError /\
  outcome (load_and_process_data (pick (Raise FileNotFoundError) All All) warmed_up)
  = Ok sample_jobs /\
  is_ok (fst (streamlit_run app (pick (Raise FileNotFoundError) All All) warmed_up)) = true /\
  screen (snd (streamlit_run app (pick (Raise FileNotFoundError) All All) warmed_up))
  = [SidebarTitle controls_title;
     SidebarMarkdown rule;
     SidebarSelectBox sector_label [All; CStr "Finance"; CStr "Health"; CStr "Tech"];
     SidebarSelectBox category_label
                      [All; CStr "Clinical"; CStr "Design"; CStr "Engineering"];
     SidebarMarkdown rule;
     SidebarInfo 5 5] /\
  existsb is_error_element
          (screen (snd (streamlit_run app (pick (Raise FileNotFoundError) All All)
                                      warmed_up)))
  = false.
Proof. repeat split. Qed.

(* ================================================================== *)
(** * Further properties of the loader *)

Lemma mapM_length {A B} (f : A -> result B) l l' :
  mapM f l = Ok l' -> List.length l' = List.length l.
Proof.
  revert l'. induction l as [|x l IH]; simpl; intros l' H.
  - now injection H as <-.
  - destruct (f x); simpl in H; try discriminate.
    destruct (mapM f l) as [bs|]; simpl in H; try discriminate.
    injection H as <-. simpl. now rewrite (IH bs).
Qed.

Lemma zipM_length f a b p :
  zipM f a b = Ok p -> List.length p = Nat.min (List.length a) (List.length b).
Proof.
  revert b p. induction a as [|x a IH]; intros [|y b] p H; simpl in *;
    try (injection H as <-; reflexivity).
  destruct (f x y); simpl in H; try discriminate.
  destruct (zipM f a b) as [zs|] eqn:E; simpl in H; try discriminate.
  injection H as <-. simpl. now rewrite (IH b zs).
Qed.

Lemma well_formed_setitem d c s :
  well_formed d -> List.length s = len d -> well_formed (setitem d c s).
Proof.
  unfold well_formed, setitem, len. simpl. intros W L.
  induction W as [|[k t] l Hk W' IH]; simpl.
  - repeat constructor. exact L.
  - destruct (String.eqb c k); constructor; simpl; auto.
Qed.

Lemma length_series_mul_int a n : List.length (series_mul_int a n) = List.length a.
Proof. apply length_map. Qed.

Lemma add_acceleration_index_well_formed d d1 :
  well_formed d -> add_acceleration_index d = Ok d1 -> well_formed d1.
Proof.
  intros W. unfold add_acceleration_index, getitem.
  destruct (has_col AI_Adoption_Rate d && has_col Skill_Depreciation_Rate d);
    [|now intros [= <-]].
  destruct (lookup AI_Adoption_Rate (data d)) as [a|] eqn:A; simpl; try discriminate.
  destruct (lookup Skill_Depreciation_Rate (data d)) as [b|] eqn:B; simpl; try discriminate.
  destruct (series_mul a b) as [p|] eqn:P; simpl; try discriminate.
  intros [= <-]. apply well_formed_setitem; auto.
  apply zipM_length in P.
  rewrite (well_formed_lookup _ _ _ W A), (well_formed_lookup _ _ _ W B) in P. lia.
Qed.

Lemma add_urgency_category_well_formed d d1 :
  well_formed d -> add_urgency_category d = Ok d1 -> well_formed d1.
Proof.
  intros W. unfold add_urgency_category, getitem.
  destruct (has_col Years d); [|now intros [= <-]].
  destruct (lookup Years (data d)) as [y|] eqn:Y; simpl; try discriminate.
  destruct (pd_cut y urgency_bins urgency_labels) as [u|] eqn:U; simpl; try discriminate.
  intros [= <-]. apply well_formed_setitem; auto.
  apply mapM_length in U. now rewrite U, (well_formed_lookup _ _ _ W Y).
Qed.

Lemma add_viability_ratio_well_formed d d1 :
  well_formed d -> add_viability_ratio d = Ok d1 -> well_formed d1.
Proof.
  intros W. unfold add_viability_ratio, getitem.
  destruct (has_col Months d && has_col Years d); [|now intros [= <-]].
  destruct (lookup Years (data d)) as [y|] eqn:Y; simpl; try discriminate.
  destruct (lookup Months (data d)) as [m|] eqn:M; simpl; try discriminate.
  destruct (series_div (series_mul_int y 12) m) as [r|] eqn:R; simpl; try discriminate.
  intros [= <-]. apply well_formed_setitem; auto.
  apply zipM_length in R. rewrite length_series_mul_int in R.
  rewrite (well_formed_lookup _ _ _ W Y), (well_formed_lookup _ _ _ W M) in R. lia.
Qed.

(** X1: the loader's frame has the rows of the file in their order, every
    column of the file is still there, and every column that is not one
    of the three derived names holds the values as read. *)
Theorem loader_keeps_raw_data (d d' : DataFrame) :
  feature_engineering d = Ok d' ->
  index d' = index d /\
  (forall c, has_col c d = true -> has_col c d' = true) /\
  (forall c, derived c = false -> lookup c (data d') = lookup c (data d)).
Proof.
  intros H. apply feature_engineering_spec in H as (I & O & A & U & R).
  split; [exact I|]. split; [|exact O].
  intros c Hc. rewrite has_col_lookup in *.
  destruct (derived c) eqn:D.
  - unfold derived in D.
    destruct (String.eqb Acceleration_Index c) eqn:E1.
    { apply String.eqb_eq in E1. subst c.
      destruct (lookup AI_Adoption_Rate (data d)), (lookup Skill_Depreciation_Rate (data d));
        try (rewrite A; exact Hc).
      destruct A as (p & _ & ->). reflexivity. }
    destruct (String.eqb Urgency_Category c) eqn:E2.
    { apply String.eqb_eq in E2. subst c.
      destruct (lookup Years (data d)); try (rewrite U; exact Hc).
      destruct U as (u & _ & ->). reflexivity. }
    cbn [orb] in D. apply String.eqb_eq in D. subst c.
    destruct (lookup Years (data d)), (lookup Months (data d));
      try (rewrite R; exact Hc).
    destruct R as (r & _ & ->). reflexivity.
  - now rewrite (O c D).
Qed.

Lemma loader_keeps_raw_data_witness :
  exists d', feature_engineering sample_skills = Ok d' /\
             index d' = [0; 1; 2; 3] /\
             lookup Sector (data d') = lookup Sector (data sample_skills).
Proof.
  destruct (feature_engineering sample_skills) as [d'|] eqn:E; [|discriminate E].
  destruct (loader_keeps_raw_data sample_skills d' E) as (I & _ & O).
  exists d'. split; [reflexivity|]. split; [exact I|exact (O Sector eq_refl)].
Defined.

(** X2: after loading, a derived column is there exactly when the columns
    it is computed from are in the file, or the file already had a column
    of that name. *)
Theorem derived_columns_present (d d' : DataFrame) :
  feature_engineering d = Ok d' ->
  has_col Acceleration_Index d'
    = (has_col AI_Adoption_Rate d && has_col Skill_Depreciation_Rate d)
      || has_col Acceleration_Index d /\
  has_col Urgency_Category d' = has_col Years d || has_col Urgency_Category d /\
  has_col Reskilling_Viability_Ratio d'
    = (has_col Months d && has_col Years d) || has_col Reskilling_Viability_Ratio d.
Proof.
  intros H. apply feature_engineering_spec in H as (_ & _ & A & U & R).
  rewrite !has_col_lookup.
  destruct (lookup AI_Adoption_Rate (data d)), (lookup Skill_Depreciation_Rate (data d)),
    (lookup Years (data d)), (lookup Months (data d));
    repeat match goal with
           | H : exists _, _ |- _ => destruct H as (? & _ & ->)
           | H : lookup _ (data d') = lookup _ (data d) |- _ => rewrite H; clear H
           end; simpl; auto.
Qed.

Lemma derived_columns_present_witness :
  exists d', feature_engineering sample_years = Ok d' /\
             has_col Urgency_Category d' = true /\
             has_col Acceleration_Index d' = false /\
             has_col Reskilling_Viability_Ratio d' = false.
Proof.
  destruct (feature_engineering sample_years) as [d'|] eqn:E; [|discriminate E].
  destruct (derived_columns_present sample_years d' E) as (A & U & R).
  exists d'. split; [reflexivity|]. split; [exact U|]. split; [exact A|exact R].
Defined.

(** X3: the loader keeps the frame rectangular: if every column of the
    file is as long as the index, so is every column of the loaded
    frame, the derived ones included. *)
Theorem loader_keeps_frame_rectangular (d d' : DataFrame) :
  well_formed d -> feature_engineering d = Ok d' -> well_formed d'.
Proof.
  intros W. unfold feature_engineering.
  destruct (add_acceleration_index d) as [d1|] eqn:E1; simpl; try discriminate.
  destruct (add_urgency_category d1) as [d2|] eqn:E2; simpl; try discriminate.
  destruct (add_viability_ratio d2) as [d3|] eqn:E3; simpl; try discriminate.
  intros [= <-].
  eauto using add_acceleration_index_well_formed, add_urgency_category_well_formed,
    add_viability_ratio_well_formed.
Qed.

Lemma loader_keeps_frame_rectangular_witness :
  exists d', feature_engineering sample_skills = Ok d' /\ well_formed d'.
Proof.
  destruct (feature_engineering sample_skills) as [d'|] eqn:E; [|discriminate E].
  exists d'. split; [reflexivity|].
  apply (loader_keeps_frame_rectangular sample_skills d'); [|exact E].
  repeat constructor.
Defined.

(** ** When the loader raises *)

Lemma mapM_ok_forallb {A B} (f : A -> result B) l :
  is_ok (mapM f l) = forallb (fun a => is_ok (f a)) l.
Proof.
  induction l as [|x l IH]; simpl; auto.
  destruct (f x); simpl; auto.
  rewrite <- IH. destruct (mapM f l); reflexivity.
Qed.

Lemma zipM_raises f a b e :
  (forall x y e', f x y = Raise e' -> e' = TypeError) ->
  zipM f a b = Raise e -> e = TypeError.
Proof.
  intros Hf. revert b. induction a as [|x a IH]; intros [|y b] H; try discriminate.
  simpl in H. destruct (f x y) eqn:F; simpl in H.
  - destruct (zipM f a b) eqn:Z; simpl in H; try discriminate.
    injection H as <-. eauto.
  - injection H as <-. eauto.
Qed.

Lemma mapM_raises {A B} (f : A -> result B) l e :
  (forall x e', f x = Raise e' -> e' = TypeError) ->
  mapM f l = Raise e -> e = TypeError.
Proof.
  intros Hf. induction l as [|x l IH]; simpl; intros H; try discriminate.
  destruct (f x) eqn:F; simpl in H.
  - destruct (mapM f l); simpl in H; try discriminate. injection H as <-. auto.
  - injection H as <-. eauto.
Qed.

(** [pd.cut] bins numbers and nothing else. *)
Lemma cut_cell_ok bins labels c : is_ok (cut_cell bins labels c) = is_num c.
Proof.
  destruct c; unfold cut_cell; cbn [to_float is_num]; auto;
    (destruct (_ || _); [reflexivity|]; destruct (nth_error _ _); reflexivity).
Qed.

Lemma pd_cut_ok y bins labels : is_ok (pd_cut y bins labels) = forallb is_num y.
Proof.
  unfold pd_cut, Series. rewrite mapM_ok_forallb.
  induction y as [|c y IH]; simpl; auto. now rewrite cut_cell_ok, IH.
Qed.

(** In the model the derivation raises nothing but [TypeError]. *)
Lemma feature_engineering_raises d e :
  feature_engineering d = Raise e -> e = TypeError.
Proof.
  assert (Hm : forall x y e', cell_mul x y = Raise e' -> e' = TypeError).
  { intros [x|m|s] [y|n|t] e'; simpl; try congruence;
      match goal with |- context [is_nan ?z] => destruct (is_nan z) end; congruence. }
  assert (Hd : forall x y e', cell_div x y = Raise e' -> e' = TypeError).
  { intros x y e'. unfold cell_div.
    destruct (to_float x), (to_float y); try congruence;
      destruct (isna x || isna y); congruence. }
  assert (Hc : forall x e', cut_cell urgency_bins urgency_labels x = Raise e' -> e' = TypeError).
  { intros x e'. unfold cut_cell. destruct (to_float x); try congruence.
    destruct (_ || _); try discriminate. destruct (nth_error _ _); discriminate. }
  unfold feature_engineering.
  destruct (add_acceleration_index d) as [d1|e1] eqn:E1; simpl.
  2:{ intros [= <-]. unfold add_acceleration_index, getitem in E1.
      rewrite !has_col_lookup in E1.
      destruct (lookup AI_Adoption_Rate (data d)) as [a|]; simpl in E1; try discriminate.
      destruct (lookup Skill_Depreciation_Rate (data d)) as [b|]; simpl in E1; try discriminate.
      destruct (series_mul a b) eqn:P; simpl in E1; try discriminate.
      injection E1 as <-. exact (zipM_raises cell_mul a b _ Hm P). }
  destruct (add_urgency_category d1) as [d2|e2] eqn:E2; simpl.
  2:{ intros [= <-]. unfold add_urgency_category, getitem in E2.
      rewrite !has_col_lookup in E2.
      destruct (lookup Years (data d1)) as [y|]; simpl in E2; try discriminate.
      destruct (pd_cut y urgency_bins urgency_labels) eqn:P; simpl in E2; try discriminate.
      injection E2 as <-. exact (mapM_raises _ y _ Hc P). }
  destruct (add_viability_ratio d2) as [d3|e3] eqn:E3; simpl; try discriminate.
  intros [= <-]. unfold add_viability_ratio, getitem in E3.
  rewrite !has_col_lookup in E3.
  destruct (lookup Months (data d2)) as [m|]; simpl in E3; try discriminate.
  destruct (lookup Years (data d2)) as [y|]; simpl in E3; try discriminate.
  destruct (series_div (series_mul_int y 12) m) eqn:P; simpl in E3; try discriminate.
  injection E3 as <-. exact (zipM_raises cell_div _ m _ Hd P).
Qed.

(** A text value among the half-lives stops the derivation. *)
Lemma feature_engineering_text_years d :
  has_text d Years = true -> feature_engineering d = Raise TypeError.
Proof.
  unfold has_text. intros T.
  destruct (lookup Years (data d)) as [y|] eqn:Y; [|discriminate].
  destruct (feature_engineering d) as [d'|e] eqn:E.
  - exfalso. apply feature_engineering_spec in E as (_ & _ & _ & U & _).
    rewrite Y in U. destruct U as (u & Hu & _).
    pose proof (pd_cut_ok y urgency_bins urgency_labels) as K.
    rewrite Hu, forallb_is_num, T in K. discriminate.
  - now rewrite (feature_engineering_raises d e E).
Qed.

(** A present half-life cannot be divided by a text. *)
Lemma viability_text_months y m :
  numeric y = true -> isna y = false -> is_str m = true ->
  viability y m = Raise TypeError.
Proof.
  destruct m as [x|z|s]; try discriminate. intros Ny Hy _.
  unfold viability, cell_div.
  destruct y as [x|z|t]; try discriminate Ny; cbn [cell_mul_int to_float isna] in *.
  - rewrite mul_is_nan, Hy.
    change (is_nan (of_Z (Z.of_nat 12))) with false.
    change (is_zero (of_Z (Z.of_nat 12))) with false.
    change (is_inf (of_Z (Z.of_nat 12))) with false.
    now rewrite !andb_false_r.
  - reflexivity.
Qed.

(** X4: the loader derives its columns whenever the columns it computes
    with hold numbers only.  With numeric rates (so that line 104 has
    been passed), a text value in the half-life column makes it raise
    [TypeError], [pd.cut] being unable to place a string among the bin
    edges, and so does, next to numeric half-lives, a text value for the
    reskilling time in a row whose half-life is present.  Whatever the
    frame holds, it raises no [KeyError] and nothing the
    [except FileNotFoundError] clause would catch, every column being
    looked up only after the test that it exists. *)
Theorem loader_raises_only_on_text (d : DataFrame) :
  (numeric_inputs d = true -> exists d', feature_engineering d = Ok d') /\
  (numeric_column d AI_Adoption_Rate = true ->
   numeric_column d Skill_Depreciation_Rate = true ->
   has_text d Years = true ->
   feature_engineering d = Raise TypeError) /\
  (numeric_column d AI_Adoption_Rate = true ->
   numeric_column d Skill_Depreciation_Rate = true ->
   numeric_column d Years = true ->
   forall i y m,
     cell_at d Years i = Some y ->
     cell_at d Months i = Some m ->
     isna y = false ->
     is_str m = true ->
     feature_engineering d = Raise TypeError) /\
  feature_engineering d <> Raise KeyError /\
  feature_engineering d <> Raise FileNotFoundError.
Proof.
  split; [|split; [|split; [|split]]].
  - intros Hn. apply numeric_inputs_columns in Hn as (Ha & Hb & Hy & Hm).
    unfold numeric_column in *.
    assert (E1 : exists d1, add_acceleration_index d = Ok d1).
    { unfold add_acceleration_index, getitem. rewrite !has_col_lookup.
      destruct (lookup AI_Adoption_Rate (data d)) as [a|]; simpl; eauto.
      destruct (lookup Skill_Depreciation_Rate (data d)) as [b|]; simpl; eauto.
      destruct (series_mul_total a b Ha Hb) as [p ->]. simpl. eauto. }
    destruct E1 as [d1 E1].
    pose proof (add_acceleration_index_spec _ _ E1) as (_ & O1 & _).
    assert (E2 : exists d2, add_urgency_category d1 = Ok d2).
    { unfold add_urgency_category, getitem. rewrite !has_col_lookup.
      rewrite (O1 Years) by reflexivity.
      destruct (lookup Years (data d)) as [y|]; simpl; eauto.
      destruct (pd_cut_total y urgency_bins urgency_labels Hy) as [u ->]. simpl. eauto. }
    destruct E2 as [d2 E2].
    pose proof (add_urgency_category_spec _ _ E2) as (_ & O2 & _).
    assert (E3 : exists d3, add_viability_ratio d2 = Ok d3).
    { unfold add_viability_ratio, getitem. rewrite !has_col_lookup.
      rewrite (O2 Years), (O1 Years), (O2 Months), (O1 Months) by reflexivity.
      destruct (lookup Months (data d)) as [m|]; simpl; eauto.
      destruct (lookup Years (data d)) as [y|]; simpl; eauto.
      destruct (series_div_scaled_total y m Hy Hm) as [r ->]. simpl. eauto. }
    destruct E3 as [d3 E3].
    exists d3. unfold feature_engineering. rewrite E1. simpl. rewrite E2. simpl.
    rewrite E3. reflexivity.
  - intros _ _ T. now apply feature_engineering_text_years.
  - intros _ _ Ny i y m Hy Hm Py Tm.
    destruct (feature_engineering d) as [d'|e] eqn:E.
    + exfalso. destruct (viability_row _ _ _ _ _ E Hy Hm) as (r & Hr & _).
      rewrite (viability_text_months y m (numeric_cell_at _ _ _ _ Ny Hy) Py Tm) in Hr.
      discriminate.
    + now rewrite (feature_engineering_raises d e E).
  - intros E. apply feature_engineering_raises in E. discriminate.
  - intros E. apply feature_engineering_raises in E. discriminate.
Qed.

Lemma loader_raises_only_on_text_witness :
  feature_engineering sample_typo = Raise TypeError /\
  feature_engineering sample_months_text = Raise TypeError.
Proof.
  split.
  - exact (proj1 (proj2 (loader_raises_only_on_text sample_typo))
             eq_refl eq_refl eq_refl).
  - exact (proj1 (proj2 (proj2 (loader_raises_only_on_text sample_months_text)))
             eq_refl eq_refl eq_refl 0 _ _ eq_refl eq_refl eq_refl eq_refl).
Defined.

(** ** The loader inside a run *)

(** X5: a text value in the half-life column (next to numeric rates, so
    that line 104 has been passed) is not handled by the
    [except FileNotFoundError] clause: on a cache miss the run ends with
    [TypeError], of lines 93-153 only the exception is rendered (the
    sidebar is not reached), and nothing is cached. *)
Theorem load_type_error_is_shown (i : Inputs) (s : State) (d : DataFrame) :
  csv i = Ok d ->
  numeric_column d AI_Adoption_Rate = true ->
  numeric_column d Skill_Depreciation_Rate = true ->
  has_text d Years = true ->
  cache s = None ->
  let run := streamlit_run app i s in
  fst run = Raise TypeError /\
  cache (snd run) = None /\
  screen (snd run) = [ExceptionBox TypeError].
Proof.
  intros Hcsv _ _ T Hcache run. subst run.
  assert (E : feature_engineering d = Raise TypeError).
  { unfold has_text in T.
    destruct (lookup Years (data d)) as [y|] eqn:Y; [|discriminate].
    destruct (feature_engineering d) as [d'|e] eqn:F.
    - exfalso. apply feature_engineering_spec in F as (_ & _ & _ & U & _).
      rewrite Y in U. destruct U as (u & Hu & _).
      pose proof (pd_cut_ok y urgency_bins urgency_labels) as K.
      rewrite Hu, forallb_is_num, T in K. discriminate.
    - now rewrite (feature_engineering_raises d e F). }
  unfold streamlit_run, app, bind, load_and_process_data, cache_data.
  cbn [cache heap screen]. rewrite Hcache, load_body_run, Hcsv, E.
  cbn. rewrite ?Hcache. repeat split.
Qed.

Lemma load_type_error_is_shown_witness :
  fst (streamlit_run app (pick (Ok sample_typo) All All) just_started) = Raise TypeError.
Proof.
  exact (proj1 (load_type_error_is_shown (pick (Ok sample_typo) All All) just_started
                                         sample_typo eq_refl eq_refl eq_refl eq_refl
                                         eq_refl)).
Defined.

Lemma load_and_process_data_miss i s :
  cache s = None ->
  outcome (load_and_process_data i s) = loaded_frame i /\
  cache (snd (load_and_process_data i s))
  = match loaded_frame i with Ok d => Some d | Raise _ => None end.
Proof.
  intros C. unfold load_and_process_data, cache_data. rewrite C.
  pose proof (load_body_outcome i s) as O.
  pose proof (load_body_cache i s) as K.
  destruct (load_body i s) as [[r|e] s1]; unfold outcome, rmap in *; simpl in *.
  - rewrite <- O. auto.
  - rewrite <- O. split; congruence.
Qed.

Lemma load_and_process_data_hit i s d :
  cache s = Some d ->
  outcome (load_and_process_data i s) = Ok d /\
  cache (snd (load_and_process_data i s)) = Some d.
Proof.
  intros C. unfold load_and_process_data, cache_data, alloc, outcome, rmap.
  rewrite C. simpl. now rewrite nth_app_new.
Qed.

Lemma app_cache i s : cache (snd (streamlit_run app i s))
                      = cache (snd (load_and_process_data i (mkState (heap s) (cache s) []))).
Proof.
  unfold streamlit_run, app, bind.
  set (s0 := mkState (heap s) (cache s) []).
  pose proof (load_and_process_data_hit i s0) as Hhit.
  pose proof (load_and_process_data_miss i s0) as Hmiss.
  destruct (load_and_process_data i s0) as [[df|e] s1] eqn:L; simpl.
  - assert (Hdf : df < List.length (heap s1)).
    { unfold load_and_process_data, cache_data in L.
      destruct (cache s0) as [d0|].
      - unfold alloc in L. injection L as <- <-. simpl. rewrite length_app. simpl. lia.
      - rewrite load_body_run in L.
        destruct (csv i) as [d|e].
        + destruct (feature_engineering d); [|destruct e; discriminate].
          injection L as <- <-. simpl. rewrite length_app. simpl. lia.
        + destruct e; discriminate. }
    pose proof (sidebar_extends df i s1 Hdf) as [_ Hc].
    destruct (sidebar df i s1) as [[r|e] s2]; simpl in *; [exact Hc|].
    destruct e; exact Hc.
  - destruct e; reflexivity.
Qed.

(** X6: a failed load is not cached: after a run that could not load the
    source, the next run reads the source again, and loads it if it has
    become readable. *)
Theorem failed_load_is_retried (i1 i2 : Inputs) (s : State) (d2 d2' : DataFrame) :
  cache s = None ->
  is_ok (outcome (load_and_process_data i1 s)) = false ->
  csv i2 = Ok d2 ->
  feature_engineering d2 = Ok d2' ->
  let after := snd (streamlit_run app i1 s) in
  cache after = None /\
  outcome (load_and_process_data i2 after) = Ok d2'.
Proof.
  intros C F Hcsv Hfe after.
  rewrite (proj1 (load_and_process_data_miss i1 s C)) in F.
  assert (Ca : cache after = None).
  { unfold after. rewrite app_cache.
    destruct (load_and_process_data_miss i1 (mkState (heap s) (cache s) []) C) as [_ ->].
    destruct (loaded_frame i1); [discriminate|reflexivity]. }
  split; [exact Ca|].
  destruct (load_and_process_data_miss i2 after Ca) as [-> _].
  unfold loaded_frame. now rewrite Hcsv, Hfe.
Qed.

Lemma failed_load_is_retried_witness :
  outcome (load_and_process_data
             (pick (Ok sample_jobs) All All)
             (snd (streamlit_run app (pick (Raise FileNotFoundError) All All) just_started)))
  = Ok sample_jobs.
Proof.
  exact (proj2 (failed_load_is_retried
                  (pick (Raise FileNotFoundError) All All) (pick (Ok sample_jobs) All All)
                  just_started sample_jobs sample_jobs eq_refl eq_refl eq_refl eq_refl)).
Defined.

(** X7: once a load has succeeded, every later run gets the same frame
    from the cache, whatever the source has become in the meantime
    (changed, unreadable or missing). *)
Theorem loaded_frame_is_reused (i1 i2 : Inputs) (s : State) (d : DataFrame) :
  outcome (load_and_process_data i1 s) = Ok d ->
  let after := snd (streamlit_run app i1 s) in
  cache after = Some d /\
  outcome (load_and_process_data i2 after) = Ok d.
Proof.
  intros O after.
  assert (Ca : cache after = Some d).
  { unfold after. rewrite app_cache.
    destruct (cache s) as [d0|] eqn:C.
    - destruct (load_and_process_data_hit i1 s d0 C) as [O1 _].
      rewrite O1 in O. injection O as <-.
      now destruct (load_and_process_data_hit i1 (mkState (heap s) (cache s) []) d0 C).
    - destruct (load_and_process_data_miss i1 s C) as [O1 _].
      destruct (load_and_process_data_miss i1 (mkState (heap s) None []) eq_refl) as [_ ->].
      rewrite O1 in O. now rewrite O. }
  split; [exact Ca|].
  now destruct (load_and_process_data_hit i2 after d Ca).
Qed.

Lemma loaded_frame_is_reused_witness :
  outcome (load_and_process_data
             (pick (Raise FileNotFoundError) All All)
             (snd (streamlit_run app (pick (Ok sample_jobs) All All) just_started)))
  = Ok sample_jobs.
Proof.
  exact (proj2 (loaded_frame_is_reused
                  (pick (Ok sample_jobs) All All) (pick (Raise FileNotFoundError) All All)
                  just_started sample_jobs eq_refl)).
Defined.

(* ================================================================== *)
(** * Further properties of the sidebar *)

(** X8: when the sidebar returns, [df_filtered] holds exactly the rows of
    [df] that satisfy every active selection (a selection on "All" or on
    a column the frame lacks counts as satisfied), in the order of [df],
    with every column cut to those rows; below its controls (the title,
    a separator, the select boxes and a separator) the sidebar reports
    the number of these rows and the number of rows of [df]. *)
Theorem sidebar_keeps_matching_rows (df r : ref) (i : Inputs) (s s' : State) :
  df < List.length (heap s) ->
  well_formed (nth df (heap s) empty_frame) ->
  sidebar df i s = (Ok r, s') ->
  let d := nth df (heap s) empty_frame in
  let out := nth r (heap s') empty_frame in
  let m := keep_mask d (selections d i) in
  out = bool_index d m /\
  index out = select m (index d) /\
  columns out = columns d /\
  (forall c col, lookup c (data d) = Some col ->
                 lookup c (data out) = Some (select m col)) /\
  (forall k, k < len d -> nth_error m k = Some (row_matches d (selections d i) k)) /\
  len out = count_occ bool_dec m true /\
  map outline (screen s')
  = (map outline (screen s) ++ map outline (controls d)
       ++ [SidebarInfo (len out) (len d)])%list.
Proof.
  intros Hdf W Hrun d out m.
  pose proof (sidebar_run df i s Hdf) as H. fold d in H.
  destruct (filtered_view d i) as [f|e] eqn:V.
  2:{ destruct H as (s0 & H & _). congruence. }
  destruct H as (r0 & s0 & H & Hf & _ & _ & Hs).
  rewrite Hrun in H. injection H as <- <-.
  apply (filtered_view_mask _ _ _ W) in V. fold m in V.
  assert (Hout : out = bool_index d m).
  { unfold out. rewrite Hf. exact V. }
  split; [exact Hout|]. rewrite Hout.
  split; [reflexivity|]. split; [apply columns_bool_index|].
  split; [|split; [|split]].
  - intros c col E. now rewrite lookup_bool_index, E.
  - intros k Hk. unfold m, keep_mask.
    rewrite nth_error_map, nth_error_seq.
    apply Nat.ltb_lt in Hk. rewrite Hk. reflexivity.
  - unfold len at 1. simpl. apply length_select.
    unfold m, keep_mask. now rewrite length_map, length_seq.
  - rewrite Hs, V, !map_app. reflexivity.
Qed.

Lemma sidebar_keeps_matching_rows_witness :
  index (nth 2 (heap (snd (sidebar 0 (pick (Ok sample_jobs) (CStr "Tech") (CStr "Engineering"))
                                   (holding sample_jobs))))
             empty_frame)
  = [0; 4].
Proof.
  assert (W : well_formed sample_jobs) by (repeat constructor).
  destruct (sidebar_keeps_matching_rows
              0 2 (pick (Ok sample_jobs) (CStr "Tech") (CStr "Engineering"))
              (holding sample_jobs)
              (snd (sidebar 0 (pick (Ok sample_jobs) (CStr "Tech") (CStr "Engineering"))
                            (holding sample_jobs)))
              (Nat.lt_0_succ 0) W eq_refl) as (_ & H & _).
  exact H.
Defined.

(** X9: the sidebar returns exactly when each filter column can be
    sorted; when one cannot (a label next to an empty field), it raises
    [TypeError] before the record count is shown: the sidebar then holds
    its title and the separator, and the sector box if it is the
    category column that cannot be sorted. *)
Theorem sidebar_fails_only_on_unsortable (df : ref) (i : Inputs) (s : State) :
  df < List.length (heap s) ->
  let d := nth df (heap s) empty_frame in
  (sortable_column d (sector_col d) && sortable_column d Skill_Category = true ->
   exists r s', sidebar df i s = (Ok r, s')) /\
  (sortable_column d (sector_col d) && sortable_column d Skill_Category = false ->
   exists s',
     sidebar df i s = (Raise TypeError, s') /\
     map outline (screen s')
     = (map outline (screen s) ++ [SidebarTitle controls_title; SidebarMarkdown rule]
          ++ if sortable_column d (sector_col d)
             then map outline (sector_box d) else [])%list /\
     forall n t, In (SidebarInfo n t) (screen s') -> In (SidebarInfo n t) (screen s)).
Proof.
  intros Hdf d. pose proof (sidebar_run df i s Hdf) as H. fold d in H.
  pose proof (filtered_view_ok d i) as K.
  destruct (filtered_view d i) as [f|e] eqn:V; simpl in K; split; intros S;
    try congruence.
  - destruct H as (r & s' & H & _). eauto.
  - destruct H as (s' & H & _ & Hs). exists s'.
    rewrite <- (filtered_view_raises d i e V). split; [exact H|].
    assert (Hscr : screen s' = (screen s ++ [SidebarTitle controls_title; SidebarMarkdown rule]
                      ++ if sortable_column d (sector_col d) then sector_box d else [])%list).
    { rewrite Hs, (sector_view_ok d (selected_sector i)).
      destruct (sortable_column d (sector_col d)) eqn:S1; [|reflexivity].
      simpl in S. unfold category_box, option_box, select_options.
      unfold sortable_column in S.
      destruct (lookup Skill_Category (data d)) as [col|]; [|discriminate].
      rewrite <- sortable_unique, <- py_sorted_ok in S.
      destruct (py_sorted (unique col)); [discriminate|].
      now rewrite app_nil_r. }
    split.
    { rewrite Hscr, !map_app.
      now destruct (sortable_column d (sector_col d)). }
    intros n t. rewrite Hscr. intros Hin.
    apply in_app_or in Hin as [Hin|Hin]; [exact Hin|].
    exfalso. simpl in Hin. destruct Hin as [Hin|[Hin|Hin]]; try discriminate.
    destruct (sortable_column d (sector_col d)); [|contradiction].
    unfold sector_box, option_box in Hin.
    destruct (lookup (sector_col d) (data d)) as [c0|]; [|contradiction].
    destruct (select_options c0); [|contradiction].
    destruct Hin as [Hin|[]]. discriminate.
Qed.

Lemma sidebar_fails_only_on_unsortable_witness :
  exists s', sidebar 0 (pick (Ok sample_gap) (CStr "Tech") All) (holding sample_gap)
             = (Raise TypeError, s') /\
             map outline (screen s')
             = [SidebarTitle controls_title; SidebarMarkdown rule].
Proof.
  destruct (proj2 (sidebar_fails_only_on_unsortable
                     0 (pick (Ok sample_gap) (CStr "Tech") All) (holding sample_gap)
                     (Nat.lt_0_succ 0))
                  eq_refl) as (s' & H & Hs & _).
  exists s'. split; [exact H|exact Hs].
Defined.

Lemma filtered_view_all d i f :
  selected_sector i = All -> selected_category i = All ->
  filtered_view d i = Ok f -> f = d.
Proof.
  unfold filtered_view, sector_view, category_view. intros -> ->.
  change (cell_ne All All) with false.
  destruct (has_col Sector d || has_col Industry d).
  - destruct (getitem d (sector_col d)) as [c|]; simpl; try discriminate.
    destruct (py_sorted (unique c)); simpl; try discriminate.
    destruct (has_col Skill_Category d); [|congruence].
    destruct (getitem d Skill_Category) as [c'|]; simpl; try discriminate.
    destruct (py_sorted (unique c')); simpl; try discriminate. congruence.
  - simpl. destruct (has_col Skill_Category d); [|congruence].
    destruct (getitem d Skill_Category) as [c'|]; simpl; try discriminate.
    destruct (py_sorted (unique c')); simpl; try discriminate. congruence.
Qed.

(** X10: with both select boxes on "All", [df_filtered] is a copy of
    [df]: a different object holding the same frame, and below its
    controls the sidebar reports all records. *)
Theorem sidebar_without_selection_copies (df r : ref) (i : Inputs) (s s' : State) :
  df < List.length (heap s) ->
  selected_sector i = All ->
  selected_category i = All ->
  sidebar df i s = (Ok r, s') ->
  let d := nth df (heap s) empty_frame in
  nth r (heap s') empty_frame = d /\
  r <> df /\
  map outline (screen s')
  = (map outline (screen s) ++ map outline (controls d)
       ++ [SidebarInfo (len d) (len d)])%list.
Proof.
  intros Hdf Hs Hc Hrun d.
  pose proof (sidebar_run df i s Hdf) as H. fold d in H.
  destruct (filtered_view d i) as [f|e] eqn:V.
  2:{ destruct H as (s0 & H & _). congruence. }
  destruct H as (r0 & s0 & H & Hf & Hle & _ & Hscr).
  rewrite Hrun in H. injection H as <- <-.
  apply (filtered_view_all d i f Hs Hc) in V. subst f.
  split; [exact Hf|]. split; [lia|]. now rewrite Hscr, !map_app.
Qed.

Lemma sidebar_without_selection_copies_witness :
  nth 1 (heap (snd (sidebar 0 (pick (Ok sample_jobs) All All) (holding sample_jobs))))
      empty_frame
  = sample_jobs.
Proof.
  exact (proj1 (sidebar_without_selection_copies
                  0 1 (pick (Ok sample_jobs) All All) (holding sample_jobs)
                  (snd (sidebar 0 (pick (Ok sample_jobs) All All) (holding sample_jobs)))
                  (Nat.lt_0_succ 0) eq_refl eq_refl eq_refl)).
Defined.

Lemma category_view_shape d f sel f' :
  category_view d f sel = Ok f' -> f' = f \/ exists m, f' = bool_index f m.
Proof.
  unfold category_view.
  destruct (has_col Skill_Category d); [|intros [= <-]; auto].
  destruct (getitem d Skill_Category) as [col|]; simpl; try discriminate.
  destruct (py_sorted (unique col)); simpl; try discriminate.
  destruct (cell_ne sel All); [|intros [= <-]; auto].
  destruct (getitem f Skill_Category) as [colf|]; simpl; try discriminate.
  intros [= <-]. eauto.
Qed.

Lemma len_bool_index d m : len (bool_index d m) <= len d.
Proof. unfold len. simpl. apply length_select_le. Qed.

(** A sublist in the order of the list. *)
Lemma select_sublist {A} m (l : list A) x : In x (select m l) -> In x l.
Proof.
  revert l. induction m as [|b m IH]; intros [|y l]; simpl; try tauto.
  destruct b; simpl; intros H; [destruct H|]; auto.
Qed.

(** X11: filtering never adds anything: [df_filtered] has the columns of
    [df], in the same order, no more rows than [df], and every row label
    in it is a row label of [df]; so the reported match count never
    exceeds the total. *)
Theorem sidebar_never_grows (df r : ref) (i : Inputs) (s s' : State) :
  df < List.length (heap s) ->
  sidebar df i s = (Ok r, s') ->
  let d := nth df (heap s) empty_frame in
  let out := nth r (heap s') empty_frame in
  columns out = columns d /\
  len out <= len d /\
  (forall k, In k (index out) -> In k (index d)).
Proof.
  intros Hdf Hrun d out.
  pose proof (sidebar_run df i s Hdf) as H. fold d in H.
  destruct (filtered_view d i) as [f|e] eqn:V.
  2:{ destruct H as (s0 & H & _). congruence. }
  destruct H as (r0 & s0 & H & Hf & _).
  rewrite Hrun in H. injection H as <- <-. fold out in Hf. rewrite Hf.
  unfold filtered_view in V.
  destruct (sector_view d (selected_sector i)) as [f1|] eqn:S1; simpl in V; try discriminate.
  assert (P1 : columns f1 = columns d /\ len f1 <= len d /\
               forall k, In k (index f1) -> In k (index d)).
  { destruct (sector_view_shape _ _ _ S1) as [->|[m ->]]; [auto|].
    split; [apply columns_bool_index|]. split; [apply len_bool_index|].
    intros k. apply select_sublist. }
  destruct P1 as (C1 & L1 & I1).
  destruct (category_view_shape _ _ _ _ V) as [->|[m ->]]; [auto|].
  split; [now rewrite columns_bool_index|].
  split; [pose proof (len_bool_index f1 m); lia|].
  intros k Hk. apply I1. exact (select_sublist m _ k Hk).
Qed.

Lemma sidebar_never_grows_witness :
  len (nth 2 (heap (snd (sidebar 0 (pick (Ok sample_jobs) (CStr "Tech") (CStr "Engineering"))
                                 (holding sample_jobs))))
           empty_frame)
  <= 5.
Proof.
  destruct (sidebar_never_grows
              0 2 (pick (Ok sample_jobs) (CStr "Tech") (CStr "Engineering"))
              (holding sample_jobs)
              (snd (sidebar 0 (pick (Ok sample_jobs) (CStr "Tech") (CStr "Engineering"))
                            (holding sample_jobs)))
              (Nat.lt_0_succ 0) eq_refl) as (_ & H & _).
  exact H.
Defined.

(** ** Filtering a filtered frame *)

Lemma has_col_bool_index c d m : has_col c (bool_index d m) = has_col c d.
Proof. rewrite !has_col_lookup, lookup_bool_index. now destruct (lookup c (data d)). Qed.

Lemma sector_col_bool_index d m : sector_col (bool_index d m) = sector_col d.
Proof. unfold sector_col. now rewrite has_col_bool_index. Qed.

Lemma well_formed_bool_index d m :
  well_formed d -> List.length m = len d -> well_formed (bool_index d m).
Proof.
  unfold well_formed, bool_index, len. simpl. intros W L.
  rewrite (length_select m (index d) L).
  induction W as [|[k s] l Hs W' IH]; simpl; constructor; auto.
  simpl in *. apply length_select. congruence.
Qed.

Lemma existsb_select (P : cell -> bool) m l :
  existsb P (select m l) = true -> existsb P l = true.
Proof.
  revert l. induction m as [|b m IH]; intros [|x l]; simpl; auto; try discriminate.
  destruct b; simpl; intros H.
  - apply orb_true_iff in H as [H|H]; [now rewrite H|].
    rewrite (IH l H). apply orb_true_r.
  - rewrite (IH l H). apply orb_true_r.
Qed.

Lemma sortable_select m col : sortable col = true -> sortable (select m col) = true.
Proof.
  unfold sortable. intros H.
  destruct (existsb is_str (select m col)) eqn:S; auto.
  destruct (existsb is_num (select m col)) eqn:F; auto.
  now rewrite (existsb_select _ _ _ S), (existsb_select _ _ _ F) in H.
Qed.

Lemma select_mask_and_l a b :
  select (mask_and a b) a = repeat true (List.length (select (mask_and a b) a)).
Proof.
  revert b. induction a as [|x a IH]; intros [|y b]; simpl; auto.
  destruct x; simpl; [destruct y; simpl|]; now rewrite <- IH.
Qed.

Lemma select_mask_and_r a b :
  select (mask_and a b) b = repeat true (List.length (select (mask_and a b) b)).
Proof.
  revert b. induction a as [|x a IH]; intros [|y b]; simpl; auto.
  destruct x, y; simpl; now rewrite <- IH.
Qed.

Lemma length_mask_and a b :
  List.length a = List.length b -> List.length (mask_and a b) = List.length a.
Proof.
  revert b. induction a as [|x a IH]; intros [|y b] H; try discriminate; auto.
  simpl. injection H as H. now rewrite IH.
Qed.

(** Filtering the filtered frame again with the same selections changes
    nothing. *)
Lemma filtered_view_idempotent d i f :
  well_formed d ->
  filtered_view d i = Ok f ->
  filtered_view f i = Ok f.
Proof.
  intros W V.
  pose proof (filtered_view_ok d i) as K. rewrite V in K. simpl in K.
  symmetry in K. apply andb_true_iff in K as [Ks Kc].
  pose proof (filtered_view_mask d i f W V) as Hf.
  unfold selections in Hf. rewrite (keep_mask_two _ _ _ W) in Hf.
  set (ms := selection_mask d (sector_col d, selected_sector i)) in *.
  set (mc := selection_mask d (Skill_Category, selected_category i)) in *.
  assert (Ls : List.length ms = len d) by apply (length_selection_mask _ _ W).
  assert (Lc : List.length mc = len d) by apply (length_selection_mask _ _ W).
  assert (Lm : List.length (mask_and ms mc) = len d).
  { rewrite length_mask_and; congruence. }
  assert (Wf : well_formed f).
  { rewrite Hf. now apply well_formed_bool_index. }
  assert (Lf : forall m0 : list bool, List.length m0 = len d ->
                          List.length (select (mask_and ms mc) m0) = len f).
  { intros m0 L0. rewrite Hf. unfold len in *. simpl.
    rewrite !length_select; auto; congruence. }
  assert (Ems : cell_ne (selected_sector i) All = true ->
                forall col, lookup (sector_col d) (data d) = Some col ->
                            ms = map (fun c => cell_eq c (selected_sector i)) col).
  { intros A col E. unfold ms, selection_mask, active. simpl. now rewrite A, E. }
  assert (Emc : cell_ne (selected_category i) All = true ->
                forall col, lookup Skill_Category (data d) = Some col ->
                            mc = map (fun c => cell_eq c (selected_category i)) col).
  { intros A col E. unfold mc, selection_mask, active. simpl. now rewrite A, E. }
  assert (Hlk : forall c, lookup c (data f)
                          = option_map (select (mask_and ms mc)) (lookup c (data d))).
  { intros c. rewrite Hf. apply lookup_bool_index. }
  assert (Hhas : forall c, has_col c f = has_col c d).
  { intros c. rewrite Hf. apply has_col_bool_index. }
  assert (Hsc : sector_col f = sector_col d).
  { rewrite Hf. apply sector_col_bool_index. }
  clearbody ms mc. clear Hf.
  (* the sector stage returns [f] *)
  assert (S : sector_view f (selected_sector i) = Ok f).
  { unfold sector_view. rewrite !Hhas, Hsc.
    destruct (has_col Sector d || has_col Industry d) eqn:C; [|reflexivity].
    destruct (sector_col_present d C) as [col E].
    rewrite !getitem_lookup, Hlk, E. simpl.
    unfold sortable_column in Ks. rewrite E in Ks.
    pose proof (sortable_select (mask_and ms mc) col Ks) as Ss.
    rewrite <- sortable_unique, <- py_sorted_ok in Ss.
    destruct (py_sorted (unique (select (mask_and ms mc) col))); [|discriminate].
    simpl. destruct (cell_ne (selected_sector i) All) eqn:A; [|reflexivity].
    f_equal. unfold series_eq. rewrite <- select_map.
    rewrite <- (Ems eq_refl col E), select_mask_and_l, (Lf ms Ls).
    now apply bool_index_all. }
  unfold filtered_view. rewrite S. simpl.
  unfold category_view. rewrite Hhas.
  destruct (has_col Skill_Category d) eqn:C; [|reflexivity].
  rewrite has_col_lookup in C.
  destruct (lookup Skill_Category (data d)) as [col|] eqn:E; [|discriminate].
  rewrite !getitem_lookup, Hlk, E. simpl.
  unfold sortable_column in Kc. rewrite E in Kc.
  pose proof (sortable_select (mask_and ms mc) col Kc) as Sc.
  rewrite <- sortable_unique, <- py_sorted_ok in Sc.
  destruct (py_sorted (unique (select (mask_and ms mc) col))); [|discriminate].
  simpl. destruct (cell_ne (selected_category i) All) eqn:A; [|reflexivity].
  f_equal. unfold series_eq. rewrite <- select_map.
  rewrite <- (Emc eq_refl col eq_refl), select_mask_and_r, (Lf mc Lc).
  now apply bool_index_all.
Qed.

(** X12: filtering is idempotent: running the sidebar on [df_filtered]
    with the same selections gives a frame equal to [df_filtered]. *)
Theorem sidebar_twice_same_rows (df r : ref) (i : Inputs) (s s' : State) :
  df < List.length (heap s) ->
  well_formed (nth df (heap s) empty_frame) ->
  sidebar df i s = (Ok r, s') ->
  outcome (sidebar r i s') = Ok (nth r (heap s') empty_frame).
Proof.
  intros Hdf W Hrun.
  pose proof (sidebar_run df i s Hdf) as H.
  destruct (filtered_view (nth df (heap s) empty_frame) i) as [f|e] eqn:V.
  2:{ destruct H as (s0 & H & _). congruence. }
  destruct H as (r0 & s0 & H & Hf & Hle & [[ext Hext] _] & _).
  rewrite Hrun in H. injection H as <- <-.
  assert (Hr : r < List.length (heap s')).
  { destruct (Nat.lt_ge_cases r (List.length (heap s'))) as [|Hge]; auto.
    exfalso. clear Hf V.
    (* [r] was allocated by this call, so it is an address of [s'] *)
    unfold sidebar, bind, render in Hrun. rewrite sector_filter_run in Hrun.
    cbn [heap cache screen] in Hrun.
    destruct (sector_view _ _) as [f1|]; [|discriminate].
    rewrite category_filter_run in Hrun. cbn [heap cache screen] in Hrun.
    destruct (category_view _ _ _) as [f2|]; [|discriminate].
    destruct (_ && _); unfold deref, ret in Hrun;
      cbn [heap cache screen] in Hrun; injection Hrun as <- <-;
      cbn [heap] in Hge; rewrite ?length_app in Hge; simpl in Hge; lia. }
  rewrite (sidebar_outcome r i s' Hr), Hf.
  now apply (filtered_view_idempotent _ i f W).
Qed.

Lemma sidebar_twice_same_rows_witness :
  outcome (sidebar 2 (pick (Ok sample_jobs) (CStr "Tech") (CStr "Engineering"))
                   (snd (sidebar 0 (pick (Ok sample_jobs) (CStr "Tech") (CStr "Engineering"))
                                 (holding sample_jobs))))
  = Ok (bool_index sample_jobs [true; false; false; false; true]).
Proof.
  assert (W : well_formed sample_jobs) by (repeat constructor).
  exact (sidebar_twice_same_rows
           0 2 (pick (Ok sample_jobs) (CStr "Tech") (CStr "Engineering"))
           (holding sample_jobs)
           (snd (sidebar 0 (pick (Ok sample_jobs) (CStr "Tech") (CStr "Engineering"))
                         (holding sample_jobs)))
           (Nat.lt_0_succ 0) W eq_refl).
Defined.

(** ** The options of a select box *)

Lemma insert_sorted_In x l r :
  insert_sorted x l = Ok r -> forall y, In y r <-> y = x \/ In y l.
Proof.
  revert r. induction l as [|z l IH]; simpl; intros r H y.
  - injection H as <-. simpl. intuition congruence.
  - destruct (cell_lt x z) as [[]|]; simpl in H; try discriminate.
    + injection H as <-. simpl. intuition congruence.
    + destruct (insert_sorted x l) as [r'|]; simpl in H; try discriminate.
      injection H as <-. simpl. rewrite (IH r' eq_refl y). intuition congruence.
Qed.

Lemma py_sorted_In l r : py_sorted l = Ok r -> forall y, In y r <-> In y l.
Proof.
  revert r. induction l as [|x l IH]; simpl; intros r H y.
  - injection H as <-. reflexivity.
  - destruct (py_sorted l) as [r'|]; simpl in H; try discriminate.
    rewrite (insert_sorted_In x r' r H y), (IH r' eq_refl y). intuition congruence.
Qed.

Lemma unique_In y l : In y (unique l) -> In y l.
Proof.
  induction l as [|c l IH]; simpl; auto.
  intros [H|H]; auto. apply filter_In in H as [H _]. auto.
Qed.

(** A value only itself counts as the same as: a label, or NaN. *)
Lemma unique_In_own x l :
  (forall c, cell_same c x = true -> c = x) -> In x l -> In x (unique l).
Proof.
  intros Hx. induction l as [|c l IH]; simpl; auto.
  intros [H|H]; auto.
  destruct (cell_same c x) eqn:E.
  - left. auto.
  - right. apply filter_In. split; auto. now rewrite E.
Qed.

Lemma cell_same_label c s : cell_same c (CStr s) = true -> c = CStr s.
Proof.
  destruct c as [x|z|t]; simpl; try discriminate.
  intros H. apply String.eqb_eq in H. now subst.
Qed.

Lemma cell_same_nan c : cell_same c NaN = true -> c = NaN.
Proof.
  destruct c as [x|z|t]; simpl; try discriminate.
  destruct x; simpl; try discriminate. reflexivity.
Qed.

Lemma select_options_In col opts :
  select_options col = Ok opts ->
  forall x, (forall c, cell_same c x = true -> c = x) ->
            (In x opts <-> x = All \/ In x col).
Proof.
  unfold select_options. intros H x Hx.
  destruct (py_sorted (unique col)) as [r|] eqn:P; simpl in H; try discriminate.
  injection H as <-. simpl. rewrite (py_sorted_In _ _ P x).
  split; intros [H|H]; auto.
  - right. now apply unique_In.
  - right. now apply unique_In_own.
Qed.

(** X13: the options of a select box start with "All", and a label is
    among them exactly when it is "All" or occurs in the column. *)
Theorem select_options_labels (col : Series) (opts : list cell) :
  select_options col = Ok opts ->
  hd_error opts = Some All /\
  forall s, In (CStr s) opts <-> s = "All" \/ In (CStr s) col.
Proof.
  intros H. split.
  - unfold select_options in H.
    destruct (py_sorted (unique col)); simpl in H; try discriminate.
    now injection H as <-.
  - intros s. rewrite (select_options_In col opts H (CStr s) (fun c => cell_same_label c s)).
    unfold All. split; intros [E|E]; auto; left; congruence.
Qed.

Lemma select_options_labels_witness :
  In (CStr "Health") [All; CStr "Finance"; CStr "Health"; CStr "Tech"].
Proof.
  apply (proj2 (select_options_labels
                  [CStr "Tech"; CStr "Health"; CStr "Tech"; CStr "Finance"; CStr "Tech"]
                  [All; CStr "Finance"; CStr "Health"; CStr "Tech"] eq_refl) "Health").
  right. simpl. auto.
Defined.

Lemma mask_sum_exists m : existsb (fun b => b) m = true -> 1 <= count_occ bool_dec m true.
Proof.
  induction m as [|[] m IH]; simpl; try discriminate; intros H; [lia|auto].
Qed.

Lemma sector_col_has d col :
  lookup (sector_col d) (data d) = Some col ->
  has_col Sector d || has_col Industry d = true.
Proof.
  intros E. destruct (has_col Sector d || has_col Industry d) eqn:C; auto.
  rewrite (sector_col_lookup d C) in E. discriminate.
Qed.

(** X14: picking a listed label other than "All" in the sector box keeps
    at least one row of [df]. *)
Theorem listed_sector_keeps_a_row
        (d : DataFrame) (col : Series) (opts : list cell) (v : string) :
  well_formed d ->
  lookup (sector_col d) (data d) = Some col ->
  select_options col = Ok opts ->
  In (CStr v) opts ->
  v <> "All" ->
  exists f, sector_view d (CStr v) = Ok f /\ 1 <= len f.
Proof.
  intros W E Hopts Hin Hv.
  assert (Hcol : In (CStr v) col).
  { apply (select_options_In col opts Hopts (CStr v) (fun c => cell_same_label c v)) in Hin.
    destruct Hin as [Hin|Hin]; auto. unfold All in Hin. congruence. }
  unfold sector_view. rewrite (sector_col_has d col E), getitem_lookup, E. simpl.
  unfold select_options in Hopts.
  destruct (py_sorted (unique col)); simpl in Hopts; try discriminate. simpl.
  assert (A : cell_ne (CStr v) All = true).
  { unfold cell_ne, All. simpl. destruct (String.eqb v "All") eqn:Q; auto.
    apply String.eqb_eq in Q. contradiction. }
  rewrite A. eexists. split; [reflexivity|].
  unfold len. simpl. rewrite length_select.
  - apply mask_sum_exists. unfold series_eq. clear - Hcol.
    induction col as [|c col IH]; simpl in *; [contradiction|].
    destruct Hcol as [->|H].
    + simpl. now rewrite String.eqb_refl.
    + rewrite (IH H). apply orb_true_r.
  - unfold series_eq. rewrite length_map. apply (well_formed_lookup _ _ _ W E).
Qed.

Lemma listed_sector_keeps_a_row_witness :
  exists f, sector_view sample_jobs (CStr "Health") = Ok f /\ 1 <= len f.
Proof.
  assert (W : well_formed sample_jobs) by (repeat constructor).
  assert (Hne : "Health" <> "All") by discriminate.
  apply (listed_sector_keeps_a_row
           sample_jobs
           [CStr "Tech"; CStr "Health"; CStr "Tech"; CStr "Finance"; CStr "Tech"]
           [All; CStr "Finance"; CStr "Health"; CStr "Tech"] "Health"
           W eq_refl eq_refl); [|exact Hne].
  simpl. auto.
Defined.

Lemma eqb_nan_r x : F64.eqb x nan = false.
Proof. now destruct x. Qed.

Lemma cell_eq_nan c : cell_eq c NaN = false.
Proof. destruct c as [x|z|t]; simpl; auto using eqb_nan_r. Qed.

Lemma select_none {A} (l : list A) n : select (repeat false n) l = [].
Proof. revert l. induction n; intros [|x l]; simpl; auto. Qed.

(** X15: a numeric filter column with an empty field offers NaN as an
    option, and that option keeps no row: NaN equals nothing, itself
    included. *)
Theorem missing_value_option_keeps_no_row
        (d : DataFrame) (col : Series) (opts : list cell) :
  lookup (sector_col d) (data d) = Some col ->
  select_options col = Ok opts ->
  In NaN col ->
  In NaN opts /\
  exists f, sector_view d NaN = Ok f /\ len f = 0.
Proof.
  intros E Hopts Hin. split.
  - apply (select_options_In col opts Hopts NaN cell_same_nan). auto.
  - unfold sector_view. rewrite (sector_col_has d col E), getitem_lookup, E. simpl.
    unfold select_options in Hopts.
    destruct (py_sorted (unique col)); simpl in Hopts; try discriminate. simpl.
    eexists. split; [reflexivity|].
    unfold len. simpl.
    assert (M : series_eq col NaN = repeat false (List.length col)).
    { unfold series_eq. clear. induction col as [|c col IH]; simpl; auto.
      now rewrite cell_eq_nan, IH. }
    now rewrite M, select_none.
Qed.

Lemma missing_value_option_keeps_no_row_witness :
  exists f, sector_view sample_codes NaN = Ok f /\ len f = 0.
Proof.
  refine (proj2 (missing_value_option_keeps_no_row
                   sample_codes [f64 51; NaN; f64 62] [All; f64 51; f64 62; NaN]
                   eq_refl eq_refl _)).
  simpl. auto.
Defined.

(* ================================================================== *)
(** * Further properties: the count indicators *)

(** ** Whole numbers below 2^53 are binary64 numbers *)

Lemma digits2_pos_iter_xO p k :
  digits2_pos (Pos.iter xO p k) = (digits2_pos p + k)%positive.
Proof.
  induction k using Pos.peano_ind.
  - simpl. now rewrite Pos.add_1_r.
  - rewrite Pos.iter_succ. simpl. rewrite IHk. lia.
Qed.

Lemma digits2_pos_lower p : (2 ^ (Zpos (digits2_pos p) - 1) <= Zpos p)%Z.
Proof.
  induction p as [p IH|p IH|]; simpl digits2_pos.
  - rewrite Pos2Z.inj_succ.
    replace (Z.succ (Zpos (digits2_pos p)) - 1)%Z with (Z.succ (Zpos (digits2_pos p) - 1))%Z by lia.
    rewrite Z.pow_succ_r by lia. lia.
  - rewrite Pos2Z.inj_succ.
    replace (Z.succ (Zpos (digits2_pos p)) - 1)%Z with (Z.succ (Zpos (digits2_pos p) - 1))%Z by lia.
    rewrite Z.pow_succ_r by lia. lia.
  - simpl. lia.
Qed.

Lemma digits2_pos_small p : (Zpos p < 2 ^ 53)%Z -> (Zpos (digits2_pos p) <= 53)%Z.
Proof.
  intros H. destruct (Z_le_gt_dec (Zpos (digits2_pos p)) 53) as [|G]; auto.
  exfalso. pose proof (digits2_pos_lower p) as L.
  assert (2 ^ 53 <= 2 ^ (Zpos (digits2_pos p) - 1))%Z by (apply Z.pow_le_mono_r; lia).
  lia.
Qed.

Lemma binary_round_aux_exact s m e :
  Zpos (digits2_pos m) = 53%Z -> (-1074 <= e <= 971)%Z ->
  binary_round_aux prec emax s (Zpos m) e loc_Exact = S754_finite s m e.
Proof.
  intros D He.
  assert (F : shr_fexp prec emax (Zpos m) e loc_Exact
              = (Build_shr_record (Zpos m) false false, e)).
  { unfold shr_fexp.
    replace (IntDef.Z.sub (fexp prec emax (IntDef.Z.add (Zdigits2 (Zpos m)) e)) e) with 0%Z.
    - reflexivity.
    - change (0 = fexp prec emax (Zdigits2 (Zpos m) + e) - e)%Z.
      unfold fexp, SpecFloat.emin, prec, emax. simpl Zdigits2.
      change (0 = Z.max (Zpos (digits2_pos m) + e - 53) (3 - 1024 - 53) - e)%Z.
      rewrite D. lia. }
  unfold binary_round_aux. rewrite F. cbn [shr_m loc_of_shr_record round_nearest_even].
  rewrite F.  cbn [shr_m].
  change (IntDef.Z.leb e (IntDef.Z.sub emax prec)) with (e <=? 971)%Z.
  destruct (e <=? 971)%Z eqn:L; [reflexivity|]. apply Z.leb_gt in L. lia.
Qed.

Lemma of_Z_pos_finite p :
  (Zpos p < 2 ^ 53)%Z -> exists m e, of_Z (Zpos p) = S754_finite false m e.
Proof.
  intros H. pose proof (digits2_pos_small p H) as D.
  unfold of_Z, of_dyadic, binary_normalize, binary_round.
  assert (F : fexp prec emax (Zpos (digits2_pos p) + 0) = (Zpos (digits2_pos p) - 53)%Z).
  { unfold fexp, SpecFloat.emin, prec, emax. lia. }
  rewrite F. unfold shl_align.
  destruct (Zpos (digits2_pos p) - 53 - 0)%Z as [|q|q] eqn:Q; try lia.
  - rewrite binary_round_aux_exact; eauto; lia.
  - rewrite binary_round_aux_exact; eauto; try lia.
    rewrite digits2_pos_iter_xO. lia.
Qed.

Lemma of_nat_finite n :
  0 < n -> (Z.of_nat n < 2 ^ 53)%Z ->
  exists m e, of_Z (Z.of_nat n) = S754_finite false m e.
Proof.
  intros Hn Hb. destruct n as [|n]; [lia|].
  rewrite Nat2Z.inj_succ, <- Zpos_P_of_succ_nat in *. now apply of_Z_pos_finite.
Qed.

Lemma of_nat_not_special n :
  (Z.of_nat n < 2 ^ 53)%Z ->
  is_nan (of_Z (Z.of_nat n)) = false /\ is_inf (of_Z (Z.of_nat n)) = false /\
  is_zero (of_Z (Z.of_nat n)) = Nat.eqb n 0.
Proof.
  intros Hb. destruct n as [|n].
  - repeat split.
  - destruct (of_nat_finite (S n) ltac:(lia) Hb) as (m & e & ->). repeat split.
Qed.

(** A percentage is NaN exactly when it is taken of nothing. *)
Lemma percentage_is_nan count n :
  count <= n -> (Z.of_nat n < 2 ^ 53)%Z ->
  is_nan (percentage count n) = Nat.eqb n 0.
Proof.
  intros Hc Hb. unfold percentage. rewrite mul_is_nan, div_is_nan.
  destruct (of_nat_not_special n Hb) as (Nn & In & Zn).
  destruct (of_nat_not_special count ltac:(lia)) as (Nc & Ic & Zc).
  rewrite Nn, In, Zn, Nc, Ic, Zc.
  change (is_zero (of_Z 100)) with false. change (is_inf (of_Z 100)) with false.
  change (is_nan (of_Z 100)) with false.
  rewrite !andb_false_r, !orb_false_r. simpl.
  destruct n; simpl.
  - assert (count = 0) by lia. subst. reflexivity.
  - apply andb_false_r.
Qed.

(** ** The two percentages *)

Lemma mask_sum_le m : mask_sum m <= List.length m.
Proof. unfold mask_sum. induction m as [|[] m IH]; simpl; lia. Qed.

Lemma mapM_select {A B} (f : A -> result B) l l' m :
  mapM f l = Ok l' -> mapM f (select m l) = Ok (select m l').
Proof.
  revert l l'. induction m as [|b m IH]; intros [|x l] l' H; simpl in *;
    try (injection H as <-); try reflexivity.
  destruct (f x) as [y|] eqn:F; simpl in H; try discriminate.
  destruct (mapM f l) as [ys|] eqn:E; simpl in H; try discriminate.
  injection H as <-. destruct b; simpl.
  - now rewrite F, (IH l ys E).
  - exact (IH l ys E).
Qed.

(** X16: each of the two percentages is a number when [df_filtered] has
    rows and NaN when it has none (a combination of selections that
    matches nothing); the division by zero raises nothing. *)
Theorem count_indicators_nan_iff_empty (f : DataFrame) :
  well_formed f ->
  (Z.of_nat (len f) < 2 ^ 53)%Z ->
  (forall u, lookup Urgency_Category (data f) = Some u ->
     exists v, critical_pct f = Ok (Some v) /\ is_nan v = Nat.eqb (len f) 0) /\
  (forall r, lookup Reskilling_Viability_Ratio (data f) = Some r ->
     forallb is_num r = true ->
     exists v, viable_pct f = Ok (Some v) /\ is_nan v = Nat.eqb (len f) 0).
Proof.
  intros W B. split.
  - intros u E. unfold critical_pct. rewrite has_col_lookup, getitem_lookup, E. simpl.
    eexists. split; [reflexivity|]. apply percentage_is_nan; auto.
    rewrite <- (well_formed_lookup _ _ _ W E).
    pose proof (mask_sum_le (series_eq u (CStr Critical))) as L.
    unfold series_eq in L at 2. now rewrite length_map in L.
  - intros r E Fr. unfold viable_pct. rewrite has_col_lookup, getitem_lookup, E.
    cbn [rbind].
    destruct (mapM_total (fun c => cell_ge c 1) r) as [m Hm].
    { apply Forall_forall. intros c Hc. rewrite forallb_forall in Fr.
      apply Fr in Hc. destruct c; [reflexivity|reflexivity|discriminate]. }
    unfold series_ge. rewrite Hm. cbn [rbind].
    eexists. split; [reflexivity|]. apply percentage_is_nan; auto.
    rewrite <- (well_formed_lookup _ _ _ W E), <- (mapM_length _ _ _ Hm).
    apply mask_sum_le.
Qed.

Lemma count_indicators_nan_iff_empty_witness :
  exists v, critical_pct (bool_index sample_years_loaded [false; false; false; false; false; false])
            = Ok (Some v) /\ is_nan v = true.
Proof.
  assert (W : well_formed (bool_index sample_years_loaded
                                      [false; false; false; false; false; false]))
    by (repeat constructor).
  assert (B : (Z.of_nat 0 < 2 ^ 53)%Z) by reflexivity.
  exact (proj1 (count_indicators_nan_iff_empty _ W B) [] eq_refl).
Defined.

Lemma urgency_is_critical c c' :
  urgency c = Ok c' -> cell_eq c' (CStr Critical) = short_half_life c.
Proof.
  destruct (to_float c) as [x|] eqn:Hx; [|destruct c; discriminate].
  rewrite (urgency_to_float c x Hx), urgency_float.
  intros H. apply Ok_inj in H. subst c'.
  unfold short_half_life. rewrite Hx.
  destruct (is_nan x) eqn:N.
  { destruct x; try discriminate. reflexivity. }
  rewrite (leb_ltb x (of_Z 2) N eq_refl).
  pose proof (ltb_trans (of_Z 0) (of_Z 2) x eq_refl) as H02.
  pose proof (ltb_trans (of_Z 2) (of_Z 5) x eq_refl) as H25.
  pose proof (ltb_trans (of_Z 5) (of_Z 10) x eq_refl) as H510.
  destruct (F64.ltb (of_Z 10) x) eqn:L10.
  { rewrite (H25 (H510 eq_refl)), (H02 (H25 (H510 eq_refl))). reflexivity. }
  destruct (F64.ltb (of_Z 5) x) eqn:L5.
  { rewrite (H25 eq_refl), (H02 (H25 eq_refl)). reflexivity. }
  destruct (F64.ltb (of_Z 2) x) eqn:L2.
  { rewrite (H02 eq_refl). reflexivity. }
  destruct (F64.ltb (of_Z 0) x); reflexivity.
Qed.

Lemma mapM_map_rel {A B C} (f : A -> result B) (g : B -> C) (h : A -> C) l l' :
  (forall a b, f a = Ok b -> g b = h a) ->
  mapM f l = Ok l' -> map g l' = map h l.
Proof.
  intros R. revert l'. induction l as [|x l IH]; simpl; intros l' H.
  - now injection H as <-.
  - destruct (f x) as [y|] eqn:F; simpl in H; try discriminate.
    destruct (mapM f l) as [ys|]; simpl in H; try discriminate.
    injection H as <-. simpl. now rewrite (R x y F), (IH ys).
Qed.

(** X17: "Critical Skills" counts exactly the rows of [df_filtered] whose
    half-life lies in (0, 2], whatever rows of the loaded frame were
    kept. *)
Theorem critical_pct_counts_short_half_lives
        (d d' : DataFrame) (y : Series) (m : list bool) :
  feature_engineering d = Ok d' ->
  lookup Years (data d) = Some y ->
  critical_pct (bool_index d' m)
  = Ok (Some (percentage (mask_sum (map short_half_life (select m y)))
                         (len (bool_index d' m)))).
Proof.
  intros H Y. apply feature_engineering_spec in H as (_ & _ & _ & U & _).
  rewrite Y in U. destruct U as (u & Hu & Eu).
  unfold critical_pct.
  rewrite has_col_bool_index, has_col_lookup, getitem_lookup, lookup_bool_index, Eu.
  simpl. do 3 f_equal. unfold series_eq.
  rewrite <- select_map, <- (select_map short_half_life).
  now rewrite (mapM_map_rel _ _ short_half_life _ _ urgency_is_critical Hu).
Qed.

Lemma critical_pct_counts_short_half_lives_witness :
  critical_pct sample_years_loaded = Ok (Some (percentage 1 6)).
Proof.
  exact (critical_pct_counts_short_half_lives
           sample_years sample_years_loaded
           [CFloat (of_dyadic 3 (-1)); f64 7; f64 15; f64 0; f64 (-3); NaN]
           [true; true; true; true; true; true] eq_refl eq_refl).
Defined.

(** The comparison [>= 1] on the ratio of a row is the test that
    reskilling is in time. *)
Lemma cell_div_ge1 a b r :
  cell_div (cell_mul_int a 12) b = Ok r ->
  cell_ge r 1 = Ok (reskilling_in_time a b).
Proof.
  unfold cell_div, reskilling_in_time.
  destruct (to_float (cell_mul_int a 12)) as [x|], (to_float b) as [y|];
    try (destruct (isna (cell_mul_int a 12) || isna b); [|discriminate]);
    intros H; apply Ok_inj in H; subst r; reflexivity.
Qed.

Lemma zipM_div_ge1 y mo r :
  zipM cell_div (series_mul_int y 12) mo = Ok r ->
  series_ge r 1 = Ok (zip_with reskilling_in_time y mo).
Proof.
  revert mo r. induction y as [|a y IH]; intros [|b mo] r H; simpl in *;
    try (injection H as <-; reflexivity).
  destruct (cell_div (cell_mul_int a 12) b) as [c|] eqn:C; simpl in H; try discriminate.
  destruct (zipM cell_div (series_mul_int y 12) mo) as [r'|] eqn:E; simpl in H;
    try discriminate.
  injection H as <-. unfold series_ge in *. cbn [mapM].
  rewrite (cell_div_ge1 a b c C), (IH mo r' E). reflexivity.
Qed.

Lemma leb_nan_r v x : is_nan x = true -> F64.leb v x = false.
Proof. destruct x; try discriminate. now destruct v. Qed.

Lemma reskilling_in_time_missing a b :
  isna a = true \/ isna b = true -> reskilling_in_time a b = false.
Proof.
  unfold reskilling_in_time. intros N.
  destruct (to_float (cell_mul_int a 12)) as [x|] eqn:X; [|reflexivity].
  destruct (to_float b) as [y|] eqn:Y; [|reflexivity].
  apply leb_nan_r. rewrite div_is_nan.
  destruct N as [N|N].
  - destruct a as [ya|z|s]; try discriminate N. cbn [isna] in N.
    cbn [cell_mul_int to_float] in X. apply Some_inj in X. subst x.
    now rewrite mul_is_nan, N.
  - rewrite (to_float_not_nan b y Y), N, orb_true_r. reflexivity.
Qed.

(** X18: "Reskilling Viable" never raises on the loader's ratio column
    and counts exactly the rows of [df_filtered] in which
    [(years * 12) / months >= 1], the product being taken in the type of
    the half-life column ([int64] with its wrap-around for whole
    numbers) and the quotient in binary64; a row with a missing input is
    not counted. *)
Theorem viable_pct_counts_reskilling_in_time
        (d d' : DataFrame) (y mo : Series) (m : list bool) :
  feature_engineering d = Ok d' ->
  lookup Years (data d) = Some y ->
  lookup Months (data d) = Some mo ->
  viable_pct (bool_index d' m)
  = Ok (Some (percentage (mask_sum (select m (zip_with reskilling_in_time y mo)))
                         (len (bool_index d' m)))) /\
  (forall a b, isna a = true \/ isna b = true -> reskilling_in_time a b = false).
Proof.
  intros H Y Mo. split.
  - apply feature_engineering_spec in H as (_ & _ & _ & _ & R).
    rewrite Y, Mo in R. destruct R as (r & Hr & Er).
    unfold viable_pct.
    rewrite has_col_bool_index, has_col_lookup, getitem_lookup, lookup_bool_index, Er.
    cbn [option_map rbind]. unfold series_ge.
    rewrite (mapM_select _ _ _ m (zipM_div_ge1 y mo r Hr)). reflexivity.
  - exact reskilling_in_time_missing.
Qed.

Lemma viable_pct_counts_reskilling_in_time_witness :
  viable_pct sample_skills_loaded = Ok (Some (percentage 2 4)).
Proof.
  exact (proj1 (viable_pct_counts_reskilling_in_time
                  sample_skills sample_skills_loaded
                  [CFloat (of_dyadic 3 (-1)); f64 7; f64 2; f64 1]
                  [f64 6; f64 0; f64 36; NaN]
                  [true; true; true; true] eq_refl eq_refl eq_refl)).
Defined.

(** ** The order of the urgency categories *)

Lemma ltb_leb_trans x y z :
  F64.ltb x y = true -> F64.leb y z = true -> F64.ltb x z = true.
Proof.
  unfold F64.ltb, F64.leb, SFltb, SFleb.
  destruct x as [sx|sx| |sx mx ex], y as [sy|sy| |sy my ey], z as [sz|sz| |sz mz ez];
    simpl; try discriminate;
    try destruct sx; try destruct sy; try destruct sz; simpl;
    try discriminate; try reflexivity.
  all: destruct (Z.compare_spec ex ey), (Z.compare_spec ey ez), (Z.compare_spec ex ez);
    subst; try lia; try discriminate; try reflexivity;
    rewrite ?Pos.compare_cont_spec; simpl;
    destruct (Pos.compare_spec mx my), (Pos.compare_spec my mz), (Pos.compare_spec mx mz);
    simpl; try discriminate; try reflexivity; lia.
Qed.

Lemma leb_not_nan x y : F64.leb x y = true -> is_nan x = false /\ is_nan y = false.
Proof. destruct x, y; simpl; try discriminate; auto. Qed.

(** Of two positive half-lives the longer one never gets a more urgent
    label, and both get one of the four labels. *)
Lemma urgency_monotone (x y : float64) :
  F64.ltb (of_Z 0) x = true ->
  F64.leb x y = true ->
  exists cx cy,
    urgency (CFloat x) = Ok cx /\ urgency (CFloat y) = Ok cy /\
    urgency_rank cx <= urgency_rank cy <= 3.
Proof.
  intros Px Lxy.
  destruct (leb_not_nan x y Lxy) as [Nx Ny].
  pose proof (ltb_leb_trans _ _ _ Px Lxy) as Py.
  pose proof (fun c (H : F64.ltb c x = true) => ltb_leb_trans c x y H Lxy) as Up.
  rewrite !urgency_float, Nx, Ny. do 2 eexists. split; [reflexivity|]. split; [reflexivity|].
  pose proof (ltb_trans (of_Z 2) (of_Z 5) y eq_refl) as H25.
  pose proof (ltb_trans (of_Z 5) (of_Z 10) y eq_refl) as H510.
  destruct (F64.ltb (of_Z 10) x) eqn:X10.
  { rewrite (Up _ X10). cbn. lia. }
  destruct (F64.ltb (of_Z 5) x) eqn:X5.
  { rewrite (Up _ X5). destruct (F64.ltb (of_Z 10) y); cbn; lia. }
  destruct (F64.ltb (of_Z 2) x) eqn:X2.
  { rewrite (Up _ X2).
    destruct (F64.ltb (of_Z 10) y); [cbn; lia|].
    destruct (F64.ltb (of_Z 5) y); cbn; lia. }
  rewrite Px, Py.
  destruct (F64.ltb (of_Z 10) y); [cbn; lia|].
  destruct (F64.ltb (of_Z 5) y); [cbn; lia|].
  destruct (F64.ltb (of_Z 2) y); cbn; lia.
Qed.

(** X19: in the loader's frame the categories follow the half-lives:
    every row with a positive half-life, plus infinity included, gets
    one of the four labels, and of two rows with positive half-lives
    the one with the longer half-life never gets a more urgent label.
    This holds for all numbers [x <= y], whether they come from float
    or from whole-number columns. *)
Theorem urgency_follows_half_life
        (df : DataFrame) (i j : nat) (ci cj : cell) (x y : float64) :
  numeric_inputs df = true ->
  cell_at df Years i = Some ci ->
  cell_at df Years j = Some cj ->
  to_float ci = Some x ->
  to_float cj = Some y ->
  F64.ltb (of_Z 0) x = true ->
  F64.leb x y = true ->
  exists df' ui uj,
    feature_engineering df = Ok df' /\
    urgency (CFloat x) = Ok ui /\ urgency (CFloat y) = Ok uj /\
    cell_at df' Urgency_Category i = Some ui /\
    cell_at df' Urgency_Category j = Some uj /\
    urgency_rank ui <= urgency_rank uj <= 3.
Proof.
  intros Hn Hi Hj Hx Hy Px Lxy.
  destruct (feature_engineering_total df Hn) as [df' H].
  destruct (urgency_row _ _ _ _ H Hi) as (ui & Hui & Hci).
  destruct (urgency_row _ _ _ _ H Hj) as (uj & Huj & Hcj).
  rewrite (urgency_to_float ci x Hx) in Hui.
  rewrite (urgency_to_float cj y Hy) in Huj.
  exists df', ui, uj.
  split; [exact H|]. split; [exact Hui|]. split; [exact Huj|].
  split; [exact Hci|]. split; [exact Hcj|].
  destruct (urgency_monotone x y Px Lxy) as (cx & cy & Hcx & Hcy & R).
  rewrite Hui in Hcx. rewrite Huj in Hcy.
  apply Ok_inj in Hcx. apply Ok_inj in Hcy. now subst cx cy.
Qed.

Lemma urgency_follows_half_life_witness :
  exists df' ui uj,
    feature_engineering sample_years = Ok df' /\
    urgency (CFloat (of_dyadic 3 (-1))) = Ok ui /\ urgency (f64 15) = Ok uj /\
    cell_at df' Urgency_Category 0 = Some ui /\
    cell_at df' Urgency_Category 2 = Some uj /\
    urgency_rank ui <= urgency_rank uj <= 3.
Proof.
  exact (urgency_follows_half_life sample_years 0 2 _ _ _ _
           eq_refl eq_refl eq_refl eq_refl eq_refl eq_refl eq_refl).
Defined.
